(** * ImageClassifier: a shallow embedding of [model.py]

    The class [ImageClassifier] is glue code around Keras, scikit-learn,
    NumPy, matplotlib and the [os] module.  The embedding keeps the class's own
    control flow and data flow as Rocq functions in a state-and-exception monad
    and records every call into a library, with its arguments, in a trace.
    What a library answers is left to an interface ([Framework]) over which
    all theorems are quantified; the small pure helpers whose result the class
    inspects ([str.lower], tuple concatenation, [os.path.join], [np.unique],
    [np.argmax], balanced class weights) are modelled as functions. *)

From Stdlib Require Import String Ascii ZArith QArith List Lia Bool.
From Stdlib Require Import Sorted.
From stdpp Require Import base option list strings gmap pretty.

Set Default Proof Using "Type".
Local Open Scope Z_scope.

(* ------------------------------------------------------------------------- *)
(** ** Python strings and paths *)

Module Py.

(** [str.lower] on one character.  Strings are byte strings here: the letters
    A..Z go to a..z, every other byte is kept.  ([str.lower] also maps
    capitals outside ASCII; none of them goes to a letter of the three
    backbone names, so the selection by name is the same.) *)
Definition lower_char (c : ascii) : ascii :=
  let n := nat_of_ascii c in
  if ((65 <=? n)%nat && (n <=? 90)%nat)%bool then ascii_of_nat (n + 32) else c.

(** [s.lower()]. *)
Fixpoint lower (s : string) : string :=
  match s with
  | EmptyString => EmptyString
  | String c r => String (lower_char c) (lower r)
  end.


(** [s.startswith(p)] and [s.endswith("/")]. *)
Definition startswith (p s : string) : bool := String.prefix p s.

Fixpoint endswith_sep (s : string) : bool :=
  match s with
  | EmptyString => false
  | String c EmptyString => Ascii.eqb c "/"
  | String _ r => endswith_sep r
  end.

(** [os.path.join(a, b)] of [posixpath], for two components:
    an absolute [b] replaces [a]; an empty [a] or one that ends with the
    separator takes [b] as it is; otherwise the separator goes in between. *)
Definition os_path_join (a b : string) : string :=
  if startswith "/" b then b
  else if (String.eqb a "" || endswith_sep a)%bool then a +:+ b
  else a +:+ "/" +:+ b.

End Py.

(* ------------------------------------------------------------------------- *)
(** ** Exceptions *)

Inductive exn :=
| ValueError (msg : string)
| IndexError
| KeyError (key : string)
| AttributeError (attr : string)
| LibraryError (msg : string).

(* ------------------------------------------------------------------------- *)
(** ** NumPy and scikit-learn helpers whose result the class inspects

    Floats are idealised as exact rationals. *)

Module Np.

(** Insertion into a strictly increasing list. *)
Fixpoint insert_sorted (x : Z) (l : list Z) : list Z :=
  match l with
  | [] => [x]
  | y :: r => if x <? y then x :: l
              else if x =? y then l
              else y :: insert_sorted x r
  end.

(** [np.unique(y)]: the distinct values of [y] in increasing order. *)
Definition unique (y : list Z) : list Z := foldr insert_sorted [] y.

(** Index of the first maximum of [x :: row], scanning from position [i]. *)
Fixpoint argmax_from (best : Q) (besti i : nat) (row : list Q) : nat :=
  match row with
  | [] => besti
  | x :: r => if Qle_bool x best then argmax_from best besti (S i) r
              else argmax_from x i (S i) r
  end.

(** [np.argmax] of one row; an empty row raises [ValueError]. *)
Definition argmax_row (row : list Q) : exn + Z :=
  match row with
  | [] => inl (ValueError "attempt to get argmax of an empty sequence")
  | x :: r => inr (Z.of_nat (argmax_from x 0 1 r))
  end.

(** [np.argmax] row by row. *)
Fixpoint argmax_rows (a : list (list Q)) : exn + list Z :=
  match a with
  | [] => inr []
  | row :: rest =>
      match argmax_row row with
      | inl e => inl e
      | inr j => match argmax_rows rest with
                 | inl e => inl e
                 | inr js => inr (j :: js)
                 end
      end
  end.

(** The rows of a two-dimensional array have one length; a nested list whose
    rows differ in length is no array. *)
Definition same_length (a : list (list Q)) : bool :=
  match a with
  | [] => true
  | row :: rest => forallb (fun r => (length r =? length row)%nat) rest
  end.

(** What [np.asarray] says of a nested list of [n] rows that differ in
    length. *)
Definition inhomogeneous_shape (n : nat) : string :=
  "setting an array element with a sequence. The requested array has an "
  +:+ "inhomogeneous shape after 1 dimensions. The detected shape was ("
  +:+ pretty n +:+ ",) + inhomogeneous part.".

(** [np.argmax(a, axis=1)] on a two-dimensional array given by its rows
    (with no row, an array of shape [(0, k)]): rows that differ in length are
    refused when the argument is made an array; an array without a column
    has no maximum in its rows. *)
Definition argmax_axis1 (a : list (list Q)) : exn + list Z :=
  if same_length a then argmax_rows a
  else inl (ValueError (inhomogeneous_shape (length a))).

(** [range(n)]. *)
Definition range (n : nat) : list Z := map Z.of_nat (seq 0 n).

End Np.

Module Sklearn.

(** [np.bincount] at one label: how often [c] occurs in [y]. *)
Definition count (y : list Z) (c : Z) : nat := count_occ Z.eq_dec y c.

(** The balanced weight of class [c]:
    [n_samples / (n_classes * count(c))]. *)
Definition balanced_weight (y : list Z) (c : Z) : Q :=
  (inject_Z (Z.of_nat (length y))
   / (inject_Z (Z.of_nat (length (Np.unique y))) * inject_Z (Z.of_nat (count y c))))%Q.

(** [compute_class_weight(class_weight="balanced", classes=classes, y=y)]:
    one weight per entry of [classes], in the order of [classes]; a class
    that does not occur in [y] raises [ValueError].  With no label in [y] the
    library raises inside the call; which exception that is depends on its
    version, so it is an argument: [no_label]. *)
Definition compute_class_weight_balanced (no_label : exn) (classes y : list Z)
  : exn + list Q :=
  match y with
  | [] => inl no_label
  | _ :: _ =>
      if forallb (fun c => bool_decide (c ∈ Np.unique y)) classes
      then inr (map (balanced_weight y) classes)
      else inl (ValueError "classes should have valid labels that are in y")
  end.

End Sklearn.

(* ------------------------------------------------------------------------- *)
(** ** Keras objects as the class sees them *)

Inductive Backbone := VGG16 | InceptionV3 | ResNet50.

(** Keyword arguments of the three [keras.applications] constructors. *)
Record ApplicationArgs := {
  weights : string;
  include_top : bool;
  app_input_shape : list Z;
}.

Inductive LayerKind :=
| Pretrained (b : Backbone) (name : string)
| GlobalAveragePooling2D
| Dense (units : Z) (activation : string).

(** A layer object: what it is and its [trainable] attribute. *)
Record Layer := { l_kind : LayerKind; trainable : bool }.

(** Layer objects are shared between the backbone and the final model, so
    they live in a store and are referred to by address. *)
Abbreviation addr := nat (only parsing).

(** A symbolic tensor, identified by the layers it was computed through. *)
Definition Tensor := list addr.

Record BaseModel := { b_layers : list addr }.

Definition b_input (b : BaseModel) : Tensor := take 1 (b_layers b).
Definition b_output (b : BaseModel) : Tensor := b_layers b.

Record CompileArgs := {
  optimizer : string;
  loss : string;
  metrics : list string;
}.

Record Model := {
  m_inputs : Tensor;
  m_outputs : Tensor;
  m_layers : list addr;
  m_compiled : option CompileArgs;
}.

Inductive Callback :=
| EarlyStopping (monitor : string) (patience : Z) (restore_best_weights : bool).

(** A data generator ([DirectoryIterator]): the class reads [classes] and
    [class_indices]; the batches themselves stay with the framework. *)
Record DirectoryIterator := {
  gen_directory : string;
  classes : list Z;
  class_indices : list (string * Z);
}.

(** Keyword arguments of [Model.fit]. *)
Record FitArgs := {
  fit_x : DirectoryIterator;
  steps_per_epoch : Z;
  fit_epochs : Z;
  validation_data : DirectoryIterator;
  validation_steps : Z;
  class_weight : option (gmap Z Q);
  callbacks : list Callback;
}.

(** [History.history]: metric name to per-epoch values. *)
Record History := { history : gmap string (list Q) }.

Inductive Metric :=
| accuracy_score
| f1_score (average : string)
| roc_auc_score
| precision_score
| recall_score.

Inductive Array := Ints (l : list Z) | Floats (l : list Q).

(** The two texts the class renders with f-strings, by their float fields. *)
Inductive Text :=
| TrainingText (acc val_acc loss val_loss : Q)
| MetricsText (f1 roc_auc accuracy : Q).

(** Calls into the libraries, with the arguments the class passes. *)
Inductive Event :=
| EApplication (b : Backbone) (a : ApplicationArgs)
| EGlobalAveragePooling2D (x : Tensor)
| EDense (units : Z) (activation : string) (x : Tensor)
| EModel (inputs outputs : Tensor)
| ECompile (a : CompileArgs)
| EFit (m : Model) (a : FitArgs)
| ESave (m : Model) (filepath : string)
| EEvaluate (m : Model) (data : DirectoryIterator) (steps : Z)
| EPredict (m : Model) (data : DirectoryIterator) (steps : Z) (verbose : Z)
| EMakedirs (path : string) (exist_ok : bool)
| EMetric (k : Metric) (y_true y_pred : list Z)
| EPrecisionRecallCurve (y_true y_pred : list Z)
| EConfusionMatrix (y_true y_pred : list Z)
| EFigure (width height : Z)
| ESubplot (nrows ncols index : Z)
| EPlot (x y : Array) (label : option string)
| ELegend (loc : string)
| ETitle (s : string)
| EXlabel (s : string)
| EYlabel (s : string)
| EGca
| EText (x y : Q) (s : Text) (horizontalalignment verticalalignment : string)
        (fontsize : Z)
| EHeatmap (data : list (list Z)) (annot : bool) (fmt cmap : string)
           (cbar : bool) (xticklabels yticklabels : list string)
| ESavefig (filepath : string)
| EShow
| EPrint (label : string) (value : Q).

(** What the libraries answer.  [fw_raises] says whether a call raises in the
    library's current state and [fw_next] how that state moves on;
    [fw_no_label] is the exception [compute_class_weight] raises when there
    is no label; the other fields are the values the calls return. *)
Class Framework := {
  Env : Type;
  fw_raises : Event -> Env -> option exn;
  fw_next : Event -> Env -> Env;
  fw_no_label : exn;
  fw_layers : Backbone -> ApplicationArgs -> Env -> list (string * bool);
  fw_history : Model -> FitArgs -> Env -> History;
  fw_evaluate : Model -> DirectoryIterator -> Z -> Env -> list Q;
  fw_predict : Model -> DirectoryIterator -> Z -> Env -> list (list Q);
  fw_metric : Metric -> list Z -> list Z -> Q;
  fw_precision_recall_curve : list Z -> list Z -> list Q * list Q * list Q;
  fw_confusion_matrix : list Z -> list Z -> list (list Z);
}.

(* ------------------------------------------------------------------------- *)
(** ** The state-and-exception monad of the class *)

Section Monad.
Context `{Framework}.

(** The layer objects, the libraries' own state, and the calls made so far.
    Only the class writes [store]: the libraries' effects (weights, files,
    figures) stay in [env]. *)
Record World := {
  store : list Layer;
  env : Env;
  trace : list Event;
}.

Definition M (A : Type) : Type := World -> (exn + A) * World.

#[export] Instance M_ret : MRet M := fun A a w => (inr a, w).

#[export] Instance M_bind : MBind M := fun A B k m w =>
  match m w with
  | (inl e, w') => (inl e, w')
  | (inr a, w') => k a w'
  end.

Definition raise {A} (e : exn) : M A := fun w => (inl e, w).

(** A pure helper that may raise. *)
Definition lift {A} (r : exn + A) : M A := fun w => (r, w).

(** One call into a library: it is recorded, the library's state moves on,
    and the call either raises or returns its answer. *)
Definition call {A} (ev : Event) (answer : Env -> A) : M A := fun w =>
  let w' := {| store := store w;
               env := fw_next ev (env w);
               trace := trace w ++ [ev] |} in
  match fw_raises ev (env w) with
  | Some e => (inl e, w')
  | None => (inr (answer (env w)), w')
  end.

(** A call made for its effect only. *)
Definition call_ (ev : Event) : M () := call ev (fun _ => ()).

(** A new layer object; its address is returned. *)
Definition new_layer (l : Layer) : M addr := fun w =>
  (inr (length (store w)),
   {| store := store w ++ [l]; env := env w; trace := trace w |}).

Fixpoint new_layers (ls : list Layer) : M (list addr) :=
  match ls with
  | [] => mret []
  | l :: r => a ← new_layer l; r' ← new_layers r; mret (a :: r')
  end.

(** [layer.trainable = v] on the layer object at [a]. *)
Definition set_trainable (a : addr) (v : bool) : M () := fun w =>
  (inr (),
   {| store := alter (fun l => {| l_kind := l_kind l; trainable := v |}) a (store w);
      env := env w; trace := trace w |}).

(** [for x in l: body]. *)
Fixpoint for_each {A} (l : list A) (body : A -> M ()) : M () :=
  match l with
  | [] => mret ()
  | x :: r => body x;; for_each r body
  end.

(** [l[i]] on a list or array, for a non-negative index. *)
Definition getitem {A} (l : list A) (i : nat) : M A :=
  match l !! i with
  | Some x => mret x
  | None => raise IndexError
  end.

(** [d[key]] on a dict with string keys. *)
Definition dict_getitem {A} (d : gmap string A) (key : string) : M A :=
  match d !! key with
  | Some x => mret x
  | None => raise (KeyError key)
  end.

End Monad.

(* ------------------------------------------------------------------------- *)
(** ** The library calls of [model.py] *)

Module Keras.
Section Keras.
Context `{Framework}.

(** [VGG16(...)], [InceptionV3(...)], [ResNet50(...)]: the framework says
    which layers the backbone has; they become layer objects. *)
Definition application (b : Backbone) (a : ApplicationArgs) : M BaseModel :=
  specs ← call (EApplication b a) (fw_layers b a);
  ls ← new_layers
         (map (fun s => {| l_kind := Pretrained b s.1; trainable := s.2 |}) specs);
  mret {| b_layers := ls |}.

(** [GlobalAveragePooling2D()(x)]: a new layer, trainable by default. *)
Definition global_average_pooling_2d (x : Tensor) : M Tensor :=
  call_ (EGlobalAveragePooling2D x);;
  a ← new_layer {| l_kind := GlobalAveragePooling2D; trainable := true |};
  mret (x ++ [a]).

(** [Dense(units, activation=activation)(x)]. *)
Definition dense (units : Z) (activation : string) (x : Tensor) : M Tensor :=
  call_ (EDense units activation x);;
  a ← new_layer {| l_kind := Dense units activation; trainable := true |};
  mret (x ++ [a]).

(** [Model(inputs=inputs, outputs=outputs)]: the layers of the model are
    the ones [outputs] was computed through. *)
Definition model_new (inputs outputs : Tensor) : M Model :=
  call_ (EModel inputs outputs);;
  mret {| m_inputs := inputs; m_outputs := outputs; m_layers := outputs;
          m_compiled := None |}.

(** [model.compile(optimizer=..., loss=..., metrics=...)]. *)
Definition compile (m : Model) (a : CompileArgs) : M Model :=
  call_ (ECompile a);;
  mret {| m_inputs := m_inputs m; m_outputs := m_outputs m;
          m_layers := m_layers m; m_compiled := Some a |}.

Definition fit (m : Model) (a : FitArgs) : M History :=
  call (EFit m a) (fw_history m a).

Definition save (m : Model) (filepath : string) : M () :=
  call_ (ESave m filepath).

Definition evaluate (m : Model) (data : DirectoryIterator) (steps : Z) : M (list Q) :=
  call (EEvaluate m data steps) (fw_evaluate m data steps).

Definition predict (m : Model) (data : DirectoryIterator) (steps verbose : Z)
  : M (list (list Q)) :=
  call (EPredict m data steps verbose) (fw_predict m data steps).

End Keras.
End Keras.

Module Os.
Section Os.
Context `{Framework}.

Definition makedirs (path : string) (exist_ok : bool) : M () :=
  call_ (EMakedirs path exist_ok).

End Os.
End Os.

Module Metrics.
Section Metrics.
Context `{Framework}.

Definition score (k : Metric) (y_true y_pred : list Z) : M Q :=
  call (EMetric k y_true y_pred) (fun _ => fw_metric k y_true y_pred).

Definition precision_recall_curve (y_true y_pred : list Z)
  : M (list Q * list Q * list Q) :=
  call (EPrecisionRecallCurve y_true y_pred)
       (fun _ => fw_precision_recall_curve y_true y_pred).

Definition confusion_matrix (y_true y_pred : list Z) : M (list (list Z)) :=
  call (EConfusionMatrix y_true y_pred) (fun _ => fw_confusion_matrix y_true y_pred).

End Metrics.
End Metrics.

Module Plt.
Section Plt.
Context `{Framework}.

Definition figure (width height : Z) : M () := call_ (EFigure width height).
Definition subplot (nrows ncols index : Z) : M () := call_ (ESubplot nrows ncols index).
Definition plot (x y : Array) (label : option string) : M () := call_ (EPlot x y label).
Definition legend (loc : string) : M () := call_ (ELegend loc).
Definition title (s : string) : M () := call_ (ETitle s).
Definition xlabel (s : string) : M () := call_ (EXlabel s).
Definition ylabel (s : string) : M () := call_ (EYlabel s).
Definition gca : M () := call_ EGca.
Definition text (x y : Q) (s : Text) (ha va : string) (fontsize : Z) : M () :=
  call_ (EText x y s ha va fontsize).
Definition savefig (filepath : string) : M () := call_ (ESavefig filepath).
Definition show : M () := call_ EShow.

End Plt.
End Plt.

Module Sns.
Section Sns.
Context `{Framework}.

Definition heatmap (data : list (list Z)) (annot : bool) (fmt cmap : string)
    (cbar : bool) (xticklabels yticklabels : list string) : M () :=
  call_ (EHeatmap data annot fmt cmap cbar xticklabels yticklabels).

End Sns.
End Sns.

Module Builtins.
Section Builtins.
Context `{Framework}.

(** [print(label, value)]. *)
Definition print (label : string) (value : Q) : M () := call_ (EPrint label value).

End Builtins.
End Builtins.

(* ------------------------------------------------------------------------- *)
(** ** class ImageClassifier *)

(** The attributes of an instance.  [model] is unset until [_build_model] has
    returned. *)
Record ImageClassifier := {
  input_shape : list Z;
  num_classes : Z;
  activation : string;
  base_model_name : string;
  model : option Model;
}.

Section Class.
Context `{Framework}.

(** [self.model]. *)
Definition self_model (self : ImageClassifier) : M Model :=
  match model self with
  | Some m => mret m
  | None => raise (AttributeError "model")
  end.

Definition _build_model (self : ImageClassifier) : M Model :=
  base_model ←
    (if String.eqb (base_model_name self) "vgg16" then
       Keras.application VGG16
         {| weights := "imagenet"; include_top := false;
            app_input_shape := input_shape self ++ [3] |}
     else if String.eqb (base_model_name self) "inceptionv3" then
       Keras.application InceptionV3
         {| weights := "imagenet"; include_top := false;
            app_input_shape := input_shape self ++ [3] |}
     else if String.eqb (base_model_name self) "resnet50" then
       Keras.application ResNet50
         {| weights := "imagenet"; include_top := false;
            app_input_shape := input_shape self ++ [3] |}
     else
       raise (ValueError ("Unsupported base model name: " +:+ base_model_name self)));
  for_each (b_layers base_model) (fun layer => set_trainable layer false);;
  let x := b_output base_model in
  x ← Keras.global_average_pooling_2d x;
  x ← Keras.dense (num_classes self) (activation self) x;
  model ← Keras.model_new (b_input base_model) x;
  model ← Keras.compile model
            {| optimizer := "adam"; loss := "binary_crossentropy";
               metrics := ["accuracy"] |};
  mret model.

(** [ImageClassifier(input_shape, num_classes, activation, base_model_name)];
    the source's defaults are [2], ["sigmoid"] and ["VGG16"]. *)
Definition __init__ (input_shape : list Z) (num_classes : Z)
    (activation base_model_name : string) : M ImageClassifier :=
  let self := {| input_shape := input_shape; num_classes := num_classes;
                 activation := activation;
                 base_model_name := Py.lower base_model_name;
                 model := None |} in
  m ← _build_model self;
  mret {| input_shape := input_shape; num_classes := num_classes;
          activation := activation;
          base_model_name := Py.lower base_model_name;
          model := Some m |}.

Definition train (self : ImageClassifier)
    (train_data validation_data : DirectoryIterator)
    (epochs step_size_train step_size_val : Z)
    (class_weights augment : bool) : M History :=
  let early_stop := EarlyStopping "val_loss" 13 true in
  let base_dir := "models" in
  '(history, model_dir, filepath) ←
    (if class_weights then
       class_weight ← lift (Sklearn.compute_class_weight_balanced fw_no_label
                              (Np.unique (classes train_data)) (classes train_data));
       w0 ← getitem class_weight 0;
       w1 ← getitem class_weight 1;
       let weights : gmap Z Q := {[ 0 := w0; 1 := w1 ]} in
       m ← self_model self;
       history ← Keras.fit m
                   {| fit_x := train_data;
                      steps_per_epoch := step_size_train;
                      fit_epochs := epochs;
                      validation_data := validation_data;
                      validation_steps := step_size_val;
                      class_weight := Some weights;
                      callbacks := [early_stop] |};
       let model_dir :=
         Py.os_path_join base_dir (base_model_name self +:+ "_with_weights") in
       let filepath :=
         Py.os_path_join model_dir (base_model_name self +:+ "_with_weights.h5") in
       mret (history, model_dir, filepath)
     else
       m ← self_model self;
       history ← Keras.fit m
                   {| fit_x := train_data;
                      steps_per_epoch := step_size_train;
                      fit_epochs := epochs;
                      validation_data := validation_data;
                      validation_steps := step_size_val;
                      class_weight := None;
                      callbacks := [early_stop] |};
       if augment then
         let model_dir :=
           Py.os_path_join base_dir (base_model_name self +:+ "_data_augmentation") in
         let filepath :=
           Py.os_path_join model_dir (base_model_name self +:+ "_data_augmentation.h5") in
         mret (history, model_dir, filepath)
       else
         let model_dir := Py.os_path_join base_dir (base_model_name self) in
         let filepath := Py.os_path_join model_dir (base_model_name self +:+ ".h5") in
         mret (history, model_dir, filepath));
  Os.makedirs model_dir true;;
  m ← self_model self;
  Keras.save m filepath;;
  mret history.

Definition evaluate (self : ImageClassifier) (val_data : DirectoryIterator)
    (step_size : Z) : M (list Q) :=
  m ← self_model self;
  Keras.evaluate m val_data step_size.

Definition test (self : ImageClassifier) (test_generator : DirectoryIterator)
    (step_size_test : Z) : M (list (list Q)) :=
  m ← self_model self;
  prediction ← Keras.predict m test_generator step_size_test 1;
  mret prediction.

Definition plot_training_performance (self : ImageClassifier) (h : History)
    (class_weights augment : bool) : M () :=
  acc ← dict_getitem (history h) "accuracy";
  val_acc ← dict_getitem (history h) "val_accuracy";
  loss ← dict_getitem (history h) "loss";
  val_loss ← dict_getitem (history h) "val_loss";
  loss' ← dict_getitem (history h) "loss";
  let num_epochs := length loss' in
  Plt.figure 15 15;;
  Plt.subplot 2 2 1;;
  Plt.plot (Ints (Np.range num_epochs)) (Floats acc) (Some "Training Accuracy");;
  Plt.plot (Ints (Np.range num_epochs)) (Floats val_acc) (Some "Validation Accuracy");;
  Plt.legend "lower right";;
  Plt.title "Training and Validation Accuracy";;
  Plt.subplot 2 2 2;;
  Plt.plot (Ints (Np.range num_epochs)) (Floats loss) (Some "Training Loss");;
  Plt.plot (Ints (Np.range num_epochs)) (Floats val_loss) (Some "Validation Loss");;
  Plt.legend "upper right";;
  Plt.title "Training and Validation Loss";;
  Plt.subplot 2 2 4;;
  acc0 ← getitem acc 0;
  val_acc0 ← getitem val_acc 0;
  loss0 ← getitem loss 0;
  val_loss0 ← getitem val_loss 0;
  Plt.gca;;
  Plt.text (1 # 2) (1 # 2) (TrainingText acc0 val_acc0 loss0 val_loss0)
    "center" "center" 12;;
  let base_dir := "graphs" in
  let model_dir :=
    if class_weights then
      Py.os_path_join base_dir (base_model_name self +:+ "_with_weights")
    else if augment then
      Py.os_path_join base_dir (base_model_name self +:+ "_data_augmentation")
    else
      Py.os_path_join base_dir (base_model_name self) in
  Os.makedirs model_dir true;;
  let filepath := Py.os_path_join model_dir "training_validation_graphs.png" in
  Plt.savefig filepath;;
  Plt.show.

Definition evaluation_metrics (self : ImageClassifier)
    (prediction : list (list Q)) (test_generator : DirectoryIterator)
    (class_weights augment : bool) : M () :=
  pred ← lift (Np.argmax_axis1 prediction);
  let true_labels := classes test_generator in
  accuracy ← Metrics.score accuracy_score true_labels pred;
  f1 ← Metrics.score (f1_score "macro") true_labels pred;
  roc_auc ← Metrics.score roc_auc_score true_labels pred;
  '(prec, recall, _) ← Metrics.precision_recall_curve true_labels pred;
  Plt.figure 15 15;;
  Plt.subplot 2 2 1;;
  Plt.plot (Floats prec) (Floats recall) None;;
  Plt.title "Precision vs Recall";;
  Plt.subplot 2 2 2;;
  Plt.gca;;
  Plt.text (1 # 2) (1 # 2) (MetricsText f1 roc_auc accuracy) "center" "center" 12;;
  let base_dir := "graphs" in
  let model_dir :=
    if class_weights then
      Py.os_path_join base_dir (base_model_name self +:+ "_with_weights")
    else if augment then
      Py.os_path_join base_dir (base_model_name self +:+ "_data_augmentation")
    else
      Py.os_path_join base_dir (base_model_name self) in
  Os.makedirs model_dir true;;
  let filepath := Py.os_path_join model_dir "precision_recall_graph.png" in
  Plt.savefig filepath;;
  conf_mat ← Metrics.confusion_matrix true_labels pred;
  let class_labels := class_indices test_generator in
  let class_names := map fst class_labels in
  Plt.figure 8 8;;
  Sns.heatmap conf_mat true "d" "Blues" false class_names class_names;;
  Plt.title "Confusion Matrix";;
  Plt.xlabel "Predicted";;
  Plt.ylabel "Actual";;
  let filepath := Py.os_path_join model_dir "confusion_matrix.png" in
  Plt.savefig filepath;;
  Plt.show;;
  Builtins.print (String (ascii_of_nat 10) "Accuracy:") accuracy;;
  precision ← Metrics.score precision_score true_labels pred;
  Builtins.print "Precision:" precision;;
  recall' ← Metrics.score recall_score true_labels pred;
  Builtins.print "Recall:" recall';;
  Builtins.print "F1 Score:" f1;;
  Builtins.print "ROC AUC Score: " roc_auc.

End Class.

(* ------------------------------------------------------------------------- *)
(** ** Vocabulary of the statements *)

(** The names [_build_model] knows, and the backbone each one selects. *)
Definition supported_names : list string := ["vgg16"; "inceptionv3"; "resnet50"].

Definition backbone_of (name : string) : option Backbone :=
  if String.eqb name "vgg16" then Some VGG16
  else if String.eqb name "inceptionv3" then Some InceptionV3
  else if String.eqb name "resnet50" then Some ResNet50
  else None.

(** The keyword arguments every backbone constructor is given. *)
Definition backbone_args (shape : list Z) : ApplicationArgs :=
  {| weights := "imagenet"; include_top := false; app_input_shape := shape ++ [3] |}.

Definition head_compile : CompileArgs :=
  {| optimizer := "adam"; loss := "binary_crossentropy"; metrics := ["accuracy"] |}.

(** The suffix of an artifact directory, by the two flags. *)
Definition variant_suffix (class_weights augment : bool) : string :=
  if class_weights then "_with_weights"
  else if augment then "_data_augmentation"
  else "".

(** Two characters that are one ASCII letter in its two cases. *)
Definition case_pair (a b : ascii) : Prop :=
  (65 <= nat_of_ascii a <= 90)%nat ∧ nat_of_ascii b = (nat_of_ascii a + 32)%nat.

(** Two strings that are equal up to the case of their ASCII letters. *)
Inductive eq_up_to_case : string -> string -> Prop :=
| euc_nil : eq_up_to_case "" ""
| euc_cons a b s t :
    a = b ∨ case_pair a b ∨ case_pair b a ->
    eq_up_to_case s t ->
    eq_up_to_case (String a s) (String b t).

(** [j] is the position of the first maximum of [row]. *)
Definition first_max (row : list Q) (j : Z) : Prop :=
  ∃ x, row !! Z.to_nat j = Some x ∧ (0 <= j)%Z ∧
       (∀ k y, row !! k = Some y -> (y <= x)%Q) ∧
       (∀ k y, (k < Z.to_nat j)%nat -> row !! k = Some y -> (y < x)%Q).

(** The paths given to [os.makedirs] in a trace. *)
Definition makedirs_paths (t : list Event) : list string :=
  omap (fun ev => match ev with EMakedirs p _ => Some p | _ => None end) t.

(** The library calls of a trace that compute statistics, in order. *)
Definition is_statistic (ev : Event) : bool :=
  match ev with
  | EMetric _ _ _ | EPrecisionRecallCurve _ _ | EConfusionMatrix _ _ => true
  | _ => false
  end.

(** The labels a statistics call is given: true labels, predicted labels. *)
Definition stat_args (ev : Event) : option (list Z * list Z) :=
  match ev with
  | EMetric _ t p | EPrecisionRecallCurve t p | EConfusionMatrix t p => Some (t, p)
  | _ => None
  end.

(** A statistics call on the labels [t] and [p]; any other call passes. *)
Definition statistic_on (t p : list Z) (ev : Event) : Prop :=
  is_statistic ev = true -> stat_args ev = Some (t, p).

(** An [os.makedirs] call for [d] with [exist_ok=True]; any other call passes. *)
Definition makedirs_to (d : string) (ev : Event) : Prop :=
  match ev with
  | EMakedirs p ok => p = d ∧ ok = true
  | _ => True
  end.

Definition is_fit (ev : Event) : bool :=
  match ev with EFit _ _ => true | _ => false end.

Definition is_save (ev : Event) : bool :=
  match ev with ESave _ _ => true | _ => false end.

(** The calls that build a model for a given constructor call. *)
Definition build_call (shape : list Z) (units : Z) (act : string) (ev : Event) : Prop :=
  match ev with
  | EApplication _ a => a = backbone_args shape
  | EGlobalAveragePooling2D _ => True
  | EDense u a _ => u = units ∧ a = act
  | EModel _ _ => True
  | ECompile a => a = head_compile
  | _ => False
  end.

(** What a successful [_build_model] leaves behind when the store held [n0]
    layer objects and the backbone has [k] layers: the new layer objects, the
    model, and the calls made. *)
Definition freeze (l : Layer) : Layer := {| l_kind := l_kind l; trainable := false |}.

Definition built_layers (b : Backbone) (specs : list (string * bool))
    (units : Z) (act : string) : list Layer :=
  map (fun s => {| l_kind := Pretrained b s.1; trainable := false |}) specs
  ++ [ {| l_kind := GlobalAveragePooling2D; trainable := true |};
       {| l_kind := Dense units act; trainable := true |} ].

Definition built_model (n0 k : nat) : Model :=
  {| m_inputs := take 1 (seq n0 k);
     m_outputs := (seq n0 k ++ [(n0 + k)%nat]) ++ [S (n0 + k)];
     m_layers := (seq n0 k ++ [(n0 + k)%nat]) ++ [S (n0 + k)];
     m_compiled := Some head_compile |}.

Definition build_events (b : Backbone) (shape : list Z) (units : Z) (act : string)
    (n0 k : nat) : list Event :=
  [ EApplication b (backbone_args shape);
    EGlobalAveragePooling2D (seq n0 k);
    EDense units act (seq n0 k ++ [(n0 + k)%nat]);
    EModel (take 1 (seq n0 k)) ((seq n0 k ++ [(n0 + k)%nat]) ++ [S (n0 + k)]);
    ECompile head_compile ].

(** A backbone constructor call with the keyword arguments of [backbone_args]. *)
Definition backbone_call_ok (shape : list Z) (ev : Event) : Prop :=
  match ev with
  | EApplication _ a => a = backbone_args shape
  | _ => True
  end.

(** The keyword arguments of the [fit] call of [train], by the class
    weights it passes. *)
Definition fit_args (td vd : DirectoryIterator) (ep s1 s2 : Z)
    (cwt : option (gmap Z Q)) : FitArgs :=
  {| fit_x := td; steps_per_epoch := s1; fit_epochs := ep;
     validation_data := vd; validation_steps := s2;
     class_weight := cwt;
     callbacks := [EarlyStopping "val_loss" 13 true] |}.

(** The balanced weights of the two smallest labels, under the keys 0 and 1. *)
Definition two_class_weights (y : list Z) : option (gmap Z Q) :=
  match Np.unique y with
  | c0 :: c1 :: _ =>
      Some {[ 0 := Sklearn.balanced_weight y c0; 1 := Sklearn.balanced_weight y c1 ]}
  | _ => None
  end.

(** The directory and the checkpoint file of a model variant. *)
Definition model_dir (base_dir name : string) (cw aug : bool) : string :=
  Py.os_path_join base_dir (name +:+ variant_suffix cw aug).

Definition checkpoint (name : string) (cw aug : bool) : string :=
  Py.os_path_join (model_dir "models" name cw aug)
    (name +:+ variant_suffix cw aug +:+ ".h5").

Definition train_calls (m : Model) (a : FitArgs) (d f : string) : list Event :=
  [EFit m a; EMakedirs d true; ESave m f].

(** A dict of class weights that has, for every class present in the labels
    of [td], that class's balanced weight. *)
Definition weights_cover_classes (td : DirectoryIterator) (a : FitArgs) : Prop :=
  ∃ d, class_weight a = Some d ∧
       ∀ c, c ∈ classes td -> d !! c = Some (Sklearn.balanced_weight (classes td) c).

Section Vocabulary.
Context `{Framework}.

(** The [class_weight] argument of [train], or the exception raised
    before [fit] is reached: the library's when there is no label, that of
    the subscripts [class_weight[0]] and [class_weight[1]] when there are
    fewer than two classes. *)
Definition train_weights (cw : bool) (y : list Z) : exn + option (gmap Z Q) :=
  if cw then
    match two_class_weights y with
    | Some d => inr (Some d)
    | None => inl (match y with [] => fw_no_label | _ :: _ => IndexError end)
    end
  else inr None.

(** The three library calls [train] comes down to once the class weights
    and the paths are known. *)
Definition fit_and_save (m : Model) (a : FitArgs) (d f : string) : M History :=
  h ← call (EFit m a) (fw_history m a);
  call_ (EMakedirs d true);;
  call_ (ESave m f);;
  mret h.

(** The libraries' state after a sequence of calls, and the sequence being
    accepted call by call. *)
Definition run_env (e : Env) (evs : list Event) : Env :=
  foldl (fun e ev => fw_next ev e) e evs.

Fixpoint accepted (e : Env) (evs : list Event) : Prop :=
  match evs with
  | [] => True
  | ev :: r => fw_raises ev e = None ∧ accepted (fw_next ev e) r
  end.

(** The calls made between two worlds. *)
Definition new_events (w w' : World) : list Event :=
  drop (length (trace w)) (trace w').

(** The framework raises on none of the calls in [P]. *)
Definition accepts (P : Event -> Prop) : Prop :=
  ∀ ev e, P ev -> fw_raises ev e = None.

(** Every call a computation makes satisfies [P], whatever its outcome, and
    the calls are appended to the trace. *)
Definition emits {A} (P : Event -> Prop) (m : M A) : Prop :=
  ∀ w, ∃ t, trace (m w).2 = trace w ++ t ∧ Forall P t.

(** A computation that leaves every layer object as it is. *)
Definition keeps_store {A} (m : M A) : Prop :=
  ∀ w, store (m w).2 = store w.

End Vocabulary.

(* ------------------------------------------------------------------------- *)
(** ** Vocabulary of the further properties *)

(** The keys [plot_training_performance] reads, in the order it reads them. *)
Definition history_keys : list string := ["accuracy"; "val_accuracy"; "loss"; "val_loss"].

(** The calls of [plot_training_performance] into [d], for the four series
    of a history and their values at epoch 0. *)
Definition plot_calls (d : string) (acc val_acc loss val_loss : list Q)
    (acc0 val_acc0 loss0 val_loss0 : Q) : list Event :=
  let x := Ints (Np.range (length loss)) in
  [ EFigure 15 15;
    ESubplot 2 2 1;
    EPlot x (Floats acc) (Some "Training Accuracy");
    EPlot x (Floats val_acc) (Some "Validation Accuracy");
    ELegend "lower right";
    ETitle "Training and Validation Accuracy";
    ESubplot 2 2 2;
    EPlot x (Floats loss) (Some "Training Loss");
    EPlot x (Floats val_loss) (Some "Validation Loss");
    ELegend "upper right";
    ETitle "Training and Validation Loss";
    ESubplot 2 2 4;
    EGca;
    EText (1 # 2) (1 # 2) (TrainingText acc0 val_acc0 loss0 val_loss0) "center" "center" 12;
    EMakedirs d true;
    ESavefig (Py.os_path_join d "training_validation_graphs.png");
    EShow ].

(** The calls of [plot_training_performance] that come before the
    subscripts [acc[0]], [val_acc[0]], [loss[0]] and [val_loss[0]] of the
    annotation: the figure, the four curves with legends and titles, and the
    selection of the third subplot. *)
Definition plot_curve_calls (acc val_acc loss val_loss : list Q) : list Event :=
  let x := Ints (Np.range (length loss)) in
  [ EFigure 15 15;
    ESubplot 2 2 1;
    EPlot x (Floats acc) (Some "Training Accuracy");
    EPlot x (Floats val_acc) (Some "Validation Accuracy");
    ELegend "lower right";
    ETitle "Training and Validation Accuracy";
    ESubplot 2 2 2;
    EPlot x (Floats loss) (Some "Training Loss");
    EPlot x (Floats val_loss) (Some "Validation Loss");
    ELegend "upper right";
    ETitle "Training and Validation Loss";
    ESubplot 2 2 4 ].

(** Calls that write to the file system. *)
Definition writes_file (ev : Event) : bool :=
  match ev with
  | EMakedirs _ _ | ESavefig _ | ESave _ _ => true
  | _ => false
  end.

(** Calls that build, train or save a model. *)
Definition touches_model (ev : Event) : bool :=
  match ev with
  | EApplication _ _ | EGlobalAveragePooling2D _ | EDense _ _ _ | EModel _ _
  | ECompile _ | EFit _ _ | ESave _ _ => true
  | _ => false
  end.

(** The model a call works on, if it is a call on a model. *)
Definition model_of (ev : Event) : option Model :=
  match ev with
  | EFit m _ | ESave m _ | EEvaluate m _ _ | EPredict m _ _ _ => Some m
  | _ => None
  end.

(** The file a call writes, if it writes one. *)
Definition written_file (ev : Event) : option string :=
  match ev with
  | ESave _ f | ESavefig f => Some f
  | _ => None
  end.

Definition written_files (t : list Event) : list string := omap written_file t.

(** The files of one model variant: the checkpoint and the three figures. *)
Definition artifact_files (name : string) (cw aug : bool) : list string :=
  [ checkpoint name cw aug;
    Py.os_path_join (model_dir "graphs" name cw aug) "training_validation_graphs.png";
    Py.os_path_join (model_dir "graphs" name cw aug) "precision_recall_graph.png";
    Py.os_path_join (model_dir "graphs" name cw aug) "confusion_matrix.png" ].

Section Scripts.
Context `{Framework}.

(** The world after the calls [t], all of them answered. *)
Definition after (w : World) (t : list Event) : World :=
  {| store := store w; env := run_env (env w) t; trace := trace w ++ t |}.

(** Straight-line code: the calls of [l] one after the other, each for its
    effect, up to the first one that raises. *)
Fixpoint run_calls (l : list Event) : M () :=
  match l with
  | [] => mret ()
  | ev :: r => call_ ev;; run_calls r
  end.

(** A computation that comes down to the calls of [l]. *)
Definition scripted (l : list Event) (m : M ()) : Prop :=
  ∀ w, m w = run_calls l w.

(** A computation that comes down to the calls of [l] followed by
    [raise e]. *)
Definition raises_after (l : list Event) (e : exn) (m : M ()) : Prop :=
  ∀ w, m w = (run_calls l ≫= fun _ => raise e) w.

(** The calls of [evaluation_metrics] into [d], on the true labels [t] and
    the predicted labels [pred]. *)
Definition evaluation_metrics_calls (d : string) (t pred : list Z)
    (class_names : list string) : list Event :=
  let accuracy := fw_metric accuracy_score t pred in
  let f1 := fw_metric (f1_score "macro") t pred in
  let roc_auc := fw_metric roc_auc_score t pred in
  let curve := fw_precision_recall_curve t pred in
  [ EMetric accuracy_score t pred;
    EMetric (f1_score "macro") t pred;
    EMetric roc_auc_score t pred;
    EPrecisionRecallCurve t pred;
    EFigure 15 15;
    ESubplot 2 2 1;
    EPlot (Floats curve.1.1) (Floats curve.1.2) None;
    ETitle "Precision vs Recall";
    ESubplot 2 2 2;
    EGca;
    EText (1 # 2) (1 # 2) (MetricsText f1 roc_auc accuracy) "center" "center" 12;
    EMakedirs d true;
    ESavefig (Py.os_path_join d "precision_recall_graph.png");
    EConfusionMatrix t pred;
    EFigure 8 8;
    EHeatmap (fw_confusion_matrix t pred) true "d" "Blues" false class_names class_names;
    ETitle "Confusion Matrix";
    EXlabel "Predicted";
    EYlabel "Actual";
    ESavefig (Py.os_path_join d "confusion_matrix.png");
    EShow;
    EPrint (String (ascii_of_nat 10) "Accuracy:") accuracy;
    EMetric precision_score t pred;
    EPrint "Precision:" (fw_metric precision_score t pred);
    EMetric recall_score t pred;
    EPrint "Recall:" (fw_metric recall_score t pred);
    EPrint "F1 Score:" f1;
    EPrint "ROC AUC Score: " roc_auc ].

(** A computation that only adds layer objects: the ones that exist stay
    where and as they are. *)
Definition extends_store {A} (m : M A) : Prop :=
  ∀ w, store w `prefix_of` store (m w).2.

(** Some run of [train], [plot_training_performance] or [evaluation_metrics]
    on [self] with the flags [cw] and [aug] writes the file [f]. *)
Definition writes (self : ImageClassifier) (cw aug : bool) (f : string) : Prop :=
  (∃ td vd ep s1 s2 w,
     f ∈ written_files (new_events w (train self td vd ep s1 s2 cw aug w).2))
  ∨ (∃ h w,
     f ∈ written_files (new_events w (plot_training_performance self h cw aug w).2))
  ∨ (∃ p tg w,
     f ∈ written_files (new_events w (evaluation_metrics self p tg cw aug w).2)).

End Scripts.

(* ------------------------------------------------------------------------- *)
(** ** A small framework to run the class on

    It refuses an input shape that has not three components, as the
    backbone constructors do without their top, and accepts everything else;
    for labels without a sample its [compute_class_weight] raises a
    [ValueError]. *)

Definition demo_raises (ev : Event) : option exn :=
  match ev with
  | EApplication _ a =>
      if (length (app_input_shape a) =? 3)%nat then None
      else Some (ValueError "input_shape must be a tuple of three integers")
  | _ => None
  end.

Definition demo_history : History :=
  {| history := {[ "accuracy" := [1 # 2; 3 # 4]; "val_accuracy" := [1 # 2; 2 # 3];
                   "loss" := [7 # 10; 1 # 2]; "val_loss" := [7 # 10; 3 # 5] ]}%Q |}.

Definition demo : Framework := {|
  Env := nat;
  fw_raises := fun ev _ => demo_raises ev;
  fw_next := fun _ n => S n;
  fw_no_label := ValueError "y has no sample";
  fw_layers := fun _ _ _ => [("input_1", true); ("block1_conv1", true); ("block1_pool", true)];
  fw_history := fun _ _ _ => demo_history;
  fw_evaluate := fun _ _ _ _ => [7 # 10; 3 # 4]%Q;
  fw_predict := fun _ _ _ _ => [[9 # 10; 1 # 10]; [1 # 5; 4 # 5]]%Q;
  fw_metric := fun _ _ _ => 1%Q;
  fw_precision_recall_curve := fun _ _ => ([1 # 2; 1; 1], [1; 1; 0], [0; 1])%Q;
  fw_confusion_matrix := fun _ _ => [[1; 0]; [0; 1]];
|}.

Definition demo_world : @World demo := {| store := []; env := (0%nat : @Env demo); trace := [] |}.

Definition demo_train_data : DirectoryIterator :=
  {| gen_directory := "data/train"; classes := [0; 0; 0; 1];
     class_indices := [("cat", 0); ("dog", 1)] |}.

Definition demo_val_data : DirectoryIterator :=
  {| gen_directory := "data/val"; classes := [0; 1];
     class_indices := [("cat", 0); ("dog", 1)] |}.

(** A generator over three classes. *)
Definition demo_three_classes : DirectoryIterator :=
  {| gen_directory := "data/train3"; classes := [0; 1; 2; 2];
     class_indices := [("cat", 0); ("dog", 1); ("fox", 2)] |}.

(** A prediction for two samples over two classes. *)
Definition demo_prediction : list (list Q) := [[9 # 10; 1 # 10]; [1 # 5; 4 # 5]]%Q.

Definition demo_model : Model :=
  {| m_inputs := [0%nat]; m_outputs := [0; 1; 2; 3; 4]%nat;
     m_layers := [0; 1; 2; 3; 4]%nat; m_compiled := Some head_compile |}.

Definition demo_self : ImageClassifier :=
  {| input_shape := [120; 120]; num_classes := 2; activation := "sigmoid";
     base_model_name := "vgg16"; model := Some demo_model |}.

Definition demo_store : list Layer :=
  [ {| l_kind := Pretrained VGG16 "input_1"; trainable := false |};
    {| l_kind := Pretrained VGG16 "block1_conv1"; trainable := false |};
    {| l_kind := Pretrained VGG16 "block1_pool"; trainable := false |};
    {| l_kind := GlobalAveragePooling2D; trainable := true |};
    {| l_kind := Dense 2 "sigmoid"; trainable := true |} ].

(** The world after [ImageClassifier((120, 120))] in [demo_world]. *)
Definition demo_built : @World demo :=
  {| store := demo_store; env := (5%nat : @Env demo);
     trace := [ EApplication VGG16 (backbone_args [120; 120]);
                EGlobalAveragePooling2D [0; 1; 2]%nat;
                EDense 2 "sigmoid" [0; 1; 2; 3]%nat;
                EModel [0%nat] [0; 1; 2; 3; 4]%nat;
                ECompile head_compile ] |}.

(** A generator whose samples are all of one class, one over a directory
    without samples, and one whose labels are 1 and 2. *)
Definition demo_one_class : DirectoryIterator :=
  {| gen_directory := "data/one"; classes := [0; 0]; class_indices := [("cat", 0)] |}.

Definition demo_no_sample : DirectoryIterator :=
  {| gen_directory := "data/none"; classes := []; class_indices := [("cat", 0)] |}.

Definition demo_labels_from_one : DirectoryIterator :=
  {| gen_directory := "data/train12"; classes := [2; 1; 2];
     class_indices := [("cat", 1); ("dog", 2)] |}.

(** A history without validation metrics, and the history of a run of no
    epoch. *)
Definition demo_history_no_validation : History :=
  {| history := {[ "accuracy" := [1 # 2]; "loss" := [7 # 10] ]}%Q |}.

Definition demo_history_no_epoch : History :=
  {| history := {[ "accuracy" := []; "val_accuracy" := [];
                   "loss" := []; "val_loss" := [] ]} |}.

(* ------------------------------------------------------------------------- *)
(** ** Runs of the class on the small framework *)

Example lower_VGG16 : Py.lower "VGG16" = "vgg16".
Proof. reflexivity. Qed.

Example join_models : Py.os_path_join "models" "vgg16_with_weights" = "models/vgg16_with_weights".
Proof. reflexivity. Qed.

Example demo_init :
  @__init__ demo [120; 120] 2 "sigmoid" "VGG16" demo_world = (inr demo_self, demo_built).
Proof. vm_compute. reflexivity. Qed.

Example demo_init_docstring_shape :
  (@__init__ demo [120; 120; 3] 2 "sigmoid" "VGG16" demo_world).1
  = inl (ValueError "input_shape must be a tuple of three integers").
Proof. vm_compute. reflexivity. Qed.

(* ------------------------------------------------------------------------- *)
(** ** Reasoning about computations *)

Section Reasoning.
Context `{Framework}.
Implicit Types (w : World) (ev : Event) (P : Event -> Prop).

Lemma bind_run {A B} (m : M A) (k : A -> M B) w :
  (m ≫= k) w = match m w with
               | (inl e, w') => (inl e, w')
               | (inr a, w') => k a w'
               end.
Proof. reflexivity. Qed.

(** A sequence returns only if its first part does. *)
Lemma bind_inr {A B} (m : M A) (k : A -> M B) w b w' :
  (m ≫= k) w = (inr b, w') ->
  ∃ a w1, m w = (inr a, w1) ∧ k a w1 = (inr b, w').
Proof.
  rewrite bind_run. destruct (m w) as [[e|a] w1]; [discriminate|]. eauto.
Qed.

Lemma call_inr {A} ev (f : Env -> A) w a w' :
  call ev f w = (inr a, w') ->
  fw_raises ev (env w) = None ∧ a = f (env w) ∧
  w' = {| store := store w; env := fw_next ev (env w); trace := trace w ++ [ev] |}.
Proof.
  unfold call. destruct (fw_raises ev (env w)); [discriminate|].
  intros [= <- <-]. done.
Qed.

Lemma call_accepted {A} ev (f : Env -> A) w :
  fw_raises ev (env w) = None ->
  call ev f w =
    (inr (f (env w)),
     {| store := store w; env := fw_next ev (env w); trace := trace w ++ [ev] |}).
Proof. unfold call. by intros ->. Qed.

Lemma call_raised {A} ev (f : Env -> A) w e :
  fw_raises ev (env w) = Some e ->
  call ev f w =
    (inl e,
     {| store := store w; env := fw_next ev (env w); trace := trace w ++ [ev] |}).
Proof. unfold call. by intros ->. Qed.

Lemma new_events_app w w' t : trace w' = trace w ++ t -> new_events w w' = t.
Proof. unfold new_events. intros ->. by rewrite drop_app_length. Qed.

Lemma new_events_same w : new_events w w = [].
Proof. apply new_events_app. by rewrite app_nil_r. Qed.

Lemma ret_run {A} (a : A) w : (mret a : M A) w = (inr a, w).
Proof. reflexivity. Qed.

Lemma lift_inr {A} (r : exn + A) w a w' : lift r w = (inr a, w') -> r = inr a ∧ w' = w.
Proof. unfold lift. by intros [= -> ->]. Qed.

Lemma getitem_inr {A} (l : list A) i w a w' :
  getitem l i w = (inr a, w') -> l !! i = Some a ∧ w' = w.
Proof. unfold getitem. destruct (l !! i); [|discriminate]. by intros [= -> ->]. Qed.

Lemma dict_getitem_inr {A} (d : gmap string A) k w a w' :
  dict_getitem d k w = (inr a, w') -> d !! k = Some a ∧ w' = w.
Proof. unfold dict_getitem. destruct (d !! k); [|discriminate]. by intros [= -> ->]. Qed.

Lemma bind_ok {A B} (m : M A) (k : A -> M B) w a w1 :
  m w = (inr a, w1) -> (m ≫= k) w = k a w1.
Proof. intros Hm. by rewrite bind_run, Hm. Qed.

Lemma bind_raised {A B} (m : M A) (k : A -> M B) w e w1 :
  m w = (inl e, w1) -> (m ≫= k) w = (inl e, w1).
Proof. intros Hm. by rewrite bind_run, Hm. Qed.

Lemma call__inr ev w u w' :
  call_ ev w = (inr u, w') <->
  fw_raises ev (env w) = None ∧
  w' = {| store := store w; env := fw_next ev (env w); trace := trace w ++ [ev] |}.
Proof.
  unfold call_. split.
  - intros Hc. apply call_inr in Hc as (? & _ & ?). done.
  - intros [Hok ->]. rewrite call_accepted by done. by destruct u.
Qed.

(** A call for its effect, followed by a pure result. *)
Lemma unit_call_inr {A} ev (a : A) w y w' :
  (call_ ev;; mret a) w = (inr y, w') <->
  fw_raises ev (env w) = None ∧ y = a ∧
  w' = {| store := store w; env := fw_next ev (env w); trace := trace w ++ [ev] |}.
Proof.
  split.
  - intros Hrun. apply bind_inr in Hrun as ([] & w1 & Hc & Hrun).
    apply call__inr in Hc as [Hok ->]. by injection Hrun as <- <-.
  - intros (Hok & -> & ->). rewrite bind_run.
    by rewrite (proj2 (call__inr ev w () _) (conj Hok eq_refl)).
Qed.

(** Constructing a layer and applying it to a tensor. *)
Lemma layer_call_inr ev kind (x : Tensor) w y w' :
  (call_ ev;; a ← new_layer {| l_kind := kind; trainable := true |}; mret (x ++ [a])) w
    = (inr y, w') <->
  fw_raises ev (env w) = None ∧ y = x ++ [length (store w)] ∧
  w' = {| store := store w ++ [ {| l_kind := kind; trainable := true |} ];
          env := fw_next ev (env w); trace := trace w ++ [ev] |}.
Proof.
  split.
  - intros Hrun. apply bind_inr in Hrun as ([] & w1 & Hc & Hrun).
    apply call__inr in Hc as [Hok ->]. by injection Hrun as <- <-.
  - intros (Hok & -> & ->). rewrite bind_run.
    by rewrite (proj2 (call__inr ev w () _) (conj Hok eq_refl)).
Qed.

(** *** Calls made, whatever the outcome *)

Lemma emits_ret {A} P (a : A) : emits P (mret a).
Proof. intros w. exists []. by rewrite app_nil_r. Qed.

Lemma emits_raise {A} P e : emits P (raise (A := A) e).
Proof. intros w. exists []. by rewrite app_nil_r. Qed.

Lemma emits_lift {A} P (r : exn + A) : emits P (lift r).
Proof. intros w. exists []. by rewrite app_nil_r. Qed.

Lemma emits_call {A} P ev (f : Env -> A) : P ev -> emits P (call ev f).
Proof.
  intros HP w. exists [ev]. unfold call.
  destruct (fw_raises ev (env w)); simpl; auto.
Qed.

Lemma emits_bind {A B} P (m : M A) (k : A -> M B) :
  emits P m -> (∀ a, emits P (k a)) -> emits P (m ≫= k).
Proof.
  intros Hm Hk w. rewrite bind_run.
  destruct (Hm w) as (t1 & Ht1 & HP1).
  destruct (m w) as [[e|a] w1]; simpl in *.
  - by exists t1.
  - destruct (Hk a w1) as (t2 & Ht2 & HP2).
    exists (t1 ++ t2). rewrite Ht2, Ht1, app_assoc. split; [done|].
    by apply Forall_app.
Qed.

(** After a pure helper, only the value it returned matters. *)
Lemma emits_lift_bind {A B} P (r : exn + A) (k : A -> M B) :
  (∀ a, r = inr a -> emits P (k a)) -> emits P (lift r ≫= k).
Proof.
  intros Hk w. rewrite bind_run. unfold lift. destruct r as [e|a]; simpl.
  - exists []. by rewrite app_nil_r.
  - by apply Hk.
Qed.

Lemma emits_new_layer P l : emits P (new_layer l).
Proof. intros w. exists []. by rewrite app_nil_r. Qed.

Lemma emits_set_trainable P a v : emits P (set_trainable a v).
Proof. intros w. exists []. by rewrite app_nil_r. Qed.

Lemma emits_new_layers P ls : emits P (new_layers ls).
Proof.
  induction ls as [|l r IH]; simpl; [apply emits_ret|].
  apply emits_bind; [apply emits_new_layer|]. intros a.
  apply emits_bind; [done|]. intros r'. apply emits_ret.
Qed.

Lemma emits_for_each {A} P (l : list A) (body : A -> M ()) :
  (∀ x, emits P (body x)) -> emits P (for_each l body).
Proof.
  intros Hb. induction l as [|x r IH]; simpl; [apply emits_ret|].
  apply emits_bind; [apply Hb|]. by intros _.
Qed.

Lemma emits_getitem {A} P (l : list A) i : emits P (getitem l i).
Proof. unfold getitem. destruct (l !! i); [apply emits_ret|apply emits_raise]. Qed.

Lemma emits_dict_getitem {A} P (d : gmap string A) k : emits P (dict_getitem d k).
Proof. unfold dict_getitem. destruct (d !! k); [apply emits_ret|apply emits_raise]. Qed.

Lemma emits_self_model P self : emits P (self_model self).
Proof. unfold self_model. destruct (model self); [apply emits_ret|apply emits_raise]. Qed.

(** What [emits] says about one run. *)
Lemma emits_run {A} P (m : M A) w :
  emits P m -> Forall P (new_events w (m w).2).
Proof. intros Hm. destruct (Hm w) as (t & Ht & HP). by rewrite (new_events_app _ _ t). Qed.

(** *** Layer objects left alone *)

Lemma keeps_ret {A} (a : A) : keeps_store (mret a).
Proof. by intros w. Qed.

Lemma keeps_raise {A} e : keeps_store (raise (A := A) e).
Proof. by intros w. Qed.

Lemma keeps_lift {A} (r : exn + A) : keeps_store (lift r).
Proof. by intros w. Qed.

Lemma keeps_call {A} ev (f : Env -> A) : keeps_store (call ev f).
Proof. intros w. unfold call. by destruct (fw_raises ev (env w)). Qed.

Lemma keeps_bind {A B} (m : M A) (k : A -> M B) :
  keeps_store m -> (∀ a, keeps_store (k a)) -> keeps_store (m ≫= k).
Proof.
  intros Hm Hk w. rewrite bind_run. specialize (Hm w).
  destruct (m w) as [[e|a] w1]; simpl in *; [done|].
  by rewrite Hk.
Qed.

Lemma keeps_getitem {A} (l : list A) i : keeps_store (getitem l i).
Proof. unfold getitem. destruct (l !! i); [apply keeps_ret|apply keeps_raise]. Qed.

Lemma keeps_dict_getitem {A} (d : gmap string A) k : keeps_store (dict_getitem d k).
Proof. unfold dict_getitem. destruct (d !! k); [apply keeps_ret|apply keeps_raise]. Qed.

Lemma keeps_self_model self : keeps_store (self_model self).
Proof. unfold self_model. destruct (model self); [apply keeps_ret|apply keeps_raise]. Qed.

End Reasoning.

(** Syntax-directed proofs of [emits] and [keeps_store]: the computation is
    taken apart along its sequencing, branches and pattern bindings. *)
Ltac split_branch :=
  match goal with
  | |- context [if ?b then _ else _] => destruct b
  | |- context [let '(_, _) := ?p in _] => destruct p
  end.

Ltac split_match :=
  match goal with
  | |- context [if ?b then _ else _] => is_var b; destruct b
  | |- context [match ?x with _ => _ end] => is_var x; destruct x
  end.

Ltac emits_step :=
  first
    [ apply emits_bind; [|intros ?]
    | apply emits_ret | apply emits_raise | apply emits_lift
    | apply emits_getitem | apply emits_dict_getitem | apply emits_self_model
    | apply emits_new_layers | apply emits_new_layer
    | apply emits_for_each; intros ? | apply emits_set_trainable
    | apply emits_call; simpl; try done ].

(** The library wrappers, unfolded to [call]. *)
Ltac unfold_calls :=
  unfold Keras.application, Keras.global_average_pooling_2d, Keras.dense,
    Keras.model_new, Keras.compile,
    Keras.fit, Keras.save, Keras.evaluate, Keras.predict, Os.makedirs,
    Metrics.score, Metrics.precision_recall_curve, Metrics.confusion_matrix,
    Plt.figure, Plt.subplot, Plt.plot, Plt.legend, Plt.title, Plt.xlabel,
    Plt.ylabel, Plt.gca, Plt.text, Plt.savefig, Plt.show, Sns.heatmap,
    Builtins.print, call_.

Ltac keeps_step :=
  first
    [ apply keeps_bind; [|intros ?]
    | apply keeps_ret | apply keeps_raise | apply keeps_lift
    | apply keeps_getitem | apply keeps_dict_getitem | apply keeps_self_model
    | apply keeps_call ].

(** One step of a run that returned: the first part of the sequence returned
    too, and what it returned and did is known. *)
Ltac inv_step H :=
  let x := fresh "x" in
  let w1 := fresh "w" in
  let Hs := fresh "Hs" in
  apply bind_inr in H as (x & w1 & Hs & H);
  first [ apply call_inr in Hs as (? & ? & ->)
        | apply getitem_inr in Hs as (? & ->)
        | apply dict_getitem_inr in Hs as (? & ->)
        | apply lift_inr in Hs as (? & ->) ];
  lazymatch type of x with
  | (_ * _ * _)%type => destruct x as [[? ?] ?]
  | _ => idtac
  end;
  cbn [env store trace] in H.

(** Discharges the side conditions of an accepted call: the addresses are
    normalised and the acceptance is found among the hypotheses. *)
Ltac accept_call :=
  repeat split; simpl; rewrite ?length_app, ?length_map; simpl;
  rewrite ?Nat.add_1_r; try eassumption.

(* ------------------------------------------------------------------------- *)
(** ** [_build_model] and [__init__] *)

Section BuildModel.
Context `{Framework}.
Implicit Types (w : World) (self : ImageClassifier).

Lemma new_layers_run ls w :
  new_layers ls w =
    (inr (seq (length (store w)) (length ls)),
     {| store := store w ++ ls; env := env w; trace := trace w |}).
Proof.
  revert w. induction ls as [|l r IH]; intros w; simpl.
  - rewrite app_nil_r. by destruct w.
  - rewrite bind_run. unfold new_layer at 1. rewrite bind_run, IH. simpl.
    rewrite length_app, <- app_assoc. simpl.
    by rewrite Nat.add_1_r.
Qed.

(** The loop over [base_model.layers] freezes exactly the layers it visits. *)
Lemma for_each_freeze s0 ls n k e t :
  n = length s0 -> k = length ls ->
  for_each (seq n k) (fun a => set_trainable a false)
    {| store := s0 ++ ls; env := e; trace := t |}
  = (inr (), {| store := s0 ++ map freeze ls; env := e; trace := t |}).
Proof.
  intros -> ->. revert s0. induction ls as [|l r IH]; intros s0; simpl; [done|].
  rewrite bind_run. unfold set_trainable at 1. simpl.
  pose proof (alter_app_r (fun l0 => {| l_kind := l_kind l0; trainable := false |})
                s0 (l :: r) 0) as Ha.
  rewrite Nat.add_0_r in Ha. rewrite Ha. simpl.
  specialize (IH (s0 ++ [freeze l])).
  rewrite length_app in IH. simpl in IH.
  rewrite Nat.add_1_r in IH.
  rewrite <- !app_assoc in IH. simpl in IH. exact IH.
Qed.

Lemma application_ok b a w :
  fw_raises (EApplication b a) (env w) = None ->
  Keras.application b a w =
    (inr {| b_layers := seq (length (store w)) (length (fw_layers b a (env w))) |},
     {| store := store w ++ map (fun s => {| l_kind := Pretrained b s.1; trainable := s.2 |})
                                (fw_layers b a (env w));
        env := fw_next (EApplication b a) (env w);
        trace := trace w ++ [EApplication b a] |}).
Proof.
  intros Hok. unfold Keras.application.
  erewrite bind_ok; [|by apply call_accepted].
  erewrite bind_ok; [|apply new_layers_run].
  by rewrite ret_run, length_map.
Qed.

Lemma application_raised b a w e :
  fw_raises (EApplication b a) (env w) = Some e ->
  Keras.application b a w =
    (inl e, {| store := store w; env := fw_next (EApplication b a) (env w);
               trace := trace w ++ [EApplication b a] |}).
Proof.
  intros Hr. unfold Keras.application.
  erewrite bind_raised; [done|by apply call_raised].
Qed.

Lemma application_inr b a w bm w1 :
  Keras.application b a w = (inr bm, w1) ->
  fw_raises (EApplication b a) (env w) = None ∧
  bm = {| b_layers := seq (length (store w)) (length (fw_layers b a (env w))) |} ∧
  w1 = {| store := store w ++ map (fun s => {| l_kind := Pretrained b s.1; trainable := s.2 |})
                                   (fw_layers b a (env w));
          env := fw_next (EApplication b a) (env w);
          trace := trace w ++ [EApplication b a] |}.
Proof.
  intros Hrun. destruct (fw_raises (EApplication b a) (env w)) as [e|] eqn:Hr.
  - by rewrite (application_raised _ _ _ e) in Hrun.
  - rewrite application_ok in Hrun by done. by injection Hrun as <- <-.
Qed.

(** The if/elif chain of [_build_model] selects by name. *)
Lemma select_backbone self w r w1 :
  (if String.eqb (base_model_name self) "vgg16" then
     Keras.application VGG16
       {| weights := "imagenet"; include_top := false;
          app_input_shape := input_shape self ++ [3] |}
   else if String.eqb (base_model_name self) "inceptionv3" then
     Keras.application InceptionV3
       {| weights := "imagenet"; include_top := false;
          app_input_shape := input_shape self ++ [3] |}
   else if String.eqb (base_model_name self) "resnet50" then
     Keras.application ResNet50
       {| weights := "imagenet"; include_top := false;
          app_input_shape := input_shape self ++ [3] |}
   else
     raise (ValueError ("Unsupported base model name: " +:+ base_model_name self))) w
  = (r, w1) <->
  match backbone_of (base_model_name self) with
  | Some b => Keras.application b (backbone_args (input_shape self)) w = (r, w1)
  | None => r = inl (ValueError ("Unsupported base model name: " +:+ base_model_name self))
            ∧ w1 = w
  end.
Proof.
  unfold backbone_of, backbone_args.
  destruct (String.eqb (base_model_name self) "vgg16");
    [|destruct (String.eqb (base_model_name self) "inceptionv3");
      [|destruct (String.eqb (base_model_name self) "resnet50")]]; try done.
  unfold raise. split; [by intros [= <- <-]|by intros [-> ->]].
Qed.

(** [_build_model] returns exactly when the name selects a backbone and the
    framework accepts the five calls; the model, the layer objects and the
    calls are then as described. *)
Lemma build_model_returns self w m w' :
  _build_model self w = (inr m, w') <->
  ∃ b, backbone_of (base_model_name self) = Some b ∧
    let specs := fw_layers b (backbone_args (input_shape self)) (env w) in
    let n0 := length (store w) in
    let k := length specs in
    let evs := build_events b (input_shape self) (num_classes self) (activation self) n0 k in
    accepted (env w) evs ∧
    m = built_model n0 k ∧
    w' = {| store := store w ++ built_layers b specs (num_classes self) (activation self);
            env := run_env (env w) evs;
            trace := trace w ++ evs |}.
Proof.
  unfold _build_model. split.
  - intros Hrun.
    apply bind_inr in Hrun as (bm & w1 & Hsel & Hrun).
    apply select_backbone in Hsel.
    destruct (backbone_of (base_model_name self)) as [b|]; [|by destruct Hsel].
    apply application_inr in Hsel as (Hok1 & -> & ->).
    exists b. split; [done|]. simpl.
    apply bind_inr in Hrun as ([] & w2 & Hfr & Hrun). simpl in Hfr.
    rewrite for_each_freeze in Hfr by (by rewrite ?length_map).
    injection Hfr as <-. rewrite map_map in Hrun. simpl in Hrun.
    apply bind_inr in Hrun as (x1 & w3 & Hgap & Hrun).
    apply layer_call_inr in Hgap as (Hok2 & -> & ->). simpl in Hrun.
    apply bind_inr in Hrun as (x2 & w4 & Hd & Hrun).
    apply layer_call_inr in Hd as (Hok3 & -> & ->). simpl in Hrun.
    apply bind_inr in Hrun as (m1 & w5 & Hm & Hrun).
    apply unit_call_inr in Hm as (Hok4 & -> & ->). simpl in Hrun.
    apply bind_inr in Hrun as (m2 & w7 & Hcomp & Hrun).
    apply unit_call_inr in Hcomp as (Hok5 & -> & ->). simpl in Hrun.
    injection Hrun as <- <-. simpl in *.
    rewrite !length_app, !length_map in *. simpl in *.
    rewrite !Nat.add_1_r in *.
    split; [tauto|]. split; [done|].
    unfold built_layers, build_events, run_env. simpl.
    by rewrite <- !app_assoc.
  - intros (b & Hb & Hacc & -> & ->). simpl in Hacc.
    destruct Hacc as (Hok1 & Hok2 & Hok3 & Hok4 & Hok5 & _).
    erewrite bind_ok;
      [|apply select_backbone; rewrite Hb; apply application_ok; exact Hok1].
    erewrite bind_ok;
      [|simpl; apply for_each_freeze; by rewrite ?length_map].
    rewrite map_map. simpl.
    erewrite bind_ok; [|apply layer_call_inr; by accept_call].
    erewrite bind_ok; [|apply layer_call_inr; by accept_call].
    erewrite bind_ok; [|apply unit_call_inr; by accept_call].
    erewrite bind_ok; [|apply unit_call_inr; by accept_call].
    simpl. rewrite ret_run.
    rewrite !length_app, !length_map. simpl.
    rewrite !Nat.add_1_r.
    unfold built_model, built_layers, build_events, run_env. simpl.
    by rewrite <- !app_assoc.
Qed.

Lemma backbone_of_supported name :
  is_Some (backbone_of name) <-> name ∈ supported_names.
Proof.
  unfold backbone_of, supported_names.
  destruct (String.eqb_spec name "vgg16") as [->|]; [split; [set_solver|eauto]|].
  destruct (String.eqb_spec name "inceptionv3") as [->|]; [split; [set_solver|eauto]|].
  destruct (String.eqb_spec name "resnet50") as [->|]; [split; [set_solver|eauto]|].
  split; [by intros [? ?]|].
  rewrite !elem_of_cons, elem_of_nil. tauto.
Qed.

Lemma init_run shape nc act name w :
  __init__ shape nc act name w =
    match _build_model {| input_shape := shape; num_classes := nc; activation := act;
                          base_model_name := Py.lower name; model := None |} w with
    | (inl e, w') => (inl e, w')
    | (inr m, w') =>
        (inr {| input_shape := shape; num_classes := nc; activation := act;
                base_model_name := Py.lower name; model := Some m |}, w')
    end.
Proof. reflexivity. Qed.

Lemma accepts_build shape nc act b n0 k e :
  accepts (build_call shape nc act) ->
  accepted e (build_events b shape nc act n0 k).
Proof. intros Hacc. simpl. repeat split; apply Hacc; simpl; done. Qed.

Lemma build_model_emits P self :
  (∀ b, P (EApplication b (backbone_args (input_shape self)))) ->
  (∀ x, P (EGlobalAveragePooling2D x)) ->
  (∀ x, P (EDense (num_classes self) (activation self) x)) ->
  (∀ x y, P (EModel x y)) ->
  P (ECompile head_compile) ->
  emits P (_build_model self).
Proof.
  intros H1 H2 H3 H4 H5. unfold _build_model. unfold_calls.
  apply emits_bind.
  { repeat split_branch; repeat emits_step. all: apply H1. }
  intros bm. repeat emits_step; auto.
Qed.

Lemma init_emits P shape nc act name :
  (∀ b, P (EApplication b (backbone_args shape))) ->
  (∀ x, P (EGlobalAveragePooling2D x)) ->
  (∀ x, P (EDense nc act x)) ->
  (∀ x y, P (EModel x y)) ->
  P (ECompile head_compile) ->
  emits P (__init__ shape nc act name).
Proof.
  intros. unfold __init__. apply emits_bind; [by apply build_model_emits|].
  intros m. apply emits_ret.
Qed.

(** The calls of a sequence start with the calls of its first part. *)
Lemma emits_after {A B} P (m : M A) (k : A -> M B) w r w1 t0 :
  m w = (r, w1) -> trace w1 = trace w ++ t0 ->
  (∀ a, emits P (k a)) ->
  ∃ t, trace ((m ≫= k) w).2 = trace w ++ t0 ++ t.
Proof.
  intros Hm Ht Hk. rewrite bind_run, Hm. destruct r as [e|a]; simpl.
  - exists []. by rewrite app_nil_r.
  - destruct (Hk a w1) as (t & Ht2 & _). exists t. by rewrite Ht2, Ht, app_assoc.
Qed.

(** With a supported name the backbone constructor is called, first of all,
    whether it then raises or not. *)
Lemma build_model_first_call self w b :
  backbone_of (base_model_name self) = Some b ->
  ∃ t, trace (_build_model self w).2
       = trace w ++ [EApplication b (backbone_args (input_shape self))] ++ t.
Proof.
  intros Hb. unfold _build_model.
  destruct (fw_raises (EApplication b (backbone_args (input_shape self))) (env w))
    as [e|] eqn:Hr.
  all: eapply (emits_after (fun _ => True));
    [apply select_backbone; rewrite Hb;
     first [by apply application_raised|by apply application_ok]
    |reflexivity|].
  all: intros bm; unfold_calls; repeat emits_step.
Qed.

Lemma lookup_appended (s0 ls : list Layer) :
  Forall2 (fun a l => (s0 ++ ls) !! a = Some l) (seq (length s0) (length ls)) ls.
Proof.
  apply Forall2_same_length_lookup_2; [by rewrite length_seq|].
  intros i a l Ha Hl. apply lookup_seq in Ha as [-> _].
  by rewrite lookup_app_r, Nat.add_comm, Nat.add_sub by lia.
Qed.

Lemma length_built_layers b specs nc act :
  length (built_layers b specs nc act) = S (S (length specs)).
Proof. unfold built_layers. rewrite length_app, length_map. simpl. lia. Qed.

(** A successful constructor call, spelled out. *)
Lemma init_returns shape nc act name w self w' :
  __init__ shape nc act name w = (inr self, w') ->
  ∃ b, backbone_of (Py.lower name) = Some b ∧
    let specs := fw_layers b (backbone_args shape) (env w) in
    let n0 := length (store w) in
    let k := length specs in
    self = {| input_shape := shape; num_classes := nc; activation := act;
              base_model_name := Py.lower name; model := Some (built_model n0 k) |} ∧
    store w' = store w ++ built_layers b specs nc act ∧
    trace w' = trace w ++ build_events b shape nc act n0 k ∧
    Forall2 (fun a l => store w' !! a = Some l)
      (m_layers (built_model n0 k)) (built_layers b specs nc act).
Proof.
  rewrite init_run. intros Hrun.
  destruct (_build_model _ w) as [[e|m] w1] eqn:Hb; [discriminate|].
  injection Hrun as <- <-.
  apply build_model_returns in Hb as (b & Hb & _ & -> & ->). simpl in *.
  exists b. repeat split; [done|].
  pose proof (lookup_appended (store w)
                (built_layers b (fw_layers b (backbone_args shape) (env w)) nc act)) as Hl.
  rewrite length_built_layers, !seq_S, Nat.add_succ_r in Hl.
  exact Hl.
Qed.

(** An instance that [__init__] returned carries a supported name. *)
Lemma init_name_supported shape nc act name w self w' :
  __init__ shape nc act name w = (inr self, w') ->
  base_model_name self ∈ supported_names.
Proof.
  intros Hinit. apply init_returns in Hinit as (b & Hb & -> & _). simpl.
  apply backbone_of_supported. by rewrite Hb.
Qed.

End BuildModel.

(* ------------------------------------------------------------------------- *)
(** ** [train] *)

Section Train.
Context `{Framework}.
Implicit Types (w : World) (self : ImageClassifier).

Lemma append_empty_r (s : string) : s +:+ "" = s.
Proof.
  induction s as [|c s IH]; [done|].
  change (String c (s +:+ "") = String c s). by rewrite IH.
Qed.

(** All labels of [np.unique(y)] occur in [y], so with a label in [y] the
    balanced scheme never raises here. *)
Lemma compute_class_weight_unique e y :
  y ≠ [] ->
  Sklearn.compute_class_weight_balanced e (Np.unique y) y
  = inr (map (Sklearn.balanced_weight y) (Np.unique y)).
Proof.
  intros Hy. unfold Sklearn.compute_class_weight_balanced.
  destruct y as [|c r] eqn:Hc; [done|]. rewrite <- Hc.
  replace (forallb _ _) with true; [done|].
  symmetry. apply forallb_forall. intros c' Hc'.
  apply bool_decide_eq_true_2. by apply list_elem_of_In.
Qed.

(** [train] is: the class weights (or the exception they raise), the model
    attribute, and then fit, makedirs, save. *)
Lemma train_run self td vd ep s1 s2 cw aug w :
  train self td vd ep s1 s2 cw aug w =
  match train_weights cw (classes td) with
  | inl e => (inl e, w)
  | inr cwt =>
      match model self with
      | None => (inl (AttributeError "model"), w)
      | Some m =>
          fit_and_save m (fit_args td vd ep s1 s2 cwt)
            (model_dir "models" (base_model_name self) cw aug)
            (checkpoint (base_model_name self) cw aug) w
      end
  end.
Proof.
  unfold train, train_weights, two_class_weights, fit_and_save, model_dir, checkpoint,
    self_model, fit_args, Keras.fit, Keras.save, Os.makedirs.
  destruct cw; simpl.
  - rewrite bind_run, bind_run. unfold lift at 1.
    destruct (decide (classes td = [])) as [Hy|Hy]; [by rewrite Hy|].
    rewrite compute_class_weight_unique by done.
    destruct (Np.unique (classes td)) as [|c0 [|c1 rest]];
      [by destruct (classes td)|by destruct (classes td)|].
    destruct (model self) as [m|]; [|done].
    unfold getitem, mbind, M_bind, mret, M_ret. simpl.
    destruct (call (EFit m _) _ w) as [[e|h] w1]; [done|].
    reflexivity.
  - destruct (model self) as [m|]; [|done].
    unfold mbind, M_bind, mret, M_ret. simpl.
    destruct (call (EFit m _) _ w) as [[e|h] w1]; [done|].
    destruct aug; unfold model_dir, variant_suffix; rewrite ?append_empty_r; reflexivity.
Qed.

Lemma call__ok ev w :
  fw_raises ev (env w) = None ->
  call_ ev w =
    (inr (), {| store := store w; env := fw_next ev (env w); trace := trace w ++ [ev] |}).
Proof. intros Hok. by apply call__inr. Qed.

Lemma fit_and_save_inr m a d f w h w' :
  fit_and_save m a d f w = (inr h, w') <->
  accepted (env w) (train_calls m a d f) ∧ h = fw_history m a (env w) ∧
  w' = {| store := store w; env := run_env (env w) (train_calls m a d f);
          trace := trace w ++ train_calls m a d f |}.
Proof.
  unfold fit_and_save. split.
  - intros Hrun.
    apply bind_inr in Hrun as (h0 & w1 & Hc & Hrun).
    apply call_inr in Hc as (Hok1 & -> & ->).
    apply bind_inr in Hrun as ([] & w2 & Hc & Hrun).
    apply call__inr in Hc as [Hok2 ->].
    apply unit_call_inr in Hrun as (Hok3 & -> & ->). simpl in *.
    repeat split; try done. by rewrite <- !app_assoc.
  - intros ((Hok1 & Hok2 & Hok3 & _) & -> & ->).
    erewrite bind_ok; [|by apply call_accepted].
    erewrite bind_ok; [|by apply call__ok].
    apply unit_call_inr. accept_call; try done. simpl. by rewrite <- !app_assoc.
Qed.

(** Whatever the outcome, the calls of [fit_and_save] are a non-empty prefix
    of fit, makedirs, save; a rejected fit ends the run at once. *)
Lemma fit_and_save_trace m a d f w :
  ∃ n, (1 <= n <= 3)%nat ∧
    trace (fit_and_save m a d f w).2 = trace w ++ take n (train_calls m a d f) ∧
    (∀ e, fw_raises (EFit m a) (env w) = Some e ->
          n = 1%nat ∧ (fit_and_save m a d f w).1 = inl e).
Proof.
  unfold fit_and_save. rewrite bind_run.
  destruct (fw_raises (EFit m a) (env w)) as [e|] eqn:Hr1.
  { rewrite (call_raised _ _ _ e) by done. exists 1%nat. simpl.
    split; [lia|]. split; [done|]. by intros ? [= <-]. }
  rewrite call_accepted by done. rewrite bind_run. unfold call_.
  destruct (fw_raises (EMakedirs d true) (fw_next (EFit m a) (env w))) as [e|] eqn:Hr2.
  { rewrite (call_raised _ _ _ e) by done. exists 2%nat. simpl.
    split; [lia|]. split; [|done]. by rewrite <- app_assoc. }
  rewrite call_accepted by done. rewrite bind_run. simpl.
  exists 3%nat. split; [lia|]. split; [|done].
  unfold call. simpl. destruct (fw_raises (ESave m f) _); simpl; by rewrite <- !app_assoc.
Qed.

(** The calls of one run of [train], whatever its outcome: none, when the
    class weights or the model attribute raise; otherwise a non-empty prefix
    of fit, makedirs, save. *)
Lemma train_events self td vd ep s1 s2 cw aug w :
  let r := train self td vd ep s1 s2 cw aug w in
  (new_events w r.2 = [] ∧ (∃ e, r.1 = inl e) ∧
   (is_Some (model self) -> ∃ e, train_weights cw (classes td) = inl e))
  ∨ ∃ m cwt n,
      model self = Some m ∧ train_weights cw (classes td) = inr cwt ∧
      (1 <= n <= 3)%nat ∧
      let a := fit_args td vd ep s1 s2 cwt in
      new_events w r.2
        = take n (train_calls m a (model_dir "models" (base_model_name self) cw aug)
                              (checkpoint (base_model_name self) cw aug)) ∧
      (∀ e, fw_raises (EFit m a) (env w) = Some e -> n = 1%nat ∧ r.1 = inl e) ∧
      (∀ h, r.1 = inr h -> n = 3%nat).
Proof.
  intros r. subst r. rewrite train_run.
  destruct (train_weights cw (classes td)) as [e|cwt] eqn:Hw.
  { left. simpl. split; [apply new_events_same|eauto]. }
  destruct (model self) as [m|] eqn:Hm.
  2:{ left. simpl. split; [apply new_events_same|]. split; [eauto|]. by intros [? ?]. }
  right. exists m, cwt.
  destruct (fit_and_save_trace m (fit_args td vd ep s1 s2 cwt)
              (model_dir "models" (base_model_name self) cw aug)
              (checkpoint (base_model_name self) cw aug) w) as (n & Hn & Ht & Hr).
  exists n. split; [done|]. split; [done|]. split; [done|]. simpl.
  split; [by apply new_events_app|]. split; [done|].
  intros h Hh.
  destruct (fit_and_save m _ _ _ w) as [r w'] eqn:Hrun. simpl in *. subst r.
  apply fit_and_save_inr in Hrun as (_ & _ & ->). simpl in Ht.
  apply app_inv_head in Ht. apply (f_equal length) in Ht.
  rewrite length_take in Ht. simpl in Ht. lia.
Qed.

(** Every [fit] call of a run of [train] is the one [fit_args] describes. *)
Lemma train_fit_calls self td vd ep s1 s2 cw aug w m a :
  EFit m a ∈ new_events w (train self td vd ep s1 s2 cw aug w).2 ->
  ∃ cwt, model self = Some m ∧ train_weights cw (classes td) = inr cwt ∧
         a = fit_args td vd ep s1 s2 cwt.
Proof.
  intros Hin.
  pose proof (train_events self td vd ep s1 s2 cw aug w) as Hev. cbv zeta in Hev.
  destruct Hev as [[Hnone _]|(m' & cwt & n & Hm & Hw & Hn & Ht & _)].
  { rewrite Hnone in Hin. by apply elem_of_nil in Hin. }
  rewrite Ht in Hin. apply (subseteq_take n) in Hin.
  unfold train_calls in Hin. rewrite !elem_of_cons, elem_of_nil in Hin.
  destruct Hin as [[= -> ->]|[?|[?|[]]]]; try done. eauto.
Qed.

(** With the model set and the class weights computed, [fit] is called,
    first of all. *)
Lemma train_calls_fit self td vd ep s1 s2 cw aug w m cwt :
  model self = Some m -> train_weights cw (classes td) = inr cwt ->
  ∃ t, new_events w (train self td vd ep s1 s2 cw aug w).2
       = EFit m (fit_args td vd ep s1 s2 cwt) :: t.
Proof.
  intros Hm Hw.
  pose proof (train_events self td vd ep s1 s2 cw aug w) as Hev. cbv zeta in Hev.
  destruct Hev as [(_ & _ & Hnone)|(m' & cwt' & n & Hm' & Hw' & Hn & Ht & _)].
  { destruct Hnone as [e He]; [by rewrite Hm|]. congruence. }
  rewrite Hm in Hm'. rewrite Hw in Hw'. injection Hm' as <-. injection Hw' as <-.
  rewrite Ht. destruct n as [|n]; [lia|]. simpl. eauto.
Qed.

(** The paths of a supported name, written out. *)
Lemma supported_paths name cw aug :
  name ∈ supported_names ->
  let d := name +:+ variant_suffix cw aug in
  model_dir "models" name cw aug = "models/" +:+ d ∧
  checkpoint name cw aug = "models/" +:+ d +:+ "/" +:+ d +:+ ".h5" ∧
  model_dir "graphs" name cw aug = "graphs/" +:+ d.
Proof.
  unfold supported_names. rewrite !elem_of_cons, elem_of_nil.
  intros [->|[->|[->|[]]]]; destruct cw, aug; vm_compute; done.
Qed.

End Train.

(* ------------------------------------------------------------------------- *)
(** ** Labels, class weights and [np.argmax] *)

Section Labels.

Lemma elem_of_insert_sorted z x l : z ∈ Np.insert_sorted x l <-> z = x ∨ z ∈ l.
Proof.
  induction l as [|y r IH]; simpl.
  - by rewrite elem_of_cons.
  - destruct (Z.ltb_spec x y); [by rewrite elem_of_cons|].
    destruct (Z.eqb_spec x y) as [->|]; [rewrite !elem_of_cons; tauto|].
    rewrite !elem_of_cons, IH. tauto.
Qed.

(** [np.unique(y)] has the labels of [y], no others. *)
Lemma elem_of_unique z y : z ∈ Np.unique y <-> z ∈ y.
Proof.
  unfold Np.unique. induction y as [|x r IH]; simpl; [done|].
  rewrite elem_of_insert_sorted, elem_of_cons, IH. tauto.
Qed.

(** The dict [{0: a, 1: b}] has the keys 0 and 1, no others. *)
Lemma two_keys (a b : Q) (c : Z) :
  is_Some (({[ 0 := a; 1 := b ]} : gmap Z Q) !! c) <-> c = 0 ∨ c = 1.
Proof.
  destruct (decide (c = 0)) as [->|H0].
  { rewrite lookup_insert_eq. split; eauto. }
  rewrite lookup_insert_ne by done.
  destruct (decide (c = 1)) as [->|H1].
  { rewrite lookup_singleton_eq. split; eauto. }
  rewrite lookup_singleton_ne by done.
  split; [by intros [? ?]|by intros [?|?]].
Qed.

(** The scan keeps the first maximum of what it has seen: [pre] is the part
    of the row already scanned, [best] its maximum, first reached at [besti]. *)
Lemma argmax_from_spec pre best besti rest :
  pre !! besti = Some best ->
  (∀ k y, pre !! k = Some y -> (y <= best)%Q) ->
  (∀ k y, (k < besti)%nat -> pre !! k = Some y -> (y < best)%Q) ->
  ∃ x, (pre ++ rest) !! Np.argmax_from best besti (length pre) rest = Some x ∧
       (∀ k y, (pre ++ rest) !! k = Some y -> (y <= x)%Q) ∧
       (∀ k y, (k < Np.argmax_from best besti (length pre) rest)%nat ->
               (pre ++ rest) !! k = Some y -> (y < x)%Q).
Proof.
  revert pre best besti. induction rest as [|x r IH]; intros pre best besti Hb Hmax Hfirst.
  - simpl. rewrite app_nil_r. eauto.
  - simpl. replace (pre ++ x :: r) with ((pre ++ [x]) ++ r) by by rewrite <- app_assoc.
    replace (S (length pre)) with (length (pre ++ [x]))
      by (rewrite length_app; simpl; lia).
    destruct (Qle_bool x best) eqn:Hle.
    + apply Qle_bool_iff in Hle. apply IH.
      * by apply lookup_app_l_Some.
      * intros k y [[_ Hk]|[_ <-]]%lookup_snoc_Some; eauto.
      * intros k y Hlt [[_ Hk]|[-> _]]%lookup_snoc_Some; [eauto|].
        apply lookup_lt_Some in Hb. lia.
    + assert (best < x)%Q as Hlt.
      { apply Qnot_le_lt. intros Hc. apply Qle_bool_iff in Hc. congruence. }
      apply IH.
      * apply lookup_snoc_Some. right. done.
      * intros k y [[_ Hk]|[_ <-]]%lookup_snoc_Some; [|apply Qle_refl].
        apply Qlt_le_weak. eapply Qle_lt_trans; eauto.
      * intros k y Hk [[_ Hy]|[-> _]]%lookup_snoc_Some; [|lia].
        eapply Qle_lt_trans; eauto.
Qed.

Lemma argmax_row_first_max row j : Np.argmax_row row = inr j -> first_max row j.
Proof.
  destruct row as [|x r]; [discriminate|]. simpl. intros [= <-].
  destruct (argmax_from_spec [x] x 0 r) as (y & Hy & Hmax & Hfirst).
  - done.
  - by intros [|k] y [= <-]; apply Qle_refl.
  - intros k y Hk. lia.
  - exists y. rewrite Nat2Z.id. simpl in *. repeat split; try done. lia.
Qed.

Lemma argmax_rows_first_max a js :
  Np.argmax_rows a = inr js -> Forall2 first_max a js.
Proof.
  revert js. induction a as [|row rest IH]; intros js; simpl.
  - intros [= <-]. constructor.
  - destruct (Np.argmax_row row) as [e|j] eqn:Hj; [discriminate|].
    destruct (Np.argmax_rows rest) as [e|js'] eqn:Hjs; [discriminate|].
    intros [= <-]. constructor; [by apply argmax_row_first_max|by apply IH].
Qed.

Lemma argmax_axis1_first_max a js :
  Np.argmax_axis1 a = inr js -> Forall2 first_max a js.
Proof.
  unfold Np.argmax_axis1. destruct (Np.same_length a); [|discriminate].
  apply argmax_rows_first_max.
Qed.

Lemma case_pair_lower a b : case_pair a b -> Py.lower_char a = b ∧ Py.lower_char b = b.
Proof.
  intros [Ha Hb]. unfold Py.lower_char. rewrite Hb.
  destruct (Nat.leb_spec 65 (nat_of_ascii a)); [|lia].
  destruct (Nat.leb_spec (nat_of_ascii a) 90); [|lia].
  destruct (Nat.leb_spec (nat_of_ascii a + 32) 90); [lia|].
  simpl. rewrite andb_false_r. split; [|done].
  by rewrite <- Hb, ascii_nat_embedding.
Qed.

Lemma eq_up_to_case_lower s t : eq_up_to_case s t -> Py.lower s = Py.lower t.
Proof.
  induction 1 as [|a b s t Hab _ IH]; [done|]. simpl. f_equal; [|done].
  destruct Hab as [->|[Hp|Hp]]; [done| |];
    apply case_pair_lower in Hp as [H1 H2]; congruence.
Qed.

End Labels.

(* ------------------------------------------------------------------------- *)
(** ** The plotting methods *)

Section Plots.
Context `{Framework}.
Implicit Types (w : World) (self : ImageClassifier).

(** The directory the if/elif/else chain of the two plotting methods
    selects, as one expression. *)
Lemma graphs_dir self (cw aug : bool) :
  (if cw then Py.os_path_join "graphs" (base_model_name self +:+ "_with_weights")
   else if aug then Py.os_path_join "graphs" (base_model_name self +:+ "_data_augmentation")
   else Py.os_path_join "graphs" (base_model_name self))
  = model_dir "graphs" (base_model_name self) cw aug.
Proof.
  unfold model_dir, variant_suffix. destruct cw, aug; by rewrite ?append_empty_r.
Qed.

Lemma plot_emits_makedirs self h cw aug :
  emits (makedirs_to (model_dir "graphs" (base_model_name self) cw aug))
    (plot_training_performance self h cw aug).
Proof.
  unfold plot_training_performance. rewrite graphs_dir. unfold_calls.
  repeat emits_step.
Qed.

Lemma evaluation_metrics_emits_makedirs self p tg cw aug :
  emits (makedirs_to (model_dir "graphs" (base_model_name self) cw aug))
    (evaluation_metrics self p tg cw aug).
Proof.
  unfold evaluation_metrics. rewrite graphs_dir. unfold_calls.
  repeat (emits_step || split_match).
Qed.

Lemma evaluation_metrics_emits_statistics self prediction tg cw aug pred :
  Np.argmax_axis1 prediction = inr pred ->
  emits (statistic_on (classes tg) pred) (evaluation_metrics self prediction tg cw aug).
Proof.
  intros Hp. unfold evaluation_metrics. rewrite Hp. unfold_calls.
  apply emits_lift_bind. intros ? [= <-].
  repeat (emits_step || split_match).
Qed.

(** A run of [plot_training_performance] that returns has called
    [os.makedirs] once, for the selected directory. *)
Lemma plot_returns self h cw aug w u w' :
  plot_training_performance self h cw aug w = (inr u, w') ->
  makedirs_paths (new_events w w')
    = [model_dir "graphs" (base_model_name self) cw aug].
Proof.
  unfold plot_training_performance. rewrite graphs_dir. unfold_calls.
  intros Hrun. repeat inv_step Hrun.
  apply call_inr in Hrun as (? & _ & ->).
  erewrite new_events_app; [|cbn [trace]; rewrite <- !app_assoc; simpl; reflexivity].
  done.
Qed.

(** A run of [evaluation_metrics] that returns has made the seven statistics
    calls on the true labels and the argmax labels, and has called
    [os.makedirs] once, for the selected directory. *)
Lemma evaluation_metrics_returns self prediction tg cw aug w u w' :
  evaluation_metrics self prediction tg cw aug w = (inr u, w') ->
  ∃ pred, Np.argmax_axis1 prediction = inr pred ∧
    let t := classes tg in
    filter (fun ev => is_statistic ev) (new_events w w')
      = [ EMetric accuracy_score t pred;
          EMetric (f1_score "macro") t pred;
          EMetric roc_auc_score t pred;
          EPrecisionRecallCurve t pred;
          EConfusionMatrix t pred;
          EMetric precision_score t pred;
          EMetric recall_score t pred ] ∧
    makedirs_paths (new_events w w')
      = [model_dir "graphs" (base_model_name self) cw aug].
Proof.
  unfold evaluation_metrics. rewrite graphs_dir. unfold_calls.
  intros Hrun. repeat inv_step Hrun.
  apply call_inr in Hrun as (? & _ & ->).
  eexists. split; [eassumption|].
  erewrite new_events_app; [|cbn [trace]; rewrite <- !app_assoc; simpl; reflexivity].
  done.
Qed.

Lemma makedirs_paths_forall d t :
  Forall (makedirs_to d) t -> ∀ p, p ∈ makedirs_paths t -> p = d.
Proof.
  intros Ht p Hp. unfold makedirs_paths in Hp.
  apply list_elem_of_omap in Hp as (ev & Hev & Hp).
  rewrite Forall_forall in Ht. specialize (Ht ev Hev).
  destruct ev; try discriminate. injection Hp as <-. by destruct Ht.
Qed.

End Plots.

(* ------------------------------------------------------------------------- *)
(** ** The methods leave the layer objects alone *)

Section Frame.
Context `{Framework}.
Implicit Types (w : World) (self : ImageClassifier).

Lemma train_keeps_store self td vd ep s1 s2 cw aug :
  keeps_store (train self td vd ep s1 s2 cw aug).
Proof. unfold train. unfold_calls. repeat (keeps_step || split_match). Qed.

Lemma evaluate_keeps_store self vd s : keeps_store (evaluate self vd s).
Proof. unfold evaluate. unfold_calls. repeat (keeps_step || split_match). Qed.

Lemma test_keeps_store self tg s : keeps_store (test self tg s).
Proof. unfold test. unfold_calls. repeat (keeps_step || split_match). Qed.

Lemma plot_keeps_store self h cw aug :
  keeps_store (plot_training_performance self h cw aug).
Proof.
  unfold plot_training_performance. unfold_calls.
  repeat (keeps_step || split_match).
Qed.

Lemma evaluation_metrics_keeps_store self p tg cw aug :
  keeps_store (evaluation_metrics self p tg cw aug).
Proof.
  unfold evaluation_metrics. unfold_calls.
  repeat (keeps_step || split_match).
Qed.

End Frame.

(* ------------------------------------------------------------------------- *)
(** ** The properties of the class *)

Section Properties.
Context `{Framework}.
Implicit Types (w : World) (self : ImageClassifier).


(** C2, as amended.  In every call to [train] with [class_weights=True],
    each [fit] call is given as [class_weight] the dict with exactly the two
    keys 0 and 1, whose values are the balanced weights
    [n_samples / (n_classes * count(c))] of the two smallest labels of
    [train_data.classes]; with at least two distinct labels and the model set
    the [fit] call is made with it; and when the labels present are exactly
    0 and 1 the dict has one entry for every class present, each class with
    its own balanced weight. *)
Theorem train_class_weights self td vd ep s1 s2 aug w :
  let y := classes td in
  let r := train self td vd ep s1 s2 true aug w in
  (∀ m a, EFit m a ∈ new_events w r.2 ->
     ∃ c0 c1 rest d,
       Np.unique y = c0 :: c1 :: rest ∧ class_weight a = Some d ∧
       d = {[ 0 := Sklearn.balanced_weight y c0; 1 := Sklearn.balanced_weight y c1 ]} ∧
       ∀ c, is_Some (d !! c) <-> c = 0 ∨ c = 1)
  ∧ (∀ c, Sklearn.balanced_weight y c
          = (inject_Z (Z.of_nat (length y))
             / (inject_Z (Z.of_nat (length (Np.unique y)))
                * inject_Z (Z.of_nat (count_occ Z.eq_dec y c))))%Q)
  ∧ (∀ m c0 c1 rest, model self = Some m -> Np.unique y = c0 :: c1 :: rest ->
       ∃ a t, new_events w r.2 = EFit m a :: t)
  ∧ (Np.unique y = [0; 1] ->
     ∀ m a, EFit m a ∈ new_events w r.2 ->
       weights_cover_classes td a ∧
       ∀ d c, class_weight a = Some d -> (is_Some (d !! c) <-> c ∈ y)).
Proof.
  intros y r. subst r.
  assert (Hdict : ∀ m a, EFit m a ∈ new_events w (train self td vd ep s1 s2 true aug w).2 ->
            ∃ c0 c1 rest, Np.unique y = c0 :: c1 :: rest ∧
              class_weight a = Some {[ 0 := Sklearn.balanced_weight y c0;
                                        1 := Sklearn.balanced_weight y c1 ]}).
  { intros m a Hin. apply train_fit_calls in Hin as (cwt & _ & Hw & ->).
    unfold train_weights, two_class_weights in Hw. fold y in Hw.
    destruct (Np.unique y) as [|c0 [|c1 rest]]; try discriminate.
    injection Hw as <-. by exists c0, c1, rest. }
  split; [|split; [done|split]].
  - intros m a Hin. destruct (Hdict m a Hin) as (c0 & c1 & rest & Hu & Hcw).
    exists c0, c1, rest, {[ 0 := Sklearn.balanced_weight y c0;
                            1 := Sklearn.balanced_weight y c1 ]}.
    repeat split; try done; apply two_keys.
  - intros m c0 c1 rest Hm Hu.
    destruct (train_calls_fit self td vd ep s1 s2 true aug w m
                (Some {[ 0 := Sklearn.balanced_weight y c0;
                         1 := Sklearn.balanced_weight y c1 ]}) Hm) as [t Ht].
    { unfold train_weights, two_class_weights. fold y. by rewrite Hu. }
    eauto.
  - intros Hu m a Hin. destruct (Hdict m a Hin) as (c0 & c1 & rest & Hu' & Hcw).
    rewrite Hu in Hu'. injection Hu' as <- <- <-.
    assert (Hy : ∀ c, c ∈ y <-> c = 0 ∨ c = 1).
    { intros c. rewrite <- elem_of_unique, Hu, !elem_of_cons, elem_of_nil. tauto. }
    split.
    + eexists. split; [exact Hcw|]. intros c [-> | ->]%Hy; done.
    + intros d c Hd. rewrite Hcw in Hd. injection Hd as <-.
      by rewrite two_keys, Hy.
Qed.

(** C3.  After [__init__] has returned, every layer object of the model that
    belongs to the pre-trained backbone has [trainable = False] and the two
    head layers have [trainable = True]; and [train], [evaluate], [test],
    [plot_training_performance] and [evaluation_metrics] leave every layer
    object, hence every [trainable] flag, as it is, in any world and whatever
    their outcome. *)
Theorem backbone_frozen shape nc act name w self w' :
  (__init__ shape nc act name w = (inr self, w') ->
   ∃ m, model self = Some m ∧
     ∀ a, a ∈ m_layers m ->
       ∃ l, store w' !! a = Some l ∧
            match l_kind l with
            | Pretrained _ _ => trainable l = false
            | GlobalAveragePooling2D | Dense _ _ => trainable l = true
            end)
  ∧ (∀ td vd ep s1 s2 cw aug, keeps_store (train self td vd ep s1 s2 cw aug))
  ∧ (∀ vd s, keeps_store (evaluate self vd s))
  ∧ (∀ tg s, keeps_store (test self tg s))
  ∧ (∀ h cw aug, keeps_store (plot_training_performance self h cw aug))
  ∧ (∀ p tg cw aug, keeps_store (evaluation_metrics self p tg cw aug)).
Proof.
  split.
  - intros Hinit.
    apply init_returns in Hinit as (b & Hb & -> & Hs & Ht & Hl). simpl.
    eexists. split; [done|]. intros a Ha.
    apply list_elem_of_lookup in Ha as [i Hi].
    destruct (Forall2_lookup_l _ _ _ _ _ Hl Hi) as (l & Hli & Hla).
    exists l. split; [done|].
    apply list_elem_of_lookup_2 in Hli. unfold built_layers in Hli.
    apply elem_of_app in Hli as [Hli|Hli].
    + apply list_elem_of_fmap in Hli as (s & -> & _). done.
    + rewrite !elem_of_cons, elem_of_nil in Hli.
      destruct Hli as [->|[->|[]]]; done.
  - auto using train_keeps_store, evaluate_keeps_store, test_keeps_store,
      plot_keeps_store, evaluation_metrics_keeps_store.
Qed.

(** C4.  A constructed instance has made exactly five library calls: the
    selected backbone with [weights="imagenet"], [include_top=False] and the
    input shape; one [GlobalAveragePooling2D] on the backbone's output; one
    [Dense] with [num_classes] units and the constructor's activation on top;
    [Model]; and [compile] with adam, binary_crossentropy and accuracy.  The
    layers of its model are the backbone's layers followed by these two head
    layers. *)
Theorem init_model_structure shape nc act name w self w'
    (Hinit : __init__ shape nc act name w = (inr self, w')) :
  ∃ b m, backbone_of (Py.lower name) = Some b ∧ model self = Some m ∧
    let specs := fw_layers b (backbone_args shape) (env w) in
    let base := seq (length (store w)) (length specs) in
    let gap := (length (store w) + length specs)%nat in
    new_events w w' =
      [ EApplication b {| weights := "imagenet"; include_top := false;
                          app_input_shape := shape ++ [3] |};
        EGlobalAveragePooling2D base;
        EDense nc act (base ++ [gap]);
        EModel (take 1 base) (m_layers m);
        ECompile {| optimizer := "adam"; loss := "binary_crossentropy";
                    metrics := ["accuracy"] |} ] ∧
    m_layers m = base ++ [gap; S gap] ∧
    Forall2 (fun a l => store w' !! a = Some l) (m_layers m)
      (map (fun s => {| l_kind := Pretrained b s.1; trainable := false |}) specs
       ++ [ {| l_kind := GlobalAveragePooling2D; trainable := true |};
            {| l_kind := Dense nc act; trainable := true |} ]) ∧
    m_compiled m = Some {| optimizer := "adam"; loss := "binary_crossentropy";
                           metrics := ["accuracy"] |}.
Proof.
  apply init_returns in Hinit as (b & Hb & -> & Hs & Ht & Hl).
  exists b, (built_model (length (store w))
               (length (fw_layers b (backbone_args shape) (env w)))).
  repeat split; try done.
  - by apply new_events_app.
  - simpl. by rewrite <- app_assoc.
Qed.

(** C5.  A call to [train] that returns, on a constructed instance, has made
    three library calls in this order: [fit]; [os.makedirs] of
    [models/<d>] with [exist_ok=True]; and one [save] of the same model to
    [models/<d>/<d>.h5], where [<d>] is the name followed by
    [_with_weights], [_data_augmentation] or nothing, by the two flags.  What
    it returns is the history [fit] returned. *)
Theorem train_saves_model shape nc act name w0 self w1
    td vd ep s1 s2 cw aug w h w'
    (Hinit : __init__ shape nc act name w0 = (inr self, w1))
    (Htrain : train self td vd ep s1 s2 cw aug w = (inr h, w')) :
  ∃ m cwt, model self = Some m ∧
    let a := fit_args td vd ep s1 s2 cwt in
    let d := base_model_name self +:+ variant_suffix cw aug in
    new_events w w' =
      [ EFit m a;
        EMakedirs ("models/" +:+ d) true;
        ESave m ("models/" +:+ d +:+ "/" +:+ d +:+ ".h5") ] ∧
    length (filter (fun ev => is_save ev) (new_events w w')) = 1%nat ∧
    fw_raises (EFit m a) (env w) = None ∧
    h = fw_history m a (env w).
Proof.
  apply init_name_supported in Hinit.
  destruct (supported_paths _ cw aug Hinit) as (Hd & Hf & _).
  rewrite train_run in Htrain.
  destruct (train_weights cw (classes td)) as [e|cwt]; [discriminate|].
  destruct (model self) as [m|]; [|discriminate].
  apply fit_and_save_inr in Htrain as ((Hok & _) & -> & ->).
  exists m, cwt. split; [done|]. simpl.
  rewrite (new_events_app _ _ (train_calls m (fit_args td vd ep s1 s2 cwt)
             (model_dir "models" (base_model_name self) cw aug)
             (checkpoint (base_model_name self) cw aug))) by done.
  unfold train_calls. rewrite Hd, Hf. done.
Qed.

(** C6.  In every call to [evaluation_metrics], each statistics call that is
    made (accuracy, macro F1, ROC-AUC, precision-recall curve, confusion
    matrix, precision, recall) is given the test generator's true labels and
    one and the same vector of predicted labels, whose entry for a sample is
    the position of the first maximum of that sample's row of the prediction;
    a call that returns has made these seven calls, in this order. *)
Theorem metrics_use_argmax_labels self prediction tg cw aug w :
  let r := evaluation_metrics self prediction tg cw aug w in
  let t := classes tg in
  (∀ ev, ev ∈ new_events w r.2 -> is_statistic ev = true ->
     ∃ pred, Np.argmax_axis1 prediction = inr pred ∧
             Forall2 first_max prediction pred ∧
             stat_args ev = Some (t, pred))
  ∧ (r.1 = inr () ->
     ∃ pred, Np.argmax_axis1 prediction = inr pred ∧
       Forall2 first_max prediction pred ∧
       filter (fun ev => is_statistic ev) (new_events w r.2)
         = [ EMetric accuracy_score t pred;
             EMetric (f1_score "macro") t pred;
             EMetric roc_auc_score t pred;
             EPrecisionRecallCurve t pred;
             EConfusionMatrix t pred;
             EMetric precision_score t pred;
             EMetric recall_score t pred ]).
Proof.
  intros r t. subst r t. split.
  - intros ev Hin Hstat.
    destruct (Np.argmax_axis1 prediction) as [e|pred] eqn:Hp.
    + unfold evaluation_metrics in Hin. rewrite Hp in Hin.
      rewrite bind_run in Hin. simpl in Hin.
      rewrite new_events_same in Hin. by apply elem_of_nil in Hin.
    + exists pred. split; [done|]. split; [by apply argmax_axis1_first_max|].
      pose proof (emits_run _ _ w
                    (evaluation_metrics_emits_statistics self prediction tg cw aug pred Hp))
        as HP.
      rewrite Forall_forall in HP. by apply (HP ev).
  - intros Hok.
    destruct (evaluation_metrics self prediction tg cw aug w) as [r w'] eqn:Hrun.
    simpl in *. subst r.
    apply evaluation_metrics_returns in Hrun as (pred & Hp & Hstat & _).
    exists pred. split; [done|]. split; [by apply argmax_axis1_first_max|done].
Qed.

(** C7.  For every name and every pair of flags there is one subdirectory
    name [<d>] (the name followed by the suffix of the flags) such that every
    [os.makedirs] call of [train] is for [os.path.join("models", <d>)] and
    every one of [plot_training_performance] and of [evaluation_metrics] is
    for [os.path.join("graphs", <d>)]; a run that returns has made exactly
    that one call. *)
Theorem artifact_subdir_agrees self cw aug :
  let d := base_model_name self +:+ variant_suffix cw aug in
  (∀ td vd ep s1 s2 w,
     let r := train self td vd ep s1 s2 cw aug w in
     (∀ p, p ∈ makedirs_paths (new_events w r.2) -> p = Py.os_path_join "models" d) ∧
     (∀ h, r.1 = inr h ->
           makedirs_paths (new_events w r.2) = [Py.os_path_join "models" d]))
  ∧ (∀ h w,
     let r := plot_training_performance self h cw aug w in
     (∀ p, p ∈ makedirs_paths (new_events w r.2) -> p = Py.os_path_join "graphs" d) ∧
     (r.1 = inr () ->
      makedirs_paths (new_events w r.2) = [Py.os_path_join "graphs" d]))
  ∧ (∀ pr tg w,
     let r := evaluation_metrics self pr tg cw aug w in
     (∀ p, p ∈ makedirs_paths (new_events w r.2) -> p = Py.os_path_join "graphs" d) ∧
     (r.1 = inr () ->
      makedirs_paths (new_events w r.2) = [Py.os_path_join "graphs" d])).
Proof.
  intros d. subst d. fold (model_dir "models" (base_model_name self) cw aug).
  fold (model_dir "graphs" (base_model_name self) cw aug).
  split; [|split].
  - intros td vd ep s1 s2 w r. subst r.
    pose proof (train_events self td vd ep s1 s2 cw aug w) as Hev. cbv zeta in Hev.
    destruct Hev as [(Hnone & [e He] & _)|(m & cwt & n & Hm & Hw & Hn & Ht & _ & Hall)].
    + rewrite Hnone. split; [intros p Hp; by apply elem_of_nil in Hp|].
      intros h Hh. congruence.
    + rewrite Ht. unfold train_calls. split.
      * intros p Hp. destruct n as [|[|[|[|n]]]]; simpl in Hp;
          rewrite ?elem_of_cons, ?elem_of_nil in Hp; tauto.
      * intros h Hh. by rewrite (Hall h Hh).
  - intros h w r. subst r. split.
    + apply makedirs_paths_forall, emits_run, plot_emits_makedirs.
    + intros Hok.
      destruct (plot_training_performance self h cw aug w) as [r w'] eqn:Hrun.
      simpl in *. subst r. by apply plot_returns in Hrun.
  - intros pr tg w r. subst r. split.
    + apply makedirs_paths_forall, emits_run, evaluation_metrics_emits_makedirs.
    + intros Hok.
      destruct (evaluation_metrics self pr tg cw aug w) as [r w'] eqn:Hrun.
      simpl in *. subst r.
      by apply evaluation_metrics_returns in Hrun as (pred & _ & _ & ->).
Qed.

(** C8.  In every call to [train], whatever the two flags, each [fit] call
    is given exactly one callback, [EarlyStopping(monitor="val_loss",
    patience=13, restore_best_weights=True)]; there is at most one [fit]
    call; when [fit] raises, [train] raises the same exception and makes no
    further call; and once the class weights are computed and the model is
    set, the [fit] call is made. *)
Theorem fit_gets_early_stopping self td vd ep s1 s2 cw aug w :
  let r := train self td vd ep s1 s2 cw aug w in
  (∀ m a, EFit m a ∈ new_events w r.2 ->
     callbacks a = [EarlyStopping "val_loss" 13 true])
  ∧ (length (filter (fun ev => is_fit ev) (new_events w r.2)) <= 1)%nat
  ∧ (∀ m a e, EFit m a ∈ new_events w r.2 ->
       fw_raises (EFit m a) (env w) = Some e ->
       r.1 = inl e ∧ new_events w r.2 = [EFit m a])
  ∧ (∀ m cwt, model self = Some m -> train_weights cw (classes td) = inr cwt ->
       ∃ t, new_events w r.2 = EFit m (fit_args td vd ep s1 s2 cwt) :: t).
Proof.
  intros r. subst r. split; [|split; [|split]].
  - intros m a Hin. by apply train_fit_calls in Hin as (cwt & _ & _ & ->).
  - pose proof (train_events self td vd ep s1 s2 cw aug w) as Hev. cbv zeta in Hev.
    destruct Hev as [(Hnone & _)|(m & cwt & n & _ & _ & Hn & Ht & _)].
    + rewrite Hnone. simpl. lia.
    + rewrite Ht. destruct n as [|[|[|[|n]]]]; simpl; lia.
  - intros m a e Hin He.
    pose proof (train_events self td vd ep s1 s2 cw aug w) as Hev. cbv zeta in Hev.
    destruct Hev as [(Hnone & _)|(m' & cwt & n & Hm & Hw & Hn & Ht & Hr & _)].
    { rewrite Hnone in Hin. by apply elem_of_nil in Hin. }
    apply train_fit_calls in Hin as (cwt' & Hm' & Hw' & ->).
    rewrite Hm in Hm'. rewrite Hw in Hw'. injection Hm' as <-. injection Hw' as <-.
    destruct (Hr e He) as [-> Hre]. by rewrite Ht.
  - intros m cwt Hm Hw. by apply train_calls_fit.
Qed.

(** C9.  In every constructor call, each backbone constructor call is given
    [input_shape + (3,)] as its input shape (with the imagenet weights and
    without the top); with a supported name that call is made, first of all.
    The shape given has three components exactly when [input_shape] has two,
    and for the docstring's [(120, 120, 3)] it is [(120, 120, 3, 3)]. *)
Theorem build_model_input_shape shape nc act name w :
  let w' := (__init__ shape nc act name w).2 in
  (∀ b a, EApplication b a ∈ new_events w w' ->
     weights a = "imagenet" ∧ include_top a = false ∧
     app_input_shape a = shape ++ [3]) ∧
  (∀ b, backbone_of (Py.lower name) = Some b ->
     ∃ t, new_events w w' = EApplication b (backbone_args shape) :: t) ∧
  (length (shape ++ [3]) = 3%nat <-> length shape = 2%nat) ∧
  (shape = [120; 120; 3] ->
   ∀ b a, EApplication b a ∈ new_events w w' -> app_input_shape a = [120; 120; 3; 3]).
Proof.
  intros w'.
  assert (Hall : ∀ b a, EApplication b a ∈ new_events w w' -> a = backbone_args shape).
  { intros b a Hin.
    pose proof (emits_run (backbone_call_ok shape) (__init__ shape nc act name) w) as HP.
    rewrite Forall_forall in HP. apply (HP ltac:(by apply init_emits) _ Hin). }
  split; [|split; [|split]].
  - intros b a Hin. by rewrite (Hall b a Hin).
  - intros b Hb. subst w'. rewrite init_run.
    destruct (build_model_first_call
                {| input_shape := shape; num_classes := nc; activation := act;
                   base_model_name := Py.lower name; model := None |} w b Hb) as [t Ht].
    exists t. apply new_events_app.
    destruct (_build_model _ w) as [[e|m] w1]; exact Ht.
  - rewrite length_app. simpl. lia.
  - intros -> b a Hin. by rewrite (Hall b a Hin).
Qed.

(** C10.  Two names that are equal up to the case of their ASCII letters have
    the same lowercased form and select the same backbone; the constructor
    behaves the same on both, so the instances it returns are equal, with the
    lowercased name stored, and [train], [plot_training_performance] and
    [evaluation_metrics], which derive every artifact path from it, are the
    same computations on the two instances. *)
Theorem backbone_selection_ignores_case shape nc act n1 n2
    (Hcase : eq_up_to_case n1 n2) :
  Py.lower n1 = Py.lower n2
  ∧ backbone_of (Py.lower n1) = backbone_of (Py.lower n2)
  ∧ (∀ w, __init__ shape nc act n1 w = __init__ shape nc act n2 w)
  ∧ (∀ w self1 w1 self2 w2,
       __init__ shape nc act n1 w = (inr self1, w1) ->
       __init__ shape nc act n2 w = (inr self2, w2) ->
       base_model_name self1 = Py.lower n1 ∧ self1 = self2 ∧ w1 = w2 ∧
       ∀ cw aug,
         (∀ td vd ep s1 s2, train self1 td vd ep s1 s2 cw aug
                            = train self2 td vd ep s1 s2 cw aug) ∧
         (∀ h, plot_training_performance self1 h cw aug
               = plot_training_performance self2 h cw aug) ∧
         (∀ p tg, evaluation_metrics self1 p tg cw aug
                  = evaluation_metrics self2 p tg cw aug)).
Proof.
  pose proof (eq_up_to_case_lower _ _ Hcase) as Hl.
  split; [done|]. split; [by rewrite Hl|].
  assert (Hsame : ∀ w, __init__ shape nc act n1 w = __init__ shape nc act n2 w).
  { intros w. by rewrite !init_run, Hl. }
  split; [done|].
  intros w self1 w1 self2 w2 H1 H2.
  assert (self1 = self2 ∧ w1 = w2) as [-> ->].
  { rewrite Hsame, H2 in H1. by injection H1 as <- <-. }
  apply init_returns in H2 as (b & _ & -> & _). done.
Qed.

End Properties.

(* ------------------------------------------------------------------------- *)
(** ** Further properties: [train] *)

Section SortedLabels.

Lemma insert_sorted_lower_bound b x l :
  b < x -> Forall (Z.lt b) l -> Forall (Z.lt b) (Np.insert_sorted x l).
Proof.
  intros Hbx Hl. apply Forall_forall. intros z Hz.
  apply elem_of_insert_sorted in Hz as [->|Hz]; [done|].
  rewrite Forall_forall in Hl. by apply Hl.
Qed.

Lemma insert_sorted_sorted x l :
  StronglySorted Z.lt l -> StronglySorted Z.lt (Np.insert_sorted x l).
Proof.
  induction 1 as [|y r Hs IH Hy]; simpl.
  - repeat constructor.
  - destruct (Z.ltb_spec x y).
    + constructor; [by constructor|]. constructor; [done|].
      eapply Forall_impl; [exact Hy|]. intros z Hz. simpl in Hz. lia.
    + destruct (Z.eqb_spec x y) as [->|Hne]; [by constructor|].
      constructor; [done|]. apply insert_sorted_lower_bound; [lia|done].
Qed.

(** [np.unique(y)] is strictly increasing. *)
Lemma unique_sorted y : StronglySorted Z.lt (Np.unique y).
Proof.
  unfold Np.unique. induction y as [|x r IH]; simpl; [constructor|].
  by apply insert_sorted_sorted.
Qed.

(** The first two entries of [np.unique(y)] are the two smallest labels. *)
Lemma unique_two_smallest y c0 c1 rest :
  Np.unique y = c0 :: c1 :: rest ->
  c0 ∈ y ∧ c1 ∈ y ∧ c0 < c1 ∧ ∀ c, c ∈ y -> c = c0 ∨ c = c1 ∨ c1 < c.
Proof.
  intros Hu. pose proof (unique_sorted y) as Hs. rewrite Hu in Hs.
  apply StronglySorted_inv in Hs as [Hs H0].
  apply StronglySorted_inv in Hs as [_ H1].
  apply Forall_cons in H0 as [H01 _].
  repeat split.
  - apply elem_of_unique. rewrite Hu. left.
  - apply elem_of_unique. rewrite Hu. right. left.
  - done.
  - intros c Hc. apply elem_of_unique in Hc. rewrite Hu in Hc.
    rewrite !elem_of_cons in Hc. destruct Hc as [?|[?|Hc]]; [by left|by right; left|].
    right. right. rewrite Forall_forall in H1. by apply H1.
Qed.

(** Fewer than two distinct labels, seen from [np.unique]. *)
Lemma unique_short y :
  (∀ a b, a ∈ y -> b ∈ y -> a = b) <-> (length (Np.unique y) < 2)%nat.
Proof.
  split.
  - intros Hone. destruct (Np.unique y) as [|c0 [|c1 rest]] eqn:Hu; simpl; try lia.
    apply unique_two_smallest in Hu as (H0 & H1 & Hlt & _).
    specialize (Hone c0 c1 H0 H1). lia.
  - intros Hlen a b Ha Hb. apply elem_of_unique in Ha, Hb.
    destruct (Np.unique y) as [|c0 [|c1 rest]]; simpl in Hlen; try lia.
    + by apply elem_of_nil in Ha.
    + apply list_elem_of_singleton in Ha, Hb. congruence.
Qed.

End SortedLabels.

Section TrainOutcomes.
Context `{Framework}.
Implicit Types (w : World) (self : ImageClassifier).

(** The outcome of fit, makedirs, save, call by call. *)
Lemma fit_and_save_outcome m a d f w :
  match fw_raises (EFit m a) (env w) with
  | Some e => fit_and_save m a d f w = (inl e, after w [EFit m a])
  | None =>
      match fw_raises (EMakedirs d true) (env (after w [EFit m a])) with
      | Some e => fit_and_save m a d f w = (inl e, after w [EFit m a; EMakedirs d true])
      | None =>
          match fw_raises (ESave m f) (env (after w [EFit m a; EMakedirs d true])) with
          | Some e => fit_and_save m a d f w = (inl e, after w (train_calls m a d f))
          | None => fit_and_save m a d f w
                    = (inr (fw_history m a (env w)), after w (train_calls m a d f))
          end
      end
  end.
Proof.
  unfold fit_and_save, after, train_calls, run_env. simpl.
  destruct (fw_raises (EFit m a) (env w)) as [e|] eqn:H1.
  { erewrite bind_raised; [reflexivity|by apply call_raised]. }
  erewrite bind_ok; [|by apply call_accepted].
  destruct (fw_raises (EMakedirs d true) _) as [e|] eqn:H2.
  { erewrite bind_raised; [reflexivity|]. unfold call_.
    rewrite (call_raised _ _ _ e) by done. simpl. by rewrite <- app_assoc. }
  erewrite bind_ok; [|by apply call__ok].
  destruct (fw_raises (ESave m f) _) as [e|] eqn:H3.
  { erewrite bind_raised; [reflexivity|]. unfold call_.
    rewrite (call_raised _ _ _ e) by done. simpl. by rewrite <- !app_assoc. }
  erewrite bind_ok; [|by apply call__ok]. rewrite ret_run. simpl.
  by rewrite <- !app_assoc.
Qed.

(** X1.  With [class_weights=True], [train] needs two distinct labels in
    [train_data.classes].  When there is a label, it raises [IndexError], at
    the subscript of [class_weight], before any library call and leaving the
    world as it was, exactly when the labels are all the same.  When there
    is no label, [compute_class_weight] raises first: [train] ends with the
    library's exception [fw_no_label], again before any call, and the
    subscript is not reached. *)
Theorem train_needs_two_classes self td vd ep s1 s2 aug w :
  (classes td = [] ->
   train self td vd ep s1 s2 true aug w = (inl fw_no_label, w))
  ∧ (classes td ≠ [] ->
     ((∀ a b, a ∈ classes td -> b ∈ classes td -> a = b) <->
      train self td vd ep s1 s2 true aug w = (inl IndexError, w))).
Proof.
  split.
  { intros Hy. rewrite train_run. unfold train_weights, two_class_weights.
    by rewrite Hy. }
  intros Hy.
  rewrite unique_short, train_run. unfold train_weights, two_class_weights.
  destruct (Np.unique (classes td)) as [|c0 [|c1 rest]]; simpl.
  - destruct (classes td); [done|]. split; [done|lia].
  - destruct (classes td); [done|]. split; [done|lia].
  - split; [lia|]. intros Hrun. exfalso.
    destruct (model self) as [m|]; [|discriminate].
    destruct (fit_and_save_trace m
                (fit_args td vd ep s1 s2
                   (Some {[ 0 := Sklearn.balanced_weight (classes td) c0;
                            1 := Sklearn.balanced_weight (classes td) c1 ]}))
                (model_dir "models" (base_model_name self) true aug)
                (checkpoint (base_model_name self) true aug) w) as (n & Hn & Ht & _).
    rewrite Hrun in Ht. simpl in Ht.
    apply (f_equal length) in Ht. rewrite length_app, length_take in Ht.
    simpl in Ht. lia.
Qed.

(** X2.  In every [fit] call of [train] with [class_weights=True], key 0 of
    the class weights holds the balanced weight of the smallest label of
    [train_data.classes] and key 1 that of the second smallest, whatever
    these two labels are. *)
Theorem train_weights_smallest_labels self td vd ep s1 s2 aug w m a :
  EFit m a ∈ new_events w (train self td vd ep s1 s2 true aug w).2 ->
  ∃ c0 c1,
    c0 ∈ classes td ∧ c1 ∈ classes td ∧ c0 < c1 ∧
    (∀ c, c ∈ classes td -> c = c0 ∨ c = c1 ∨ c1 < c) ∧
    class_weight a = Some {[ 0 := Sklearn.balanced_weight (classes td) c0;
                             1 := Sklearn.balanced_weight (classes td) c1 ]}.
Proof.
  intros Hin. apply train_fit_calls in Hin as (cwt & _ & Hw & ->).
  unfold train_weights, two_class_weights in Hw.
  destruct (Np.unique (classes td)) as [|c0 [|c1 rest]] eqn:Hu; try discriminate.
  injection Hw as <-. apply unique_two_smallest in Hu as (H0 & H1 & Hlt & Hall).
  exists c0, c1. done.
Qed.

(** X3.  [train] writes the checkpoint only after [fit] and [os.makedirs]
    have returned: a run in which [save] is called has made exactly the
    calls fit, makedirs, save, the first two were accepted, and if the run
    raised, it is [save] that raised. *)
Theorem train_saves_only_after_fit self td vd ep s1 s2 cw aug w :
  let r := train self td vd ep s1 s2 cw aug w in
  ∀ m f, ESave m f ∈ new_events w r.2 ->
    ∃ a d,
      new_events w r.2 = [EFit m a; EMakedirs d true; ESave m f] ∧
      fw_raises (EFit m a) (env w) = None ∧
      fw_raises (EMakedirs d true) (env (after w [EFit m a])) = None ∧
      (∀ e, r.1 = inl e ->
            fw_raises (ESave m f) (env (after w [EFit m a; EMakedirs d true])) = Some e).
Proof.
  intros r m f. subst r. rewrite train_run.
  destruct (train_weights cw (classes td)) as [e|cwt].
  { simpl. rewrite new_events_same. intros Hin. by apply elem_of_nil in Hin. }
  destruct (model self) as [m'|].
  2:{ simpl. rewrite new_events_same. intros Hin. by apply elem_of_nil in Hin. }
  pose proof (fit_and_save_outcome m' (fit_args td vd ep s1 s2 cwt)
                (model_dir "models" (base_model_name self) cw aug)
                (checkpoint (base_model_name self) cw aug) w) as Hout.
  destruct (fw_raises (EFit m' _) (env w)) as [e|] eqn:H1.
  { rewrite Hout. simpl.
    rewrite (new_events_app _ _ [EFit m' (fit_args td vd ep s1 s2 cwt)]) by done.
    intros Hin. apply list_elem_of_singleton in Hin. discriminate. }
  destruct (fw_raises (EMakedirs _ true) _) as [e|] eqn:H2.
  { rewrite Hout. simpl. erewrite new_events_app; [|reflexivity].
    rewrite !elem_of_cons, elem_of_nil. intros [?|[?|[]]]; discriminate. }
  destruct (fw_raises (ESave m' _) _) as [e|] eqn:H3; rewrite Hout; simpl.
  all: erewrite new_events_app; [|reflexivity].
  all: unfold train_calls; rewrite !elem_of_cons, elem_of_nil.
  all: intros [?|[?|[[= -> ->]|[]]]]; try discriminate.
  all: eexists _, _; split; [reflexivity|]; split; [done|]; split; [done|].
  - by intros ? [= <-].
  - intros ?. discriminate.
Qed.

End TrainOutcomes.

(* ------------------------------------------------------------------------- *)
(** ** Further properties: straight-line code *)

Section ScriptRuns.
Context `{Framework}.
Implicit Types (w : World) (ev : Event) (l t : list Event) (P : Event -> Prop).

Lemma after_nil w : after w [] = w.
Proof. unfold after. simpl. rewrite app_nil_r. by destruct w. Qed.

Lemma after_app w t1 t2 : after (after w t1) t2 = after w (t1 ++ t2).
Proof. unfold after, run_env. simpl. by rewrite foldl_app, app_assoc. Qed.

Lemma after_call ev w :
  {| store := store w; env := fw_next ev (env w); trace := trace w ++ [ev] |}
  = after w [ev].
Proof. reflexivity. Qed.

Lemma new_events_after w t : new_events w (after w t) = t.
Proof. by apply new_events_app. Qed.

Lemma accepted_app e t1 t2 :
  accepted e (t1 ++ t2) <-> accepted e t1 ∧ accepted (run_env e t1) t2.
Proof.
  revert e. induction t1 as [|ev r IH]; intros e; simpl; [tauto|].
  rewrite IH. unfold run_env. simpl. tauto.
Qed.

(** The outcome of straight-line code: it returns when every call is
    accepted; otherwise it stops at the first call that raises, with that
    call's exception. *)
Lemma run_calls_outcome l w :
  (accepted (env w) l ∧ run_calls l w = (inr (), after w l))
  ∨ ∃ t ev r e, l = t ++ ev :: r ∧ accepted (env w) t ∧
      fw_raises ev (run_env (env w) t) = Some e ∧
      run_calls l w = (inl e, after w (t ++ [ev])).
Proof.
  revert w. induction l as [|ev r IH]; intros w; simpl.
  { left. by rewrite after_nil. }
  rewrite bind_run. unfold call_.
  destruct (fw_raises ev (env w)) as [e|] eqn:Hr.
  - right. exists [], ev, r, e. rewrite (call_raised _ _ _ e) by done. done.
  - rewrite call_accepted by done. rewrite after_call.
    destruct (IH (after w [ev])) as [[Hacc Hrun]|(t & ev' & r' & e & -> & Hacc & Hr' & Hrun)].
    + left. rewrite Hrun, after_app. done.
    + right. exists (ev :: t), ev', r', e. rewrite Hrun, after_app. done.
Qed.

(** What a scripted computation does in one run: its calls are a prefix of
    the script; it returns exactly when the script is accepted, and has then
    made all of its calls; when it raises, the last call made raised. *)
Lemma scripted_run l m w :
  scripted l m ->
  new_events w (m w).2 `prefix_of` l
  ∧ ((m w).1 = inr () <-> accepted (env w) l)
  ∧ ((m w).1 = inr () -> new_events w (m w).2 = l)
  ∧ (∀ e, (m w).1 = inl e ->
       ∃ t ev, new_events w (m w).2 = t ++ [ev] ∧ accepted (env w) t ∧
               fw_raises ev (run_env (env w) t) = Some e)
  ∧ (m w).2 = after w (new_events w (m w).2).
Proof.
  intros Hm. specialize (Hm w). revert Hm. generalize (m w). intros p ->.
  destruct (run_calls_outcome l w)
    as [[Hacc ->]|(t & ev & r & e & -> & Hacc & Hr & ->)]; simpl;
    rewrite new_events_after.
  - split; [done|]. split; [done|]. split; [done|]. split; [|done]. intros ? [=].
  - split; [exists r; by rewrite <- app_assoc|].
    split.
    { split; [done|]. intros Hall. apply accepted_app in Hall as [_ [Hev _]]. congruence. }
    split; [done|]. split; [|done].
    intros ? [= <-]. eauto.
Qed.

(** In a run that got as far as its [i]-th call, that call is the [i]-th of
    the script and every call before it was accepted. *)
Lemma scripted_reached l m w i ev :
  scripted l m -> new_events w (m w).2 !! i = Some ev ->
  l !! i = Some ev ∧ accepted (env w) (take i l).
Proof.
  intros Hm Hi.
  destruct (scripted_run l m w Hm) as (Hpre & Hret & Hall & Hraise & _).
  split; [by eapply prefix_lookup_Some|].
  destruct ((m w).1) as [e|[]] eqn:Hout.
  - destruct (Hraise e eq_refl) as (t & ev' & Ht & Hacc & _).
    rewrite Ht in Hpre, Hi. destruct Hpre as [r ->].
    apply lookup_lt_Some in Hi. rewrite length_app in Hi. simpl in Hi.
    rewrite <- app_assoc. rewrite take_app_le by lia.
    rewrite <- (take_drop i t) in Hacc. by apply accepted_app in Hacc as [? _].
  - pose proof (proj1 Hret eq_refl) as Hacc. rewrite <- (take_drop i l) in Hacc.
    by apply accepted_app in Hacc as [? _].
Qed.

Lemma scripted_earlier l m w i j ev :
  scripted l m -> new_events w (m w).2 !! i = Some ev -> (j <= i)%nat ->
  new_events w (m w).2 !! j = l !! j.
Proof.
  intros Hm Hi Hj.
  destruct (scripted_run l m w Hm) as (Hpre & _).
  apply prefix_lookup_lt; [|done]. apply lookup_lt_Some in Hi. lia.
Qed.

(** A run that made no call is not the run of a non-empty script. *)
Lemma scripted_calls l m w r :
  scripted l m -> l ≠ [] -> m w ≠ (r, w).
Proof.
  intros Hm Hl Hrun.
  destruct (scripted_run l m w Hm) as (_ & _ & Hall & Hraise & _).
  rewrite Hrun in Hall, Hraise. simpl in *. rewrite new_events_same in Hall, Hraise.
  destruct r as [e|[]].
  - destruct (Hraise e eq_refl) as (t & ev & Ht & _). by destruct t.
  - by rewrite <- Hall in Hl.
Qed.

(** The run of a non-empty script makes a call. *)
Lemma scripted_makes_call l m w :
  scripted l m -> l ≠ [] -> new_events w (m w).2 ≠ [].
Proof.
  intros Hm Hl Hno.
  destruct (scripted_run l m w Hm) as (_ & _ & Hall & Hraise & _).
  rewrite Hno in Hall, Hraise.
  destruct ((m w).1) as [e|[]] eqn:Hout.
  - destruct (Hraise e eq_refl) as (t & ev & Ht & _). by destruct t.
  - by rewrite <- (Hall eq_refl) in Hl.
Qed.

(** The outcome of straight-line code that ends in [raise e]: with every
    call accepted it raises [e] after the last call; otherwise it stops at
    the first call that raises, with that call's exception. *)
Lemma raises_after_run l e m w :
  raises_after l e m ->
  (accepted (env w) l ∧ m w = (inl e, after w l))
  ∨ ∃ t ev r e', l = t ++ ev :: r ∧ accepted (env w) t ∧
      fw_raises ev (run_env (env w) t) = Some e' ∧
      m w = (inl e', after w (t ++ [ev])).
Proof.
  intros Hm. rewrite (Hm w), bind_run.
  destruct (run_calls_outcome l w)
    as [[Hacc ->]|(t & ev & r & e' & -> & Hacc & Hr & ->)].
  - by left.
  - right. exists t, ev, r, e'. done.
Qed.

Lemma raises_after_call {A} ev (f : Env -> A) (v : A) (k : A -> M ()) l e :
  (∀ e', f e' = v) -> raises_after l e (k v) ->
  raises_after (ev :: l) e (call ev f ≫= k).
Proof.
  intros Hf Hk w. simpl. rewrite !bind_run. unfold call_, call.
  destruct (fw_raises ev (env w)); [done|]. rewrite Hf. apply Hk.
Qed.

Lemma raises_after_dict_getitem {A} (d : gmap string A) key a (k : A -> M ()) l e :
  d !! key = Some a -> raises_after l e (k a) ->
  raises_after l e (dict_getitem d key ≫= k).
Proof. intros Hl Hk w. rewrite bind_run. unfold dict_getitem. rewrite Hl. apply Hk. Qed.

Lemma raises_after_getitem {A} (l0 : list A) i a (k : A -> M ()) l e :
  l0 !! i = Some a -> raises_after l e (k a) ->
  raises_after l e (getitem l0 i ≫= k).
Proof. intros Hl Hk w. rewrite bind_run. unfold getitem. rewrite Hl. apply Hk. Qed.

(** A subscript out of range, after every call was made. *)
Lemma raises_after_subscript {A} (l0 : list A) i (k : A -> M ()) :
  l0 !! i = None -> raises_after [] IndexError (getitem l0 i ≫= k).
Proof. intros Hl w. rewrite !bind_run. unfold getitem. by rewrite Hl. Qed.

Lemma scripted_ret : scripted [] (mret ()).
Proof. by intros w. Qed.

Lemma scripted_last ev : scripted [ev] (call_ ev).
Proof.
  intros w. simpl. rewrite bind_run. by destruct (call_ ev w) as [[e|[]] w'].
Qed.

(** A call whose answer does not depend on the libraries' state. *)
Lemma scripted_call {A} ev (f : Env -> A) (v : A) (k : A -> M ()) l :
  (∀ e, f e = v) -> scripted l (k v) -> scripted (ev :: l) (call ev f ≫= k).
Proof.
  intros Hf Hk w. simpl. rewrite !bind_run. unfold call_, call.
  destruct (fw_raises ev (env w)); [done|]. rewrite Hf. apply Hk.
Qed.

Lemma scripted_lift {A} (r : exn + A) a (k : A -> M ()) l :
  r = inr a -> scripted l (k a) -> scripted l (lift r ≫= k).
Proof. intros -> Hk w. rewrite bind_run. apply Hk. Qed.

Lemma scripted_getitem {A} (l0 : list A) i a (k : A -> M ()) l :
  l0 !! i = Some a -> scripted l (k a) -> scripted l (getitem l0 i ≫= k).
Proof. intros Hl Hk w. rewrite bind_run. unfold getitem. rewrite Hl. apply Hk. Qed.

Lemma scripted_dict_getitem {A} (d : gmap string A) key a (k : A -> M ()) l :
  d !! key = Some a -> scripted l (k a) -> scripted l (dict_getitem d key ≫= k).
Proof. intros Hl Hk w. rewrite bind_run. unfold dict_getitem. rewrite Hl. apply Hk. Qed.

(** Calls made after a subscript, knowing what it returned. *)
Lemma emits_getitem_bind {A B} P (l0 : list A) i (k : A -> M B) :
  (∀ a, l0 !! i = Some a -> emits P (k a)) -> emits P (getitem l0 i ≫= k).
Proof.
  intros Hk w. rewrite bind_run. unfold getitem.
  destruct (l0 !! i) as [a|]; simpl; [by apply Hk|].
  exists []. by rewrite app_nil_r.
Qed.

Lemma emits_dict_getitem_bind {A B} P (d : gmap string A) key (k : A -> M B) :
  (∀ a, d !! key = Some a -> emits P (k a)) -> emits P (dict_getitem d key ≫= k).
Proof.
  intros Hk w. rewrite bind_run. unfold dict_getitem.
  destruct (d !! key) as [a|]; simpl; [by apply Hk|].
  exists []. by rewrite app_nil_r.
Qed.

Lemma emits_ret_bind {A B} P (a : A) (k : A -> M B) :
  emits P (k a) -> emits P (mret a ≫= k).
Proof. intros Hk w. exact (Hk w). Qed.

Lemma dict_getitem_ok {A} (d : gmap string A) key a w :
  d !! key = Some a -> dict_getitem d key w = (inr a, w).
Proof. unfold dict_getitem. by intros ->. Qed.

Lemma dict_getitem_missing {A} (d : gmap string A) key w :
  d !! key = None -> dict_getitem d key w = (inl (KeyError key), w).
Proof. unfold dict_getitem. by intros ->. Qed.

End ScriptRuns.

(** A computation is taken to its script, one step at a time. *)
Ltac script_step :=
  first
    [ eapply scripted_dict_getitem; [eassumption|]
    | eapply scripted_getitem; [eassumption|]
    | eapply scripted_lift; [eassumption|]
    | eapply scripted_call; [intros ?; reflexivity|]
    | apply scripted_last
    | apply scripted_ret ].

Ltac emits_ret_step :=
  lazymatch goal with
  | |- emits _ (mret _ ≫= _) => apply emits_ret_bind
  end.

(* ------------------------------------------------------------------------- *)
(** ** Further properties: [plot_training_performance] *)

Section PlotProperties.
Context `{Framework}.
Implicit Types (w : World) (self : ImageClassifier).

(** With the four series in the history and a first epoch in each, the
    method is straight-line code. *)
Lemma plot_scripted self h cw aug acc val_acc loss val_loss a0 v0 l0 vl0 :
  history h !! "accuracy" = Some acc ->
  history h !! "val_accuracy" = Some val_acc ->
  history h !! "loss" = Some loss ->
  history h !! "val_loss" = Some val_loss ->
  acc !! 0%nat = Some a0 -> val_acc !! 0%nat = Some v0 ->
  loss !! 0%nat = Some l0 -> val_loss !! 0%nat = Some vl0 ->
  scripted (plot_calls (model_dir "graphs" (base_model_name self) cw aug)
              acc val_acc loss val_loss a0 v0 l0 vl0)
    (plot_training_performance self h cw aug).
Proof.
  intros. unfold plot_training_performance, plot_calls. rewrite graphs_dir.
  unfold_calls. repeat script_step.
Qed.

(** X4.  A history that lacks one of the keys [accuracy], [val_accuracy],
    [loss], [val_loss] makes [plot_training_performance] raise [KeyError]
    for the first key that is missing, before any library call: nothing is
    drawn and the world is as before. *)
Theorem plot_missing_key self h cw aug w i k :
  history_keys !! i = Some k ->
  history h !! k = None ->
  (∀ j k', (j < i)%nat -> history_keys !! j = Some k' -> is_Some (history h !! k')) ->
  plot_training_performance self h cw aug w = (inl (KeyError k), w).
Proof.
  intros Hk Hnone Hbefore. unfold plot_training_performance.
  destruct i as [|[|[|[|i]]]]; simpl in Hk; try discriminate; injection Hk as <-.
  - erewrite bind_raised; [done|by apply dict_getitem_missing].
  - destruct (Hbefore 0%nat "accuracy") as [? ?]; [lia|done|].
    erewrite bind_ok; [|by apply dict_getitem_ok].
    erewrite bind_raised; [done|by apply dict_getitem_missing].
  - destruct (Hbefore 0%nat "accuracy") as [? ?]; [lia|done|].
    destruct (Hbefore 1%nat "val_accuracy") as [? ?]; [lia|done|].
    do 2 (erewrite bind_ok; [|by apply dict_getitem_ok]).
    erewrite bind_raised; [done|by apply dict_getitem_missing].
  - destruct (Hbefore 0%nat "accuracy") as [? ?]; [lia|done|].
    destruct (Hbefore 1%nat "val_accuracy") as [? ?]; [lia|done|].
    destruct (Hbefore 2%nat "loss") as [? ?]; [lia|done|].
    do 3 (erewrite bind_ok; [|by apply dict_getitem_ok]).
    erewrite bind_raised; [done|by apply dict_getitem_missing].
Qed.

(** With the four series in the history and one of them empty, the method
    is the drawing calls followed by the [IndexError] of a subscript [0]. *)
Lemma plot_raises_after_curves self h cw aug acc val_acc loss val_loss :
  history h !! "accuracy" = Some acc ->
  history h !! "val_accuracy" = Some val_acc ->
  history h !! "loss" = Some loss ->
  history h !! "val_loss" = Some val_loss ->
  acc = [] ∨ val_acc = [] ∨ loss = [] ∨ val_loss = [] ->
  raises_after (plot_curve_calls acc val_acc loss val_loss) IndexError
    (plot_training_performance self h cw aug).
Proof.
  intros H1 H2 H3 H4 Hempty. unfold plot_training_performance, plot_curve_calls.
  unfold_calls.
  do 5 (eapply raises_after_dict_getitem; [eassumption|]).
  do 12 (eapply raises_after_call; [intros ?; reflexivity|]).
  destruct acc as [|a0 acc]; [by apply raises_after_subscript|].
  eapply raises_after_getitem; [reflexivity|].
  destruct val_acc as [|v0 val_acc]; [by apply raises_after_subscript|].
  eapply raises_after_getitem; [reflexivity|].
  destruct loss as [|l0 loss]; [by apply raises_after_subscript|].
  eapply raises_after_getitem; [reflexivity|].
  destruct val_loss as [|vl0 val_loss]; [by apply raises_after_subscript|].
  by destruct Hempty as [?|[?|[?|?]]].
Qed.

(** X5.  A history in which one of the four series is empty (a run of no
    epoch) makes [plot_training_performance] fail: it never returns, and no
    run creates the directory, saves the figure or shows it.  When the four
    keys are there, the calls made are a prefix of the drawing calls
    [plot_curve_calls]; when these are all accepted, the run has made
    exactly them, in order, and then raises [IndexError], at the subscript
    [0] of the annotation, after the curves were drawn; when one of them is
    refused, the run stops at the first such call with that call's
    exception. *)
Theorem plot_needs_first_epoch self h cw aug w k :
  k ∈ history_keys -> history h !! k = Some [] ->
  let r := plot_training_performance self h cw aug w in
  r.1 ≠ inr ()
  ∧ (∀ ev, ev ∈ new_events w r.2 -> writes_file ev = false ∧ ev ≠ EShow)
  ∧ (∀ acc val_acc loss val_loss,
       history h !! "accuracy" = Some acc ->
       history h !! "val_accuracy" = Some val_acc ->
       history h !! "loss" = Some loss ->
       history h !! "val_loss" = Some val_loss ->
       let curves := plot_curve_calls acc val_acc loss val_loss in
       new_events w r.2 `prefix_of` curves
       ∧ (accepted (env w) curves -> r = (inl IndexError, after w curves))
       ∧ (¬ accepted (env w) curves ->
          ∃ t ev e, r = (inl e, after w (t ++ [ev])) ∧
                    (t ++ [ev]) `prefix_of` curves ∧ accepted (env w) t ∧
                    fw_raises ev (run_env (env w) t) = Some e)).
Proof.
  intros Hk Hempty r. subst r.
  assert (Hno : ∀ acc val_acc loss val_loss (a0 v0 l0 vl0 : Q),
            history h !! "accuracy" = Some acc -> history h !! "val_accuracy" = Some val_acc ->
            history h !! "loss" = Some loss -> history h !! "val_loss" = Some val_loss ->
            acc !! 0%nat = Some a0 -> val_acc !! 0%nat = Some v0 ->
            loss !! 0%nat = Some l0 -> val_loss !! 0%nat = Some vl0 -> False).
  { intros acc val_acc loss val_loss a0 v0 l0 vl0 H1 H2 H3 H4 H5 H6 H7 H8.
    unfold history_keys in Hk. rewrite !elem_of_cons, elem_of_nil in Hk.
    destruct Hk as [->|[->|[->|[->|[]]]]]; rewrite Hempty in *;
      [injection H1 as <-|injection H2 as <-|injection H3 as <-|injection H4 as <-];
      discriminate. }
  split; [|split].
  - intros Hret.
    destruct (plot_training_performance self h cw aug w) as [r w'] eqn:Hrun.
    simpl in Hret. subst r. unfold plot_training_performance in Hrun.
    revert Hrun. unfold_calls. intros Hrun. repeat inv_step Hrun.
    eauto.
  - assert (Hem : emits (fun ev => writes_file ev = false ∧ ev ≠ EShow)
                    (plot_training_performance self h cw aug)).
    { unfold plot_training_performance. unfold_calls.
      do 5 (apply emits_dict_getitem_bind; intros ? ?).
      do 12 (apply emits_bind; [by apply emits_call|intros _]).
      do 4 (apply emits_getitem_bind; intros ? ?).
      exfalso. eauto. }
    intros ev Hev. pose proof (emits_run _ _ w Hem) as HP.
    rewrite Forall_forall in HP. by apply HP.
  - intros acc val_acc loss val_loss H1 H2 H3 H4 curves.
    assert (Hone : acc = [] ∨ val_acc = [] ∨ loss = [] ∨ val_loss = []).
    { unfold history_keys in Hk. rewrite !elem_of_cons, elem_of_nil in Hk.
      destruct Hk as [-> | [-> | [-> | [-> | []]]]]; rewrite Hempty in *.
      - injection H1 as <-. tauto.
      - injection H2 as <-. tauto.
      - injection H3 as <-. tauto.
      - injection H4 as <-. tauto. }
    pose proof (plot_raises_after_curves self h cw aug _ _ _ _ H1 H2 H3 H4 Hone) as Hm.
    destruct (raises_after_run _ _ _ w Hm)
      as [[Hacc Hrun]|(t & ev & rest & e & Hl & Hacc & Hr & Hrun)];
      subst curves; rewrite Hrun; cbn [fst snd]; rewrite new_events_after.
    + split; [done|]. split; [done|]. by intros [].
    + assert (Hpre : (t ++ [ev]) `prefix_of` plot_curve_calls acc val_acc loss val_loss).
      { exists rest. by rewrite Hl, <- app_assoc. }
      split; [done|]. split.
      * intros Hall. rewrite Hl in Hall. apply accepted_app in Hall as [_ [Hev _]].
        congruence.
      * intros _. exists t, ev, e. done.
Qed.

(** X6.  With the four series in the history and a first epoch in each,
    [plot_training_performance] makes the calls of [plot_calls], in this
    order: the four curves, each against [range(len(history["loss"]))]; the
    annotation with the values of epoch 0; [os.makedirs] of the variant's
    directory; [savefig] of [training_validation_graphs.png] inside it; and
    [show].  Whatever the outcome the calls made are a prefix of these; the
    run returns exactly when all are accepted, and has then made them all;
    when it raises, the exception is the one of the last call made. *)
Theorem plot_draws_history self h cw aug acc val_acc loss val_loss a0 v0 l0 vl0 w :
  history h !! "accuracy" = Some acc ->
  history h !! "val_accuracy" = Some val_acc ->
  history h !! "loss" = Some loss ->
  history h !! "val_loss" = Some val_loss ->
  acc !! 0%nat = Some a0 -> val_acc !! 0%nat = Some v0 ->
  loss !! 0%nat = Some l0 -> val_loss !! 0%nat = Some vl0 ->
  let script := plot_calls (model_dir "graphs" (base_model_name self) cw aug)
                  acc val_acc loss val_loss a0 v0 l0 vl0 in
  let r := plot_training_performance self h cw aug w in
  new_events w r.2 `prefix_of` script
  ∧ (r.1 = inr () <-> accepted (env w) script)
  ∧ (r.1 = inr () -> new_events w r.2 = script)
  ∧ (∀ e, r.1 = inl e ->
       ∃ t ev, new_events w r.2 = t ++ [ev] ∧ accepted (env w) t ∧
               fw_raises ev (run_env (env w) t) = Some e).
Proof.
  intros H1 H2 H3 H4 H5 H6 H7 H8 script r.
  destruct (scripted_run script (plot_training_performance self h cw aug) w)
    as (Ha & Hb & Hc & Hd & _); [by eapply plot_scripted|]. done.
Qed.

End PlotProperties.

(* ------------------------------------------------------------------------- *)
(** ** Further properties: [evaluation_metrics] *)

Section MetricsProperties.
Context `{Framework}.
Implicit Types (w : World) (self : ImageClassifier).

(** Once the predicted labels are known, the method is straight-line code. *)
Lemma evaluation_metrics_scripted self prediction tg cw aug pred :
  Np.argmax_axis1 prediction = inr pred ->
  scripted (evaluation_metrics_calls (model_dir "graphs" (base_model_name self) cw aug)
              (classes tg) pred (map fst (class_indices tg)))
    (evaluation_metrics self prediction tg cw aug).
Proof.
  intros Hp. unfold evaluation_metrics, evaluation_metrics_calls. rewrite graphs_dir.
  unfold_calls.
  destruct (fw_precision_recall_curve (classes tg) pred) as [[prec recall] th] eqn:Hc.
  eapply scripted_lift; [eassumption|].
  do 3 script_step.
  eapply scripted_call; [intros ?; exact Hc|].
  repeat script_step.
Qed.

(** Rows of one length with a column: every row has a first maximum. *)
Lemma argmax_rows_columns a (n : nat) :
  Forall (fun row => length row = S n) a -> ∃ js, Np.argmax_rows a = inr js.
Proof.
  induction 1 as [|row rest Hrow _ [js IH]]; simpl; [eauto|].
  destruct row as [|x row]; [discriminate|]. simpl. rewrite IH. eauto.
Qed.

Lemma same_length_rows row rest :
  Np.same_length (row :: rest) = true ->
  Forall (fun r => length r = length row) (row :: rest).
Proof.
  simpl. intros Hall. constructor; [done|].
  apply Forall_forall. intros r Hr. rewrite forallb_forall in Hall.
  apply Nat.eqb_eq, Hall. by apply list_elem_of_In.
Qed.

(** [np.argmax(a, axis=1)] raises in two cases only: rows of different
    lengths, and an array with rows and no column. *)
Lemma argmax_axis1_raises a e :
  Np.argmax_axis1 a = inl e <->
  (Np.same_length a = false ∧ e = ValueError (Np.inhomogeneous_shape (length a)))
  ∨ (a ≠ [] ∧ Forall (fun row => row = []) a ∧
     e = ValueError "attempt to get argmax of an empty sequence").
Proof.
  unfold Np.argmax_axis1. destruct (Np.same_length a) eqn:Hs.
  - destruct a as [|row rest]; [simpl; split; [done|intros [[? _]|[? _]]; done]|].
    apply same_length_rows in Hs. destruct row as [|x row].
    + simpl. split.
      * intros [= <-]. right. split; [done|]. split; [|done].
        eapply Forall_impl; [exact Hs|]. intros r Hr. simpl in Hr.
        by destruct r.
      * intros [[? _]|(_ & _ & ->)]; done.
    + destruct (argmax_rows_columns _ _ Hs) as [js ->]. split; [done|].
      intros [[? _]|(_ & Hall & _)]; [done|].
      apply Forall_cons in Hall as [? _]. done.
  - split.
    + intros [= <-]. by left.
    + intros [[_ ->]|(Hne & Hall & _)]; [done|]. exfalso.
      destruct a as [|row rest]; [done|]. simpl in Hs.
      apply Forall_cons in Hall as [-> Hall].
      assert (Ht : forallb (fun r : list Q => (length r =? length (@nil Q))%nat) rest = true);
        [|congruence].
      apply forallb_forall. intros r Hr. apply list_elem_of_In in Hr.
      rewrite Forall_forall in Hall. by rewrite (Hall r Hr).
Qed.

(** X7.  On a prediction with at least one row, [evaluation_metrics] ends
    without a library call in two cases only, in both with a [ValueError]
    of [np.argmax] and the world as it was: a prediction without a class
    column (every row empty) raises
    ["attempt to get argmax of an empty sequence"]; a prediction whose rows
    differ in length is refused when it is made an array.  In every other
    case the method makes a call. *)
Theorem evaluation_metrics_empty_row self prediction tg cw aug w :
  let r := evaluation_metrics self prediction tg cw aug w in
  let no_column := prediction ≠ [] ∧ Forall (fun row => row = []) prediction in
  let ragged := Np.same_length prediction = false in
  (no_column ->
   r = (inl (ValueError "attempt to get argmax of an empty sequence"), w))
  ∧ (ragged -> ∃ msg, r = (inl (ValueError msg), w))
  ∧ (prediction ≠ [] -> (new_events w r.2 = [] <-> no_column ∨ ragged)).
Proof.
  intros r no_column ragged. subst r no_column ragged.
  assert (Hraise : ∀ e, Np.argmax_axis1 prediction = inl e ->
                        evaluation_metrics self prediction tg cw aug w = (inl e, w)).
  { intros e Hp. unfold evaluation_metrics. by rewrite Hp. }
  assert (Hcol : prediction ≠ [] ∧ Forall (fun row => row = []) prediction ->
            evaluation_metrics self prediction tg cw aug w
            = (inl (ValueError "attempt to get argmax of an empty sequence"), w)).
  { intros [Hne Hall]. apply Hraise, argmax_axis1_raises. right. done. }
  assert (Hrag : Np.same_length prediction = false ->
            ∃ msg, evaluation_metrics self prediction tg cw aug w
                   = (inl (ValueError msg), w)).
  { intros Hs. eexists. apply Hraise, argmax_axis1_raises. left. done. }
  split; [done|]. split; [done|]. intros _. split.
  - intros Hno. destruct (Np.argmax_axis1 prediction) as [e|pred] eqn:Hp.
    + apply argmax_axis1_raises in Hp as [[? _]|(? & ? & _)]; tauto.
    + exfalso. revert Hno. apply scripted_makes_call with
        (l := evaluation_metrics_calls (model_dir "graphs" (base_model_name self) cw aug)
                (classes tg) pred (map fst (class_indices tg)));
        [by eapply evaluation_metrics_scripted|done].
  - intros [Hc|Hs].
    + rewrite (Hcol Hc). apply new_events_same.
    + destruct (Hrag Hs) as [msg ->]. apply new_events_same.
Qed.

(** X8.  With the predicted labels [pred] of the prediction,
    [evaluation_metrics] makes the calls of [evaluation_metrics_calls], in
    this order: what the annotation shows and what is printed for accuracy,
    F1 and ROC-AUC are the values computed, once, on the true labels and
    [pred]; the curve plotted is the one [precision_recall_curve] returned;
    the heat map shows the confusion matrix with the keys of
    [class_indices] on both axes; both figures are saved inside the
    directory created before.  Whatever the outcome the calls made are a
    prefix of these; the run returns exactly when all are accepted, and has
    then made them all; when it raises, the exception is the one of the last
    call made. *)
Theorem evaluation_metrics_reports self prediction tg cw aug pred w :
  Np.argmax_axis1 prediction = inr pred ->
  let script := evaluation_metrics_calls (model_dir "graphs" (base_model_name self) cw aug)
                  (classes tg) pred (map fst (class_indices tg)) in
  let r := evaluation_metrics self prediction tg cw aug w in
  new_events w r.2 `prefix_of` script
  ∧ (r.1 = inr () <-> accepted (env w) script)
  ∧ (r.1 = inr () -> new_events w r.2 = script)
  ∧ (∀ e, r.1 = inl e ->
       ∃ t ev, new_events w r.2 = t ++ [ev] ∧ accepted (env w) t ∧
               fw_raises ev (run_env (env w) t) = Some e).
Proof.
  intros Hp script r.
  destruct (scripted_run script (evaluation_metrics self prediction tg cw aug) w)
    as (Ha & Hb & Hc & Hd & _); [by eapply evaluation_metrics_scripted|]. done.
Qed.

(** X9.  The order of statistics and files in [evaluation_metrics],
    whatever the outcome: a directory is created or a figure saved only
    after accuracy, F1, ROC-AUC and the precision-recall curve have been
    computed without an exception; and precision and recall are computed,
    and anything printed, only after both figures have been saved and
    shown. *)
Theorem evaluation_metrics_order self prediction tg cw aug pred w :
  Np.argmax_axis1 prediction = inr pred ->
  let t := classes tg in
  let d := model_dir "graphs" (base_model_name self) cw aug in
  let r := evaluation_metrics self prediction tg cw aug w in
  (∀ ev, ev ∈ new_events w r.2 -> writes_file ev = true ->
     accepted (env w)
       [ EMetric accuracy_score t pred; EMetric (f1_score "macro") t pred;
         EMetric roc_auc_score t pred; EPrecisionRecallCurve t pred ])
  ∧ (∀ ev, ev ∈ new_events w r.2 ->
       ev = EMetric precision_score t pred ∨ ev = EMetric recall_score t pred
       ∨ (∃ label v, ev = EPrint label v) ->
       ESavefig (Py.os_path_join d "precision_recall_graph.png") ∈ new_events w r.2
       ∧ ESavefig (Py.os_path_join d "confusion_matrix.png") ∈ new_events w r.2
       ∧ EShow ∈ new_events w r.2).
Proof.
  intros Hp t d r. subst t d r.
  pose proof (evaluation_metrics_scripted self prediction tg cw aug pred Hp) as Hm.
  split.
  - intros ev Hin Hwr. apply list_elem_of_lookup in Hin as [i Hi].
    destruct (scripted_reached _ _ _ _ _ Hm Hi) as [Hl Hacc].
    unfold evaluation_metrics_calls in Hl, Hacc.
    do 28 (destruct i as [|i]; [simpl in Hl; injection Hl as <-; try discriminate Hwr;
                                simpl in Hacc |- *; tauto|]).
    discriminate Hl.
  - intros ev Hin Hev. apply list_elem_of_lookup in Hin as [i Hi].
    destruct (scripted_reached _ _ _ _ _ Hm Hi) as [Hl _].
    assert (Hi21 : (21 <= i)%nat).
    { unfold evaluation_metrics_calls in Hl.
      do 21 (destruct i as [|i];
             [simpl in Hl; injection Hl as <-;
              destruct Hev as [?|[?|(? & ? & ?)]]; discriminate|]).
      lia. }
    split; [|split].
    + apply (list_elem_of_lookup_2 _ 12%nat).
      by rewrite (scripted_earlier _ _ _ i 12 ev Hm Hi) by lia.
    + apply (list_elem_of_lookup_2 _ 19%nat).
      by rewrite (scripted_earlier _ _ _ i 19 ev Hm Hi) by lia.
    + apply (list_elem_of_lookup_2 _ 20%nat).
      by rewrite (scripted_earlier _ _ _ i 20 ev Hm Hi) by lia.
Qed.

End MetricsProperties.

(* ------------------------------------------------------------------------- *)
(** ** Further properties: the files of a model variant *)

Section Artifacts.
Context `{Framework}.
Implicit Types (w : World) (self : ImageClassifier).

Lemma written_files_forall (files : list string) t :
  Forall (fun ev => ∀ f, written_file ev = Some f -> f ∈ files) t ->
  ∀ f, f ∈ written_files t -> f ∈ files.
Proof.
  intros Ht f Hf. apply list_elem_of_omap in Hf as (ev & Hev & Hf).
  rewrite Forall_forall in Ht. by apply (Ht ev).
Qed.

(** Whatever the three methods write is one of the four files of the
    variant. *)
Lemma writes_artifact self cw aug f :
  writes self cw aug f -> f ∈ artifact_files (base_model_name self) cw aug.
Proof.
  intros [(td & vd & ep & s1 & s2 & w & Hf)|[(h & w & Hf)|(p & tg & w & Hf)]];
    revert f Hf; apply written_files_forall.
  - pose proof (train_events self td vd ep s1 s2 cw aug w) as Hev. cbv zeta in Hev.
    destruct Hev as [(-> & _)|(m & cwt & n & _ & _ & _ & -> & _)]; [done|].
    apply Forall_take. unfold train_calls.
    repeat apply Forall_cons_2; try apply Forall_nil_2; simpl; intros f Hf;
      try discriminate.
    injection Hf as <-. unfold artifact_files. rewrite !elem_of_cons. tauto.
  - apply emits_run. unfold plot_training_performance. rewrite graphs_dir.
    unfold_calls. repeat emits_step.
    intros f [= <-]. unfold artifact_files. rewrite !elem_of_cons. tauto.
  - apply emits_run. unfold evaluation_metrics. rewrite graphs_dir.
    unfold_calls. repeat (emits_step || split_match).
    all: intros f [= <-]; unfold artifact_files; rewrite !elem_of_cons; tauto.
Qed.

(** For the three supported names, the files of two variants are apart
    unless the name and the suffix of the flags are the same. *)
Lemma artifact_files_disjoint n1 cw1 aug1 n2 cw2 aug2 f :
  n1 ∈ supported_names -> n2 ∈ supported_names ->
  f ∈ artifact_files n1 cw1 aug1 -> f ∈ artifact_files n2 cw2 aug2 ->
  n1 = n2 ∧ cw1 = cw2 ∧ (cw1 = true ∨ aug1 = aug2).
Proof.
  unfold supported_names, artifact_files. rewrite !elem_of_cons, !elem_of_nil.
  intros [->|[->|[->|[]]]] [->|[->|[->|[]]]];
    destruct cw1, aug1, cw2, aug2;
    intros [->|[->|[->|[->|[]]]]] [Heq|[Heq|[Heq|[Heq|[]]]]];
    first [ by vm_compute in Heq | by auto ].
Qed.

(** With class weights, [augment] is not looked at. *)
Lemma writes_with_weights self aug aug' f :
  writes self true aug f -> writes self true aug' f.
Proof.
  intros [(td & vd & ep & s1 & s2 & w & Hf)|[(h & w & Hf)|(p & tg & w & Hf)]].
  - left. exists td, vd, ep, s1, s2, w. rewrite train_run in *. exact Hf.
  - right. left. by exists h, w.
  - right. right. by exists p, tg, w.
Qed.

(** X10.  The checkpoint of [train] and the figures of
    [plot_training_performance] and [evaluation_metrics] of two instances
    with supported names never share a file, unless the two have the same
    name and the same variant: the same [class_weights] and, without class
    weights, the same [augment].  With [class_weights=True] the value of
    [augment] makes no difference: every file written with one value is
    the file written with the other. *)
Theorem artifacts_do_not_collide self1 cw1 aug1 self2 cw2 aug2 f :
  base_model_name self1 ∈ supported_names ->
  base_model_name self2 ∈ supported_names ->
  writes self1 cw1 aug1 f -> writes self2 cw2 aug2 f ->
  (base_model_name self1 = base_model_name self2
   ∧ cw1 = cw2 ∧ (cw1 = true ∨ aug1 = aug2))
  ∧ (cw1 = true -> ∀ aug, writes self1 true aug f).
Proof.
  intros Hn1 Hn2 Hw1 Hw2. split.
  - apply writes_artifact in Hw1, Hw2.
    by eapply artifact_files_disjoint.
  - intros ->. intros aug. exact (writes_with_weights self1 aug1 aug f Hw1).
Qed.

End Artifacts.

(* ------------------------------------------------------------------------- *)
(** ** Further properties: which method calls what *)

Section Methods.
Context `{Framework}.
Implicit Types (w : World) (self : ImageClassifier).

(** X11.  Each method keeps to its own calls, in every world and whatever
    its outcome: [evaluate] only calls [model.evaluate] on the data and steps
    it was given, and [test] only [model.predict], with [verbose=1];
    [plot_training_performance] and [evaluation_metrics] never build, compile,
    fit or save a model; [train] only fits and writes; and the constructor
    neither fits nor writes a file. *)
Theorem methods_keep_to_their_calls self :
  (∀ vd s, emits (fun ev => ∃ m, ev = EEvaluate m vd s) (evaluate self vd s))
  ∧ (∀ tg s, emits (fun ev => ∃ m, ev = EPredict m tg s 1) (test self tg s))
  ∧ (∀ h cw aug, emits (fun ev => touches_model ev = false)
                   (plot_training_performance self h cw aug))
  ∧ (∀ p tg cw aug, emits (fun ev => touches_model ev = false)
                      (evaluation_metrics self p tg cw aug))
  ∧ (∀ td vd ep s1 s2 cw aug,
       emits (fun ev => is_fit ev = true ∨ writes_file ev = true)
         (train self td vd ep s1 s2 cw aug))
  ∧ (∀ shape nc act name,
       emits (fun ev => writes_file ev = false ∧ is_fit ev = false)
         (__init__ shape nc act name)).
Proof.
  split; [|split; [|split; [|split; [|split]]]].
  - intros vd s. unfold evaluate. unfold_calls. repeat emits_step. eauto.
  - intros tg s. unfold test. unfold_calls. repeat emits_step. eauto.
  - intros h cw aug. unfold plot_training_performance. unfold_calls. repeat emits_step.
  - intros p tg cw aug. unfold evaluation_metrics. unfold_calls.
    repeat (emits_step || split_match).
  - intros td vd ep s1 s2 cw aug. unfold train. unfold_calls.
    repeat (emits_step || split_match); auto.
  - intros shape nc act name. apply init_emits; done.
Qed.

(** X12.  On an instance that the constructor returned, every [fit],
    [save], [evaluate] and [predict] call of [train], [evaluate] and [test]
    is made on the model the constructor built, which is compiled with
    adam, binary_crossentropy and accuracy. *)
Theorem methods_use_the_built_model shape nc act name w0 self w1 :
  __init__ shape nc act name w0 = (inr self, w1) ->
  ∃ m, model self = Some m ∧ m_compiled m = Some head_compile ∧
    (∀ td vd ep s1 s2 cw aug,
       emits (fun ev => ∀ m', model_of ev = Some m' -> m' = m)
         (train self td vd ep s1 s2 cw aug))
    ∧ (∀ vd s, emits (fun ev => ∀ m', model_of ev = Some m' -> m' = m)
                 (evaluate self vd s))
    ∧ (∀ tg s, emits (fun ev => ∀ m', model_of ev = Some m' -> m' = m)
                 (test self tg s)).
Proof.
  intros Hinit. apply init_returns in Hinit as (b & _ & -> & _).
  eexists. split; [reflexivity|]. split; [reflexivity|].
  split; [|split].
  - intros td vd ep s1 s2 cw aug. unfold train, self_model. simpl. unfold_calls.
    repeat first [ emits_ret_step | emits_step | split_match ].
    all: by intros ? [= <-].
  - intros vd s. unfold evaluate, self_model. simpl. unfold_calls.
    repeat first [ emits_ret_step | emits_step ].
    by intros ? [= <-].
  - intros tg s. unfold test, self_model. simpl. unfold_calls.
    repeat first [ emits_ret_step | emits_step ].
    by intros ? [= <-].
Qed.

End Methods.

(* ------------------------------------------------------------------------- *)
(** ** Further properties: the constructor *)

Section Constructor.
Context `{Framework}.
Implicit Types (w : World) (self : ImageClassifier).

Lemma extends_ret {A} (a : A) : extends_store (mret a).
Proof. by intros w. Qed.

Lemma extends_call {A} ev (f : Env -> A) : extends_store (call ev f).
Proof. intros w. unfold call. by destruct (fw_raises ev (env w)). Qed.

Lemma extends_new_layer l : extends_store (new_layer l).
Proof. intros w. simpl. by apply prefix_app_r. Qed.

Lemma extends_bind {A B} (m : M A) (k : A -> M B) :
  extends_store m -> (∀ a, extends_store (k a)) -> extends_store (m ≫= k).
Proof.
  intros Hm Hk w. rewrite bind_run. specialize (Hm w).
  destruct (m w) as [[e|a] w1]; simpl in *; [done|].
  by etrans; [|apply Hk].
Qed.

(** X13.  When the backbone constructor raises, [__init__] raises the same
    exception after that one call: no instance is returned, no layer object
    has been made and no other call follows. *)
Theorem init_backbone_rejected shape nc act name w b e :
  backbone_of (Py.lower name) = Some b ->
  fw_raises (EApplication b (backbone_args shape)) (env w) = Some e ->
  __init__ shape nc act name w = (inl e, after w [EApplication b (backbone_args shape)]).
Proof.
  intros Hb Hr. rewrite init_run. unfold _build_model.
  erewrite bind_raised; [reflexivity|].
  apply select_backbone. simpl. rewrite Hb. by apply application_raised.
Qed.

(** Whatever its outcome, [_build_model] leaves the layer objects that
    exist as they are: the loop over [base_model.layers] only visits the
    layers the backbone constructor has just made. *)
Lemma build_model_extends self : extends_store (_build_model self).
Proof.
  intros w. unfold _build_model.
  destruct (backbone_of (base_model_name self)) as [b|] eqn:Hb.
  2:{ erewrite bind_raised; [|apply select_backbone; by rewrite Hb]. done. }
  destruct (fw_raises (EApplication b (backbone_args (input_shape self))) (env w))
    as [e|] eqn:Hr.
  { erewrite bind_raised; [|apply select_backbone; rewrite Hb; by apply application_raised].
    done. }
  erewrite bind_ok; [|apply select_backbone; rewrite Hb; by apply application_ok].
  erewrite bind_ok; [|simpl; apply for_each_freeze; by rewrite ?length_map].
  match goal with
  | |- _ `prefix_of` store (?m ?w2).2 =>
      assert (Hext : extends_store m); [|etrans; [|apply (Hext w2)]]
  end.
  - unfold_calls.
    repeat first [ apply extends_bind; [|intros ?] | apply extends_call
                 | apply extends_new_layer | apply extends_ret ].
  - simpl. by apply prefix_app_r.
Qed.

Lemma init_extends shape nc act name : extends_store (__init__ shape nc act name).
Proof.
  intros w. rewrite init_run. pose proof (build_model_extends
    {| input_shape := shape; num_classes := nc; activation := act;
       base_model_name := Py.lower name; model := None |} w) as Hb.
  by destruct (_build_model _ w) as [[e|m] w1].
Qed.

(** The layers of a model that [__init__] returned are new objects. *)
Lemma init_layers_new shape nc act name w self w' m a :
  __init__ shape nc act name w = (inr self, w') ->
  model self = Some m -> a ∈ m_layers m ->
  (length (store w) <= a < length (store w'))%nat.
Proof.
  intros Hinit Hm Ha. apply init_returns in Hinit as (b & _ & -> & Hs & _ & _).
  injection Hm as <-. rewrite Hs, length_app, length_built_layers.
  simpl in Ha. rewrite !elem_of_app, !list_elem_of_singleton, elem_of_seq in Ha. lia.
Qed.

(** X14.  Two instances share no layer object.  After an instance has been
    constructed, another constructor call, whatever its arguments and its
    outcome, leaves every layer object of the first model as it is, so the
    backbone of the first stays frozen; and if it returns an instance, no
    layer of its model is a layer of the first. *)
Theorem instances_share_no_layer shape1 nc1 act1 name1 w self1 w1
    shape2 nc2 act2 name2 w2 m1 :
  __init__ shape1 nc1 act1 name1 w = (inr self1, w1) ->
  model self1 = Some m1 ->
  store w2 = store w1 ->
  let r := __init__ shape2 nc2 act2 name2 w2 in
  (∀ a, a ∈ m_layers m1 ->
        is_Some (store w1 !! a) ∧ store r.2 !! a = store w1 !! a)
  ∧ (∀ self2 m2, r.1 = inr self2 -> model self2 = Some m2 ->
       ∀ a, a ∈ m_layers m1 -> a ∉ m_layers m2).
Proof.
  intros Hinit Hm1 Hst r. subst r.
  pose proof (init_extends shape2 nc2 act2 name2 w2) as Hext.
  split.
  - intros a Ha. pose proof (init_layers_new _ _ _ _ _ _ _ _ _ Hinit Hm1 Ha) as Hlt.
    split; [apply lookup_lt_is_Some; lia|].
    rewrite <- Hst. symmetry. apply prefix_lookup_lt; [rewrite Hst; lia|done].
  - intros self2 m2 Hr Hm2 a Ha Ha2.
    destruct (__init__ shape2 nc2 act2 name2 w2) as [r w3] eqn:Hrun. simpl in Hr. subst r.
    pose proof (init_layers_new _ _ _ _ _ _ _ _ _ Hinit Hm1 Ha).
    pose proof (init_layers_new _ _ _ _ _ _ _ _ _ Hrun Hm2 Ha2).
    rewrite Hst in *. lia.
Qed.

Lemma lower_char_idemp c : Py.lower_char (Py.lower_char c) = Py.lower_char c.
Proof. destruct c as [[] [] [] [] [] [] [] []]; reflexivity. Qed.

Lemma lower_idemp s : Py.lower (Py.lower s) = Py.lower s.
Proof. induction s as [|c s IH]; simpl; [done|]. by rewrite lower_char_idemp, IH. Qed.

(** X15.  An instance stores the arguments of its constructor, the name
    lowercased, and lowercasing it again changes nothing: the constructor
    is the same computation on a name and on its lowercased form, and
    called on the attributes of an instance it returned, in the same world,
    it returns that instance again. *)
Theorem init_stores_its_arguments shape nc act name :
  (∀ w, __init__ shape nc act (Py.lower name) w = __init__ shape nc act name w)
  ∧ (∀ w self w', __init__ shape nc act name w = (inr self, w') ->
       input_shape self = shape ∧ num_classes self = nc ∧ activation self = act ∧
       base_model_name self = Py.lower name ∧
       __init__ (input_shape self) (num_classes self) (activation self)
         (base_model_name self) w = (inr self, w')).
Proof.
  assert (Hsame : ∀ w, __init__ shape nc act (Py.lower name) w = __init__ shape nc act name w).
  { intros w. by rewrite !init_run, lower_idemp. }
  split; [done|]. intros w self w' Hinit.
  pose proof Hinit as Hret.
  apply init_returns in Hret as (b & _ & -> & _). simpl.
  by rewrite Hsame.
Qed.

End Constructor.

(* ------------------------------------------------------------------------- *)
(** ** The properties at work on the small framework *)

#[local] Existing Instance demo.

Example demo_train :
  let r := train demo_self demo_train_data demo_val_data 10 5 2 true true demo_built in
  r.1 = inr demo_history ∧
  new_events demo_built r.2 =
    [ EFit demo_model
        (fit_args demo_train_data demo_val_data 10 5 2
           (Some {[ 0 := (4 # 6)%Q; 1 := (4 # 2)%Q ]}));
      EMakedirs "models/vgg16_with_weights" true;
      ESave demo_model "models/vgg16_with_weights/vgg16_with_weights.h5" ].
Proof. vm_compute. split; reflexivity. Qed.

(** With one class only, [class_weight[1]] raises before any library call. *)
Example demo_train_one_class :
  train demo_self
    {| gen_directory := "data/one"; classes := [0; 0]; class_indices := [("cat", 0)] |}
    demo_val_data 10 5 2 true true demo_built
  = (inl IndexError, demo_built).
Proof. vm_compute. reflexivity. Qed.

Example demo_plot :
  let r := plot_training_performance demo_self demo_history false true demo_built in
  r.1 = inr () ∧
  makedirs_paths (new_events demo_built r.2) = ["graphs/vgg16_data_augmentation"].
Proof. vm_compute. split; reflexivity. Qed.

Example demo_evaluation_metrics :
  let r := evaluation_metrics demo_self demo_prediction demo_val_data false false demo_built in
  r.1 = inr () ∧
  makedirs_paths (new_events demo_built r.2) = ["graphs/vgg16"] ∧
  filter (fun ev => is_statistic ev) (new_events demo_built r.2)
    = [ EMetric accuracy_score [0; 1] [0; 1];
        EMetric (f1_score "macro") [0; 1] [0; 1];
        EMetric roc_auc_score [0; 1] [0; 1];
        EPrecisionRecallCurve [0; 1] [0; 1];
        EConfusionMatrix [0; 1] [0; 1];
        EMetric precision_score [0; 1] [0; 1];
        EMetric recall_score [0; 1] [0; 1] ].
Proof. vm_compute. repeat split; reflexivity. Qed.

Example argmax_first_of_ties :
  Np.argmax_axis1 [[1 # 2; 1 # 2; 0]; [0; 1; 1]]%Q = inr [0; 1].
Proof. reflexivity. Qed.

(** Rows of different lengths are no array. *)
Example argmax_ragged :
  Np.argmax_axis1 [[9 # 10; 1 # 10]; []]%Q
  = inl (ValueError
           ("setting an array element with a sequence. The requested array has an "
            +:+ "inhomogeneous shape after 1 dimensions. The detected shape was "
            +:+ "(2,) + inhomogeneous part.")).
Proof. reflexivity. Qed.



(** C2 as stated fails: with three classes present, the third has no weight
    in the dict given to [fit]. *)
Lemma class_weights_miss_third_class :
  ¬ (∀ m a,
       EFit m a ∈ new_events demo_built
                    (train demo_self demo_three_classes demo_val_data
                       10 5 2 true true demo_built).2 ->
       weights_cover_classes demo_three_classes a).
Proof.
  intros Hclaim.
  destruct (Hclaim demo_model
              (fit_args demo_three_classes demo_val_data 10 5 2
                 (Some {[ 0 := (4 # 3)%Q; 1 := (4 # 3)%Q ]})))
    as (d & Hd & Hall).
  { vm_compute. left. }
  injection Hd as <-.
  assert (Hin : 2 ∈ classes demo_three_classes).
  { simpl. rewrite !elem_of_cons. tauto. }
  specialize (Hall 2 Hin). vm_compute in Hall. discriminate Hall.
Qed.

(** C2, as amended, at labels that are exactly 0 and 1. *)
Lemma train_class_weights_witness :
  Np.unique (classes demo_train_data) = [0; 1] ∧
  ∀ m a,
    EFit m a ∈ new_events demo_built
                 (train demo_self demo_train_data demo_val_data 10 5 2 true true
                    demo_built).2 ->
    weights_cover_classes demo_train_data a ∧
    ∀ d c, class_weight a = Some d ->
           (is_Some (d !! c) <-> c ∈ classes demo_train_data).
Proof.
  split; [reflexivity|].
  exact (proj2 (proj2 (proj2
           (train_class_weights demo_self demo_train_data demo_val_data 10 5 2 true
              demo_built))) eq_refl).
Defined.

(** C3 at the instance built on the small framework. *)
Lemma backbone_frozen_witness :
  __init__ [120; 120] 2 "sigmoid" "VGG16" demo_world = (inr demo_self, demo_built) ∧
  ((∃ m, model demo_self = Some m ∧
      ∀ a, a ∈ m_layers m ->
        ∃ l, store demo_built !! a = Some l ∧
             match l_kind l with
             | Pretrained _ _ => trainable l = false
             | GlobalAveragePooling2D | Dense _ _ => trainable l = true
             end)
   ∧ (∀ td vd ep s1 s2 cw aug, keeps_store (train demo_self td vd ep s1 s2 cw aug))
   ∧ (∀ vd s, keeps_store (evaluate demo_self vd s))
   ∧ (∀ tg s, keeps_store (test demo_self tg s))
   ∧ (∀ h cw aug, keeps_store (plot_training_performance demo_self h cw aug))
   ∧ (∀ p tg cw aug, keeps_store (evaluation_metrics demo_self p tg cw aug))).
Proof.
  assert (Hinit : __init__ [120; 120] 2 "sigmoid" "VGG16" demo_world
                  = (inr demo_self, demo_built)) by (vm_compute; reflexivity).
  split; [exact Hinit|].
  destruct (backbone_frozen [120; 120] 2 "sigmoid" "VGG16" demo_world demo_self demo_built)
    as [Hflags Hkeeps].
  split; [exact (Hflags Hinit)|exact Hkeeps].
Defined.

(** C4 at the instance built on the small framework. *)
Lemma init_model_structure_witness :
  __init__ [120; 120] 2 "sigmoid" "VGG16" demo_world = (inr demo_self, demo_built) ∧
  ∃ b m, backbone_of (Py.lower "VGG16") = Some b ∧ model demo_self = Some m ∧
    let specs := fw_layers b (backbone_args [120; 120]) (env demo_world) in
    let base := seq (length (store demo_world)) (length specs) in
    let gap := (length (store demo_world) + length specs)%nat in
    new_events demo_world demo_built =
      [ EApplication b {| weights := "imagenet"; include_top := false;
                          app_input_shape := [120; 120] ++ [3] |};
        EGlobalAveragePooling2D base;
        EDense 2 "sigmoid" (base ++ [gap]);
        EModel (take 1 base) (m_layers m);
        ECompile {| optimizer := "adam"; loss := "binary_crossentropy";
                    metrics := ["accuracy"] |} ] ∧
    m_layers m = base ++ [gap; S gap] ∧
    Forall2 (fun a l => store demo_built !! a = Some l) (m_layers m)
      (map (fun s => {| l_kind := Pretrained b s.1; trainable := false |}) specs
       ++ [ {| l_kind := GlobalAveragePooling2D; trainable := true |};
            {| l_kind := Dense 2 "sigmoid"; trainable := true |} ]) ∧
    m_compiled m = Some {| optimizer := "adam"; loss := "binary_crossentropy";
                           metrics := ["accuracy"] |}.
Proof.
  assert (Hinit : __init__ [120; 120] 2 "sigmoid" "VGG16" demo_world
                  = (inr demo_self, demo_built)) by (vm_compute; reflexivity).
  split; [exact Hinit|].
  exact (init_model_structure [120; 120] 2 "sigmoid" "VGG16" demo_world demo_self
           demo_built Hinit).
Defined.

(** C5 at a run of [train] with class weights on the small framework. *)
Lemma train_saves_model_witness :
  let run := train demo_self demo_train_data demo_val_data 10 5 2 true true demo_built in
  __init__ [120; 120] 2 "sigmoid" "VGG16" demo_world = (inr demo_self, demo_built) ∧
  run = (inr demo_history, run.2) ∧
  ∃ m cwt, model demo_self = Some m ∧
    let a := fit_args demo_train_data demo_val_data 10 5 2 cwt in
    let d := base_model_name demo_self +:+ variant_suffix true true in
    new_events demo_built run.2 =
      [ EFit m a;
        EMakedirs ("models/" +:+ d) true;
        ESave m ("models/" +:+ d +:+ "/" +:+ d +:+ ".h5") ] ∧
    length (filter (fun ev => is_save ev) (new_events demo_built run.2)) = 1%nat ∧
    fw_raises (EFit m a) (env demo_built) = None ∧
    demo_history = fw_history m a (env demo_built).
Proof.
  intros run.
  assert (Hinit : __init__ [120; 120] 2 "sigmoid" "VGG16" demo_world
                  = (inr demo_self, demo_built)) by (vm_compute; reflexivity).
  assert (Htrain : run = (inr demo_history, run.2)) by (vm_compute; reflexivity).
  split; [exact Hinit|]. split; [exact Htrain|].
  exact (train_saves_model [120; 120] 2 "sigmoid" "VGG16" demo_world demo_self demo_built
           demo_train_data demo_val_data 10 5 2 true true demo_built demo_history run.2
           Hinit Htrain).
Defined.

(** C6 at a run of [evaluation_metrics] that returns. *)
Lemma metrics_use_argmax_labels_witness :
  (evaluation_metrics demo_self demo_prediction demo_val_data false false demo_built).1
    = inr () ∧
  ∃ pred, Np.argmax_axis1 demo_prediction = inr pred ∧
    Forall2 first_max demo_prediction pred ∧
    filter (fun ev => is_statistic ev)
      (new_events demo_built
         (evaluation_metrics demo_self demo_prediction demo_val_data false false
            demo_built).2)
      = [ EMetric accuracy_score (classes demo_val_data) pred;
          EMetric (f1_score "macro") (classes demo_val_data) pred;
          EMetric roc_auc_score (classes demo_val_data) pred;
          EPrecisionRecallCurve (classes demo_val_data) pred;
          EConfusionMatrix (classes demo_val_data) pred;
          EMetric precision_score (classes demo_val_data) pred;
          EMetric recall_score (classes demo_val_data) pred ].
Proof.
  assert (Hok : (evaluation_metrics demo_self demo_prediction demo_val_data false false
                   demo_built).1 = inr ()) by (vm_compute; reflexivity).
  split; [exact Hok|].
  exact (proj2 (metrics_use_argmax_labels demo_self demo_prediction demo_val_data
                  false false demo_built) Hok).
Defined.

(** C7 at runs of the three methods that return, with the same flags. *)
Lemma artifact_subdir_agrees_witness :
  ((train demo_self demo_train_data demo_val_data 10 5 2 false true demo_built).1
     = inr demo_history ∧
   (plot_training_performance demo_self demo_history false true demo_built).1 = inr () ∧
   (evaluation_metrics demo_self demo_prediction demo_val_data false true demo_built).1
     = inr ()) ∧
  makedirs_paths
    (new_events demo_built
       (train demo_self demo_train_data demo_val_data 10 5 2 false true demo_built).2)
    = [Py.os_path_join "models" (base_model_name demo_self +:+ variant_suffix false true)] ∧
  makedirs_paths
    (new_events demo_built
       (plot_training_performance demo_self demo_history false true demo_built).2)
    = [Py.os_path_join "graphs" (base_model_name demo_self +:+ variant_suffix false true)] ∧
  makedirs_paths
    (new_events demo_built
       (evaluation_metrics demo_self demo_prediction demo_val_data false true
          demo_built).2)
    = [Py.os_path_join "graphs" (base_model_name demo_self +:+ variant_suffix false true)].
Proof.
  assert (H1 : (train demo_self demo_train_data demo_val_data 10 5 2 false true
                  demo_built).1 = inr demo_history) by (vm_compute; reflexivity).
  assert (H2 : (plot_training_performance demo_self demo_history false true
                  demo_built).1 = inr ()) by (vm_compute; reflexivity).
  assert (H3 : (evaluation_metrics demo_self demo_prediction demo_val_data false true
                  demo_built).1 = inr ()) by (vm_compute; reflexivity).
  destruct (artifact_subdir_agrees demo_self false true) as (Ht & Hp & He).
  split; [exact (conj H1 (conj H2 H3))|]. split; [|split].
  - exact (proj2 (Ht demo_train_data demo_val_data 10 5 2 demo_built) demo_history H1).
  - exact (proj2 (Hp demo_history demo_built) H2).
  - exact (proj2 (He demo_prediction demo_val_data demo_built) H3).
Defined.

(** C8 at a run of [train] with class weights: the [fit] call is made. *)
Lemma fit_gets_early_stopping_witness :
  (model demo_self = Some demo_model ∧
   train_weights true (classes demo_train_data)
     = inr (Some {[ 0 := (4 # 6)%Q; 1 := (4 # 2)%Q ]})) ∧
  ∃ t, new_events demo_built
         (train demo_self demo_train_data demo_val_data 10 5 2 true true demo_built).2
       = EFit demo_model
           (fit_args demo_train_data demo_val_data 10 5 2
              (Some {[ 0 := (4 # 6)%Q; 1 := (4 # 2)%Q ]})) :: t.
Proof.
  assert (Hm : model demo_self = Some demo_model) by reflexivity.
  assert (Hw : train_weights true (classes demo_train_data)
               = inr (Some {[ 0 := (4 # 6)%Q; 1 := (4 # 2)%Q ]}))
    by (vm_compute; reflexivity).
  split; [exact (conj Hm Hw)|].
  exact (proj2 (proj2 (proj2
           (fit_gets_early_stopping demo_self demo_train_data demo_val_data 10 5 2
              true true demo_built))) demo_model _ Hm Hw).
Defined.

(** C9 at the docstring's input shape [(120, 120, 3)]. *)
Lemma build_model_input_shape_witness :
  backbone_of (Py.lower "VGG16") = Some VGG16 ∧
  ∃ t, new_events demo_world (__init__ [120; 120; 3] 2 "sigmoid" "VGG16" demo_world).2
       = EApplication VGG16 (backbone_args [120; 120; 3]) :: t.
Proof.
  assert (Hb : backbone_of (Py.lower "VGG16") = Some VGG16) by reflexivity.
  split; [exact Hb|].
  exact (proj1 (proj2
           (build_model_input_shape [120; 120; 3] 2 "sigmoid" "VGG16" demo_world))
           VGG16 Hb).
Defined.

(** C10 at the two spellings ["VGG16"] and ["vgg16"]. *)
Lemma backbone_selection_ignores_case_witness :
  eq_up_to_case "VGG16" "vgg16" ∧
  (Py.lower "VGG16" = Py.lower "vgg16"
   ∧ backbone_of (Py.lower "VGG16") = backbone_of (Py.lower "vgg16")
   ∧ (∀ w, __init__ [120; 120] 2 "sigmoid" "VGG16" w
           = __init__ [120; 120] 2 "sigmoid" "vgg16" w)
   ∧ (∀ w self1 w1 self2 w2,
        __init__ [120; 120] 2 "sigmoid" "VGG16" w = (inr self1, w1) ->
        __init__ [120; 120] 2 "sigmoid" "vgg16" w = (inr self2, w2) ->
        base_model_name self1 = Py.lower "VGG16" ∧ self1 = self2 ∧ w1 = w2 ∧
        ∀ cw aug,
          (∀ td vd ep s1 s2, train self1 td vd ep s1 s2 cw aug
                             = train self2 td vd ep s1 s2 cw aug) ∧
          (∀ h, plot_training_performance self1 h cw aug
                = plot_training_performance self2 h cw aug) ∧
          (∀ p tg, evaluation_metrics self1 p tg cw aug
                   = evaluation_metrics self2 p tg cw aug))).
Proof.
  assert (Hcase : eq_up_to_case "VGG16" "vgg16").
  { repeat (apply euc_cons;
              [first [left; reflexivity | right; left; unfold case_pair; vm_compute; lia]|]).
    apply euc_nil. }
  split; [exact Hcase|].
  exact (backbone_selection_ignores_case [120; 120] 2 "sigmoid" "VGG16" "vgg16" Hcase).
Defined.

(** X1 at a generator whose samples are all of one class, and at one
    without samples. *)
Lemma train_needs_two_classes_witness :
  (classes demo_one_class ≠ [] ∧
   (∀ a b, a ∈ classes demo_one_class -> b ∈ classes demo_one_class -> a = b) ∧
   train demo_self demo_one_class demo_val_data 10 5 2 true true demo_built
   = (inl IndexError, demo_built))
  ∧ (classes demo_no_sample = [] ∧
     train demo_self demo_no_sample demo_val_data 10 5 2 true true demo_built
     = (inl fw_no_label, demo_built)).
Proof.
  assert (Hsome : classes demo_one_class ≠ []) by discriminate.
  assert (Hone : ∀ a b, a ∈ classes demo_one_class -> b ∈ classes demo_one_class -> a = b).
  { intros a b. simpl. rewrite !elem_of_cons, !elem_of_nil. intros ? ?. lia. }
  split; [split; [exact Hsome|split; [exact Hone|]]|split; [reflexivity|]].
  - exact (proj1 (proj2 (train_needs_two_classes demo_self demo_one_class demo_val_data
                           10 5 2 true demo_built) Hsome) Hone).
  - exact (proj1 (train_needs_two_classes demo_self demo_no_sample demo_val_data
                    10 5 2 true demo_built) eq_refl).
Defined.

(** X2 at the labels 1 and 2: key 0 holds the weight of class 1. *)
Lemma train_weights_smallest_labels_witness :
  EFit demo_model
    (fit_args demo_labels_from_one demo_val_data 10 5 2
       (Some {[ 0 := (3 # 2)%Q; 1 := (3 # 4)%Q ]}))
    ∈ new_events demo_built
        (train demo_self demo_labels_from_one demo_val_data 10 5 2 true true demo_built).2 ∧
  ∃ c0 c1,
    c0 ∈ classes demo_labels_from_one ∧ c1 ∈ classes demo_labels_from_one ∧ c0 < c1 ∧
    (∀ c, c ∈ classes demo_labels_from_one -> c = c0 ∨ c = c1 ∨ c1 < c) ∧
    class_weight
      (fit_args demo_labels_from_one demo_val_data 10 5 2
         (Some {[ 0 := (3 # 2)%Q; 1 := (3 # 4)%Q ]}))
    = Some {[ 0 := Sklearn.balanced_weight (classes demo_labels_from_one) c0;
              1 := Sklearn.balanced_weight (classes demo_labels_from_one) c1 ]}.
Proof.
  assert (Hin : EFit demo_model
                  (fit_args demo_labels_from_one demo_val_data 10 5 2
                     (Some {[ 0 := (3 # 2)%Q; 1 := (3 # 4)%Q ]}))
                  ∈ new_events demo_built
                      (train demo_self demo_labels_from_one demo_val_data 10 5 2 true true
                         demo_built).2).
  { vm_compute. left. }
  split; [exact Hin|].
  exact (train_weights_smallest_labels demo_self demo_labels_from_one demo_val_data 10 5 2
           true demo_built demo_model _ Hin).
Defined.

(** X3 at a run of [train] that saves its checkpoint. *)
Lemma train_saves_only_after_fit_witness :
  ESave demo_model (checkpoint "vgg16" false true)
    ∈ new_events demo_built
        (train demo_self demo_train_data demo_val_data 10 5 2 false true demo_built).2 ∧
  ∃ a d,
    new_events demo_built
      (train demo_self demo_train_data demo_val_data 10 5 2 false true demo_built).2
    = [EFit demo_model a; EMakedirs d true; ESave demo_model (checkpoint "vgg16" false true)] ∧
    fw_raises (EFit demo_model a) (env demo_built) = None ∧
    fw_raises (EMakedirs d true) (env (after demo_built [EFit demo_model a])) = None ∧
    (∀ e, (train demo_self demo_train_data demo_val_data 10 5 2 false true demo_built).1
          = inl e ->
          fw_raises (ESave demo_model (checkpoint "vgg16" false true))
            (env (after demo_built [EFit demo_model a; EMakedirs d true])) = Some e).
Proof.
  assert (Hin : ESave demo_model (checkpoint "vgg16" false true)
                  ∈ new_events demo_built
                      (train demo_self demo_train_data demo_val_data 10 5 2 false true
                         demo_built).2).
  { vm_compute. do 2 right. left. }
  split; [exact Hin|].
  exact (train_saves_only_after_fit demo_self demo_train_data demo_val_data 10 5 2 false true
           demo_built demo_model _ Hin).
Defined.

(** X4 at a history without validation metrics. *)
Lemma plot_missing_key_witness :
  (history_keys !! 1%nat = Some "val_accuracy" ∧
   history demo_history_no_validation !! "val_accuracy" = None ∧
   (∀ j k', (j < 1)%nat -> history_keys !! j = Some k' ->
            is_Some (history demo_history_no_validation !! k'))) ∧
  plot_training_performance demo_self demo_history_no_validation true true demo_built
  = (inl (KeyError "val_accuracy"), demo_built).
Proof.
  assert (Hk : history_keys !! 1%nat = Some "val_accuracy") by reflexivity.
  assert (Hnone : history demo_history_no_validation !! "val_accuracy" = None)
    by (vm_compute; reflexivity).
  assert (Hbefore : ∀ j k', (j < 1)%nat -> history_keys !! j = Some k' ->
                            is_Some (history demo_history_no_validation !! k')).
  { intros j k' Hj. destruct j as [|j]; [|lia]. intros [= <-].
    exists [1 # 2]%Q. vm_compute. reflexivity. }
  split; [exact (conj Hk (conj Hnone Hbefore))|].
  exact (plot_missing_key demo_self demo_history_no_validation true true demo_built
           1%nat "val_accuracy" Hk Hnone Hbefore).
Defined.

(** X5 at the history of a run of no epoch: the curves are drawn, then the
    subscript raises. *)
Lemma plot_needs_first_epoch_witness :
  ("loss" ∈ history_keys ∧ history demo_history_no_epoch !! "loss" = Some [] ∧
   accepted (env demo_built) (plot_curve_calls [] [] [] []))
  ∧ (plot_training_performance demo_self demo_history_no_epoch true true demo_built).1
    ≠ inr ()
  ∧ plot_training_performance demo_self demo_history_no_epoch true true demo_built
    = (inl IndexError, after demo_built (plot_curve_calls [] [] [] [])).
Proof.
  assert (Hk : "loss" ∈ history_keys).
  { unfold history_keys. rewrite !elem_of_cons. tauto. }
  assert (H1 : history demo_history_no_epoch !! "accuracy" = Some [])
    by (vm_compute; reflexivity).
  assert (H2 : history demo_history_no_epoch !! "val_accuracy" = Some [])
    by (vm_compute; reflexivity).
  assert (H3 : history demo_history_no_epoch !! "loss" = Some [])
    by (vm_compute; reflexivity).
  assert (H4 : history demo_history_no_epoch !! "val_loss" = Some [])
    by (vm_compute; reflexivity).
  assert (Hacc : accepted (env demo_built) (plot_curve_calls [] [] [] [])).
  { simpl. repeat split. }
  split; [exact (conj Hk (conj H3 Hacc))|].
  destruct (plot_needs_first_epoch demo_self demo_history_no_epoch true true demo_built
              "loss" Hk H3) as (Hnot & _ & Hcurves).
  destruct (Hcurves [] [] [] [] H1 H2 H3 H4) as (_ & Hidx & _).
  exact (conj Hnot (Hidx Hacc)).
Defined.

(** X6 at the history of two epochs. *)
Lemma plot_draws_history_witness :
  (history demo_history !! "accuracy" = Some [1 # 2; 3 # 4]%Q ∧
   history demo_history !! "val_accuracy" = Some [1 # 2; 2 # 3]%Q ∧
   history demo_history !! "loss" = Some [7 # 10; 1 # 2]%Q ∧
   history demo_history !! "val_loss" = Some [7 # 10; 3 # 5]%Q) ∧
  new_events demo_built
    (plot_training_performance demo_self demo_history false true demo_built).2
  `prefix_of` plot_calls (model_dir "graphs" (base_model_name demo_self) false true)
                [1 # 2; 3 # 4]%Q [1 # 2; 2 # 3]%Q [7 # 10; 1 # 2]%Q [7 # 10; 3 # 5]%Q
                (1 # 2)%Q (1 # 2)%Q (7 # 10)%Q (7 # 10)%Q
  ∧ ((plot_training_performance demo_self demo_history false true demo_built).1 = inr ()
     <-> accepted (env demo_built)
           (plot_calls (model_dir "graphs" (base_model_name demo_self) false true)
              [1 # 2; 3 # 4]%Q [1 # 2; 2 # 3]%Q [7 # 10; 1 # 2]%Q [7 # 10; 3 # 5]%Q
              (1 # 2)%Q (1 # 2)%Q (7 # 10)%Q (7 # 10)%Q))
  ∧ ((plot_training_performance demo_self demo_history false true demo_built).1 = inr ()
     -> new_events demo_built
          (plot_training_performance demo_self demo_history false true demo_built).2
        = plot_calls (model_dir "graphs" (base_model_name demo_self) false true)
            [1 # 2; 3 # 4]%Q [1 # 2; 2 # 3]%Q [7 # 10; 1 # 2]%Q [7 # 10; 3 # 5]%Q
            (1 # 2)%Q (1 # 2)%Q (7 # 10)%Q (7 # 10)%Q)
  ∧ (∀ e, (plot_training_performance demo_self demo_history false true demo_built).1
          = inl e ->
       ∃ t ev,
         new_events demo_built
           (plot_training_performance demo_self demo_history false true demo_built).2
         = t ++ [ev] ∧ accepted (env demo_built) t ∧
         fw_raises ev (run_env (env demo_built) t) = Some e).
Proof.
  assert (H1 : history demo_history !! "accuracy" = Some [1 # 2; 3 # 4]%Q)
    by (vm_compute; reflexivity).
  assert (H2 : history demo_history !! "val_accuracy" = Some [1 # 2; 2 # 3]%Q)
    by (vm_compute; reflexivity).
  assert (H3 : history demo_history !! "loss" = Some [7 # 10; 1 # 2]%Q)
    by (vm_compute; reflexivity).
  assert (H4 : history demo_history !! "val_loss" = Some [7 # 10; 3 # 5]%Q)
    by (vm_compute; reflexivity).
  split; [exact (conj H1 (conj H2 (conj H3 H4)))|].
  exact (plot_draws_history demo_self demo_history false true
           _ _ _ _ _ _ _ _ demo_built H1 H2 H3 H4 eq_refl eq_refl eq_refl eq_refl).
Defined.

(** X7 at a prediction of two rows without a column, and at one whose rows
    differ in length. *)
Lemma evaluation_metrics_empty_row_witness :
  evaluation_metrics demo_self [[]; []] demo_val_data true true demo_built
  = (inl (ValueError "attempt to get argmax of an empty sequence"), demo_built)
  ∧ ∃ msg,
      evaluation_metrics demo_self [[9 # 10; 1 # 10]; []]%Q demo_val_data true true
        demo_built
      = (inl (ValueError msg), demo_built).
Proof.
  split.
  - refine (proj1 (evaluation_metrics_empty_row demo_self [[]; []] demo_val_data true true
                     demo_built) (conj _ _)).
    + discriminate.
    + repeat constructor.
  - exact (proj1 (proj2 (evaluation_metrics_empty_row demo_self [[9 # 10; 1 # 10]; []]%Q
                           demo_val_data true true demo_built)) eq_refl).
Defined.

(** X8 at a prediction for two samples. *)
Lemma evaluation_metrics_reports_witness :
  Np.argmax_axis1 demo_prediction = inr [0; 1] ∧
  new_events demo_built
    (evaluation_metrics demo_self demo_prediction demo_val_data false false demo_built).2
  `prefix_of` evaluation_metrics_calls
                (model_dir "graphs" (base_model_name demo_self) false false)
                (classes demo_val_data) [0; 1] (map fst (class_indices demo_val_data))
  ∧ ((evaluation_metrics demo_self demo_prediction demo_val_data false false demo_built).1
       = inr ()
     <-> accepted (env demo_built)
           (evaluation_metrics_calls
              (model_dir "graphs" (base_model_name demo_self) false false)
              (classes demo_val_data) [0; 1] (map fst (class_indices demo_val_data))))
  ∧ ((evaluation_metrics demo_self demo_prediction demo_val_data false false demo_built).1
       = inr ()
     -> new_events demo_built
          (evaluation_metrics demo_self demo_prediction demo_val_data false false
             demo_built).2
        = evaluation_metrics_calls
            (model_dir "graphs" (base_model_name demo_self) false false)
            (classes demo_val_data) [0; 1] (map fst (class_indices demo_val_data)))
  ∧ (∀ e, (evaluation_metrics demo_self demo_prediction demo_val_data false false
             demo_built).1 = inl e ->
       ∃ t ev,
         new_events demo_built
           (evaluation_metrics demo_self demo_prediction demo_val_data false false
              demo_built).2
         = t ++ [ev] ∧ accepted (env demo_built) t ∧
         fw_raises ev (run_env (env demo_built) t) = Some e).
Proof.
  assert (Hp : Np.argmax_axis1 demo_prediction = inr [0; 1]) by reflexivity.
  split; [exact Hp|].
  exact (evaluation_metrics_reports demo_self demo_prediction demo_val_data false false
           [0; 1] demo_built Hp).
Defined.

(** X9 at a prediction for two samples. *)
Lemma evaluation_metrics_order_witness :
  Np.argmax_axis1 demo_prediction = inr [0; 1] ∧
  (∀ ev, ev ∈ new_events demo_built
                (evaluation_metrics demo_self demo_prediction demo_val_data false false
                   demo_built).2 ->
         writes_file ev = true ->
     accepted (env demo_built)
       [ EMetric accuracy_score (classes demo_val_data) [0; 1];
         EMetric (f1_score "macro") (classes demo_val_data) [0; 1];
         EMetric roc_auc_score (classes demo_val_data) [0; 1];
         EPrecisionRecallCurve (classes demo_val_data) [0; 1] ])
  ∧ (∀ ev, ev ∈ new_events demo_built
                  (evaluation_metrics demo_self demo_prediction demo_val_data false false
                     demo_built).2 ->
       ev = EMetric precision_score (classes demo_val_data) [0; 1]
       ∨ ev = EMetric recall_score (classes demo_val_data) [0; 1]
       ∨ (∃ label v, ev = EPrint label v) ->
       ESavefig (Py.os_path_join
                   (model_dir "graphs" (base_model_name demo_self) false false)
                   "precision_recall_graph.png")
         ∈ new_events demo_built
             (evaluation_metrics demo_self demo_prediction demo_val_data false false
                demo_built).2
       ∧ ESavefig (Py.os_path_join
                     (model_dir "graphs" (base_model_name demo_self) false false)
                     "confusion_matrix.png")
           ∈ new_events demo_built
               (evaluation_metrics demo_self demo_prediction demo_val_data false false
                  demo_built).2
       ∧ EShow ∈ new_events demo_built
                   (evaluation_metrics demo_self demo_prediction demo_val_data false false
                      demo_built).2).
Proof.
  assert (Hp : Np.argmax_axis1 demo_prediction = inr [0; 1]) by reflexivity.
  split; [exact Hp|].
  exact (evaluation_metrics_order demo_self demo_prediction demo_val_data false false
           [0; 1] demo_built Hp).
Defined.

(** X10 at the checkpoint of the weighted variant, written with either value
    of [augment]. *)
Lemma artifacts_do_not_collide_witness :
  (base_model_name demo_self ∈ supported_names ∧
   writes demo_self true true (checkpoint "vgg16" true true) ∧
   writes demo_self true false (checkpoint "vgg16" true true)) ∧
  (base_model_name demo_self = base_model_name demo_self
   ∧ true = true ∧ (true = true ∨ true = false))
  ∧ (true = true -> ∀ aug, writes demo_self true aug (checkpoint "vgg16" true true)).
Proof.
  assert (Hn : base_model_name demo_self ∈ supported_names).
  { simpl. unfold supported_names. rewrite !elem_of_cons. tauto. }
  assert (H1 : writes demo_self true true (checkpoint "vgg16" true true)).
  { left. exists demo_train_data, demo_val_data, 10, 5, 2, demo_built.
    vm_compute. left. }
  assert (H2 : writes demo_self true false (checkpoint "vgg16" true true)).
  { left. exists demo_train_data, demo_val_data, 10, 5, 2, demo_built.
    vm_compute. left. }
  split; [exact (conj Hn (conj H1 H2))|].
  exact (artifacts_do_not_collide demo_self true true demo_self true false _ Hn Hn H1 H2).
Defined.

(** X12 at the instance built on the small framework. *)
Lemma methods_use_the_built_model_witness :
  __init__ [120; 120] 2 "sigmoid" "VGG16" demo_world = (inr demo_self, demo_built) ∧
  ∃ m, model demo_self = Some m ∧ m_compiled m = Some head_compile ∧
    (∀ td vd ep s1 s2 cw aug,
       emits (fun ev => ∀ m', model_of ev = Some m' -> m' = m)
         (train demo_self td vd ep s1 s2 cw aug))
    ∧ (∀ vd s, emits (fun ev => ∀ m', model_of ev = Some m' -> m' = m)
                 (evaluate demo_self vd s))
    ∧ (∀ tg s, emits (fun ev => ∀ m', model_of ev = Some m' -> m' = m)
                 (test demo_self tg s)).
Proof.
  assert (Hinit : __init__ [120; 120] 2 "sigmoid" "VGG16" demo_world
                  = (inr demo_self, demo_built)) by (vm_compute; reflexivity).
  split; [exact Hinit|].
  exact (methods_use_the_built_model [120; 120] 2 "sigmoid" "VGG16" demo_world demo_self
           demo_built Hinit).
Defined.

(** X13 at the input shape [(120, 120, 3)], which the small framework
    rejects. *)
Lemma init_backbone_rejected_witness :
  (backbone_of (Py.lower "VGG16") = Some VGG16 ∧
   fw_raises (EApplication VGG16 (backbone_args [120; 120; 3])) (env demo_world)
   = Some (ValueError "input_shape must be a tuple of three integers")) ∧
  __init__ [120; 120; 3] 2 "sigmoid" "VGG16" demo_world
  = (inl (ValueError "input_shape must be a tuple of three integers"),
     after demo_world [EApplication VGG16 (backbone_args [120; 120; 3])]).
Proof.
  assert (Hb : backbone_of (Py.lower "VGG16") = Some VGG16) by reflexivity.
  assert (Hr : fw_raises (EApplication VGG16 (backbone_args [120; 120; 3])) (env demo_world)
               = Some (ValueError "input_shape must be a tuple of three integers"))
    by reflexivity.
  split; [exact (conj Hb Hr)|].
  exact (init_backbone_rejected [120; 120; 3] 2 "sigmoid" "VGG16" demo_world VGG16 _ Hb Hr).
Defined.

(** X14 at a second instance built after the first. *)
Lemma instances_share_no_layer_witness :
  (__init__ [120; 120] 2 "sigmoid" "VGG16" demo_world = (inr demo_self, demo_built) ∧
   model demo_self = Some demo_model) ∧
  (∀ a, a ∈ m_layers demo_model ->
        is_Some (store demo_built !! a) ∧
        store (__init__ [96; 96] 2 "softmax" "ResNet50" demo_built).2 !! a
        = store demo_built !! a)
  ∧ (∀ self2 m2,
       (__init__ [96; 96] 2 "softmax" "ResNet50" demo_built).1 = inr self2 ->
       model self2 = Some m2 ->
       ∀ a, a ∈ m_layers demo_model -> a ∉ m_layers m2).
Proof.
  assert (Hinit : __init__ [120; 120] 2 "sigmoid" "VGG16" demo_world
                  = (inr demo_self, demo_built)) by (vm_compute; reflexivity).
  assert (Hm : model demo_self = Some demo_model) by reflexivity.
  split; [exact (conj Hinit Hm)|].
  exact (instances_share_no_layer [120; 120] 2 "sigmoid" "VGG16" demo_world demo_self
           demo_built [96; 96] 2 "softmax" "ResNet50" demo_built demo_model
           Hinit Hm eq_refl).
Defined.

(** X15 at the instance built on the small framework. *)
Lemma init_stores_its_arguments_witness :
  __init__ [120; 120] 2 "sigmoid" "VGG16" demo_world = (inr demo_self, demo_built) ∧
  input_shape demo_self = [120; 120] ∧ num_classes demo_self = 2 ∧
  activation demo_self = "sigmoid" ∧ base_model_name demo_self = Py.lower "VGG16" ∧
  __init__ (input_shape demo_self) (num_classes demo_self) (activation demo_self)
    (base_model_name demo_self) demo_world = (inr demo_self, demo_built).
Proof.
  assert (Hinit : __init__ [120; 120] 2 "sigmoid" "VGG16" demo_world
                  = (inr demo_self, demo_built)) by (vm_compute; reflexivity).
  split; [exact Hinit|].
  exact (proj2 (init_stores_its_arguments [120; 120] 2 "sigmoid" "VGG16")
           demo_world demo_self demo_built Hinit).
Defined.
